(** * PriceLevelBook: a shallow embedding of [dxfeed-cxx-api/PriceLevelBook.hpp]

    The header keeps a price-aggregated order book.  Order events are netted
    per (side, price) by [convertToUpdates], classified against the stored
    levels by [generatePriceLevelChanges], and applied to two [std::set]s of
    price levels by [processSideRemoval], [processSideAddition] and
    [processSideUpdate], which also maintain the iterators [lastAsk_] and
    [lastBid_].

    Modelling choices.
    - [double] is the kernel's binary64 type [float]; comparisons, sums and
      [std::isnan] are the primitive operations.
    - [dxf_long_t] and [std::int64_t] values are only copied and compared,
      never computed with, so they are [Z].
    - A [std::set<T>] is the list of its elements in iteration order; the
      tree searches are replayed as scans of that list (see [StdSet]).
    - An iterator is either a position in that list or [end()].
    - [orderDataSnapshot_] is a [gmap] from order index to [OrderData]. *)

From Stdlib Require Import ZArith List Bool Lia Floats Sorted.
From stdpp Require Import gmap.
Import ListNotations.

Local Open Scope Z_scope.

(** ** Doubles *)

Definition double := float.

(** [std::numeric_limits<double>::quiet_NaN()] *)
Definition NaN : double := nan.

(** [std::isnan] *)
Definition isnan (x : double) : bool := is_nan x.

(** [std::numeric_limits<double>::epsilon()], that is 2^-52. *)
Definition epsilon : double := Eval vm_compute in Z.ldexp 1%float (-52).

(** ** Records of the header *)

(** [dxf_order_side_t] of DXFeed.h. *)
Inductive dxf_order_side_t := dxf_osd_undefined | dxf_osd_buy | dxf_osd_sell.

Definition side_eqb (a b : dxf_order_side_t) : bool :=
  match a, b with
  | dxf_osd_undefined, dxf_osd_undefined
  | dxf_osd_buy, dxf_osd_buy
  | dxf_osd_sell, dxf_osd_sell => true
  | _, _ => false
  end.

(** The fields of [dxf_order_t] the header reads. *)
Record dxf_order_t := mk_order {
  o_index : Z;
  o_price : double;
  o_size : double;
  o_time : Z;
  o_side : dxf_order_side_t;
  o_event_flags : Z
}.

Arguments mk_order _%_Z (_ _)%_float _%_Z _ _%_Z.

(** Modelled from the spec: DXFeed.h is not part of the sources; an order
    record carries "flags including a removal flag".  The removal flag is one
    bit of [event_flags]; no statement below depends on which one. *)
Definition dxf_ef_remove_event : Z := 2.

Record OrderData := mk_OrderData {
  od_index : Z;
  od_price : double;
  od_size : double;
  od_time : Z;
  od_side : dxf_order_side_t
}.

Arguments mk_OrderData _%_Z (_ _)%_float _%_Z _.

(** [PriceLevel], [AskPriceLevel] and [BidPriceLevel] have the same fields and
    differ only in their [operator<]. *)
Record PriceLevel := mk_PriceLevel {
  price : double;
  size : double;
  time : Z
}.

Arguments mk_PriceLevel (_ _)%_float _%_Z.

(** [PriceLevel{}]: the default member initialisers. *)
Definition PriceLevel_default : PriceLevel := mk_PriceLevel NaN NaN 0.

(** [PriceLevel::isValid]: the header returns [std::isnan(price)]. *)
Definition isValid (pl : PriceLevel) : bool := isnan (price pl).

(** [operator<] of [PriceLevel]. *)
Definition PriceLevel_lt (a b : PriceLevel) : bool :=
  if isnan (price b) then true
  else if isnan (price a) then false
  else (price a <? price b)%float.

(** [operator<] of [AskPriceLevel]. *)
Definition AskPriceLevel_lt (a b : PriceLevel) : bool :=
  if isnan (price b) then true
  else if isnan (price a) then false
  else (price a <? price b)%float.

(** [operator<] of [BidPriceLevel]; [a.price > b.price] is [b.price < a.price]. *)
Definition BidPriceLevel_lt (a b : PriceLevel) : bool :=
  if isnan (price b) then false
  else if isnan (price a) then true
  else (price b <? price a)%float.

(** [isZeroPriceLevel] *)
Definition isZeroPriceLevel (pl : PriceLevel) : bool :=
  (abs (size pl) <? epsilon)%float.

(** [areEqualPrices] *)
Definition areEqualPrices (price1 price2 : double) : bool :=
  (abs (price1 - price2) <? epsilon)%float.

(** ** Outcomes

    Several operations of the header are undefined in C++ on some arguments
    (erasing [end()], stepping past [end()] or before [begin()], using an
    iterator whose element is gone).  The model makes them explicit: such a
    step yields [Undefined] and everything after it is [Undefined] too.
    Reading through [end()] is treated apart, see [deref]. *)

Inductive outcome (A : Type) : Type :=
| Ok (a : A)
| Undefined.

Arguments Ok {A} a.
Arguments Undefined {A}.

#[global] Instance outcome_bind : MBind outcome := fun A B f m =>
  match m with
  | Ok a => f a
  | Undefined => Undefined
  end.

#[global] Instance outcome_ret : MRet outcome := fun A a => Ok a.

(** ** [std::set] as the list of its elements

    The list is the set in iteration order.  The red-black tree finds a key
    by comparing it with the nodes on one path; on a sequence where
    [lt e k] holds on a prefix and [lt k e] on a suffix that path ends where
    a left-to-right scan ends.  Every set of the header has that shape under
    the three comparators (real prices in order, NaN prices at one end), so
    the scans below return what the tree returns. *)

Inductive iterator : Type :=
| it_at (i : nat)
| it_end.

Definition iterator_eqb (a b : iterator) : bool :=
  match a, b with
  | it_at i, it_at j => Nat.eqb i j
  | it_end, it_end => true
  | _, _ => false
  end.

Section StdSet.
Context {T : Type}.
Variable lt : T -> T -> bool.

(** [lower_bound]: the first position whose element is not less than [k]. *)
Fixpoint lower_bound (k : T) (s : list T) : nat :=
  match s with
  | [] => O
  | e :: s' => if lt e k then S (lower_bound k s') else O
  end.

(** [find]: the lower bound, unless it is [end()] or [k] is less than it. *)
Definition set_find (k : T) (s : list T) : iterator :=
  let i := lower_bound k s in
  match nth_error s i with
  | Some e => if lt k e then it_end else it_at i
  | None => it_end
  end.

(** [count] of a [std::set] is 1 when [find] succeeds and 0 otherwise. *)
Definition set_count (k : T) (s : list T) : nat :=
  match set_find k s with
  | it_at _ => 1%nat
  | it_end => 0%nat
  end.

(** [insert]: descend to the first element [k] is less than, then insert
    there unless the element just before is not less than [k] (then an
    equivalent key is present and the set is left as it is). *)
Fixpoint insert_from (prev : option T) (k : T) (s : list T) : list T :=
  match s with
  | [] =>
      match prev with
      | Some p => if lt p k then [k] else []
      | None => [k]
      end
  | e :: s' =>
      if lt k e then
        match prev with
        | Some p => if lt p k then k :: e :: s' else e :: s'
        | None => k :: e :: s'
        end
      else e :: insert_from (Some e) k s'
  end.

Definition set_insert (k : T) (s : list T) : list T := insert_from None k s.

(** [erase(key)]: drops the elements equivalent to [k]. *)
Definition set_erase_key (k : T) (s : list T) : list T :=
  List.filter (fun e => lt e k || lt k e) s.

(** The element an iterator points at; an iterator that points at no
    element of [s] cannot be read. *)
Definition elem (s : list T) (i : nat) : outcome T :=
  match nth_error s i with
  | Some e => Ok e
  | None => Undefined
  end.

(** [erase(iterator)]; erasing [end()] is undefined. *)
Definition set_erase (s : list T) (it : iterator) : outcome (list T) :=
  match it with
  | it_at i => if (i <? length s)%nat then Ok (firstn i s ++ skipn (S i) s) else Undefined
  | it_end => Undefined
  end.

Definition begin (s : list T) : iterator :=
  match s with
  | [] => it_end
  | _ :: _ => it_at 0
  end.

(** [std::next]; stepping from [end()] is undefined. *)
Definition next (s : list T) (it : iterator) : outcome iterator :=
  match it with
  | it_at i =>
      if (S i <? length s)%nat then Ok (it_at (S i))
      else if (S i =? length s)%nat then Ok it_end
      else Undefined
  | it_end => Undefined
  end.

(** [std::prev]; stepping back from [begin()] is undefined. *)
Definition prev (s : list T) (it : iterator) : outcome iterator :=
  match it with
  | it_at (S i) => if (S i <? length s)%nat then Ok (it_at i) else Undefined
  | it_at O => Undefined
  | it_end =>
      match length s with
      | O => Undefined
      | S n => Ok (it_at n)
      end
  end.

(** [*it].  Reading through [end()] is undefined in C++; the usual
    implementations return the bytes that lie behind the header node of the
    tree.  The header reads [*lastElementIter] while the iterator is [end()]
    on its ordinary paths, so the model keeps going with an arbitrary value
    [past_the_end s], about which nothing is ever assumed. *)
Variable past_the_end : list T -> T.

Definition deref (s : list T) (it : iterator) : outcome T :=
  match it with
  | it_at i => elem s i
  | it_end => Ok (past_the_end s)
  end.

(** The vector built from the range [[begin(), last)]. *)
Definition range_to (s : list T) (last : iterator) : outcome (list T) :=
  match last with
  | it_at i => if (i <? length s)%nat then Ok (firstn i s) else Undefined
  | it_end => Ok s
  end.

End StdSet.

(** ** The Delta Translator: [convertToUpdates] *)

Record PriceLevelChanges := mk_PriceLevelChanges {
  asks : list PriceLevel;
  bids : list PriceLevel
}.

Record PriceLevelChangesSet := mk_PriceLevelChangesSet {
  additions : PriceLevelChanges;
  updates : PriceLevelChanges;
  removals : PriceLevelChanges
}.

(** The two local sets [askUpdates] and [bidUpdates], both
    [std::set<PriceLevel>]. *)
Record UpdateSets := mk_UpdateSets {
  askUpdates : list PriceLevel;
  bidUpdates : list PriceLevel
}.

(** The lambda [isOrderRemoval]. *)
Definition isOrderRemoval (o : dxf_order_t) : bool :=
  negb (Z.land (o_event_flags o) dxf_ef_remove_event =? 0)
  || (o_size o =? 0)%float
  || isnan (o_size o).

(** [auto& updatesSide = side == dxf_osd_buy ? bidUpdates : askUpdates]:
    reading the chosen set, and writing it back. *)
Definition updatesSide (side : dxf_order_side_t) (u : UpdateSets) : list PriceLevel :=
  if side_eqb side dxf_osd_buy then bidUpdates u else askUpdates u.

Definition set_updatesSide (side : dxf_order_side_t) (s : list PriceLevel)
    (u : UpdateSets) : UpdateSets :=
  if side_eqb side dxf_osd_buy then mk_UpdateSets (askUpdates u) s
  else mk_UpdateSets s (bidUpdates u).

Definition with_size (pl : PriceLevel) (sz : double) : PriceLevel :=
  mk_PriceLevel (price pl) sz (time pl).

(** The lambda [processOrderAddition]. *)
Definition processOrderAddition (order : dxf_order_t) (u : UpdateSets)
    : outcome UpdateSets :=
  let side := updatesSide (o_side order) u in
  let priceLevelChange := mk_PriceLevel (o_price order) (o_size order) (o_time order) in
  '(priceLevelChange, side) ←
    match set_find PriceLevel_lt priceLevelChange side with
    | it_at i =>
        foundPriceLevel ← elem side i;
        side' ← set_erase side (it_at i);
        Ok (with_size priceLevelChange
              (size foundPriceLevel + size priceLevelChange)%float, side')
    | it_end => Ok (priceLevelChange, side)
    end;
  Ok (set_updatesSide (o_side order) (set_insert PriceLevel_lt priceLevelChange side) u).

(** The lambda [processOrderRemoval]. *)
Definition processOrderRemoval (order : dxf_order_t) (foundOrderData : OrderData)
    (u : UpdateSets) : outcome UpdateSets :=
  let side := updatesSide (od_side foundOrderData) u in
  let priceLevelChange :=
    mk_PriceLevel (od_price foundOrderData) (- od_size foundOrderData)%float
                  (o_time order) in
  '(priceLevelChange, side) ←
    match set_find PriceLevel_lt priceLevelChange side with
    | it_at i =>
        foundPriceLevel ← elem side i;
        side' ← set_erase side (it_at i);
        Ok (with_size priceLevelChange
              (size foundPriceLevel + size priceLevelChange)%float, side')
    | it_end => Ok (priceLevelChange, side)
    end;
  Ok (set_updatesSide (od_side foundOrderData)
        (if isZeroPriceLevel priceLevelChange then side
         else set_insert PriceLevel_lt priceLevelChange side) u).

Definition OrderData_of (order : dxf_order_t) : OrderData :=
  mk_OrderData (o_index order) (o_price order) (o_size order) (o_time order)
               (o_side order).

(** One turn of the loop over the records: the ledger and the two sets
    before, and after.  (The [fmt::print] of each record is not modelled.) *)
Definition convertOrder (order : dxf_order_t)
    (st : gmap Z OrderData * UpdateSets) : outcome (gmap Z OrderData * UpdateSets) :=
  let '(orderDataSnapshot, u) := st in
  let removal := isOrderRemoval order in
  match orderDataSnapshot !! o_index order with
  | None =>
      if removal then Ok (orderDataSnapshot, u)
      else
        u' ← processOrderAddition order u;
        Ok (<[o_index order := OrderData_of order]> orderDataSnapshot, u')
  | Some foundOrderData =>
      if removal then
        u' ← processOrderRemoval order foundOrderData u;
        Ok (delete (od_index foundOrderData) orderDataSnapshot, u')
      else
        u1 ← (if negb (side_eqb (o_side order) (od_side foundOrderData))
              then processOrderRemoval order foundOrderData u
              else Ok u);
        u2 ← processOrderAddition order u1;
        Ok (<[od_index foundOrderData := OrderData_of order]> orderDataSnapshot, u2)
  end.

Fixpoint convertOrders (orders : list dxf_order_t)
    (st : gmap Z OrderData * UpdateSets) : outcome (gmap Z OrderData * UpdateSets) :=
  match orders with
  | [] => Ok st
  | order :: rest => st' ← convertOrder order st; convertOrders rest st'
  end.

(** [convertToUpdates]: the new ledger and the net deltas, asks in the order
    of the set and bids in reverse.  The function opens with two [assert]s,
    [records_count != 0] and one on the event type; they abort a debug build
    and compile to nothing otherwise.  The definition is the body that
    follows them: it is the function on the batches that meet the
    assertions, and on a batch without records it is what a build without
    assertions computes, not the abort.  [processSnapshotData], the only
    caller, returns before the call when the batch has no record (lines
    455-461), so no call it makes fails the first assertion. *)
Definition convertToUpdates (orders : list dxf_order_t)
    (orderDataSnapshot : gmap Z OrderData)
    : outcome (gmap Z OrderData * PriceLevelChanges) :=
  '(orderDataSnapshot', u) ← convertOrders orders (orderDataSnapshot, mk_UpdateSets [] []);
  Ok (orderDataSnapshot', mk_PriceLevelChanges (askUpdates u) (rev (bidUpdates u))).

(** ** The Bounded Level Store: the per-side templates

    The templates are instantiated once with [AskPriceLevel] and once with
    [BidPriceLevel]; here they take the side's [operator<] as [lt].  The
    objects a template receives by reference (the level store, the iterator
    to the last visible level and the change sets of the cycle) are the
    fields of [SideState]. *)

Record SideState := mk_SideState {
  storage : list PriceLevel;
  lastElementIter : iterator;
  additionsSet : list PriceLevel;
  removalsSet : list PriceLevel;
  updatesSet : list PriceLevel
}.

(** The three vectors [generatePriceLevelChanges] appends to. *)
Record ChangeLists := mk_ChangeLists {
  additionsList : list PriceLevel;
  removalsList : list PriceLevel;
  updatesList : list PriceLevel
}.

Section Side.
Variable lt : PriceLevel -> PriceLevel -> bool.
Variable past_the_end : list PriceLevel -> PriceLevel.

(** [generatePriceLevelChanges] *)
Definition generatePriceLevelChanges (priceLevelUpdateSide : PriceLevel)
    (priceLevelStorageSide : list PriceLevel) (c : ChangeLists) : outcome ChangeLists :=
  match set_find lt priceLevelUpdateSide priceLevelStorageSide with
  | it_end =>
      Ok (mk_ChangeLists (additionsList c ++ [priceLevelUpdateSide])
                         (removalsList c) (updatesList c))
  | it_at i =>
      found ← elem priceLevelStorageSide i;
      let newPriceLevelChange :=
        mk_PriceLevel (price found) (size found + size priceLevelUpdateSide)%float
                      (time priceLevelUpdateSide) in
      if isZeroPriceLevel newPriceLevelChange then
        Ok (mk_ChangeLists (additionsList c) (removalsList c ++ [found]) (updatesList c))
      else
        Ok (mk_ChangeLists (additionsList c) (removalsList c)
                           (updatesList c ++ [newPriceLevelChange]))
  end.

(** The closing lines of the three templates: the iterator is set from the
    level [newLastPL] and the store as it is after the change. *)
Definition relocate (newLastPL : PriceLevel) (priceLevelStorageSide : list PriceLevel)
    : iterator :=
  if negb (isValid newLastPL) then it_end
  else set_find lt newLastPL priceLevelStorageSide.

(** [processSideRemoval] *)
Definition processSideRemoval (priceLevelRemovalSide : PriceLevel) (st : SideState)
    (levelsNumber : nat) : outcome SideState :=
  let s := storage st in
  let last := lastElementIter st in
  match s with
  | [] => Ok st
  | _ :: _ =>
    let found := set_find lt priceLevelRemovalSide s in
    if (levelsNumber =? 0)%nat then
      s' ← set_erase s found;
      Ok (mk_SideState s' it_end (additionsSet st)
            (set_insert lt priceLevelRemovalSide (removalsSet st)) (updatesSet st))
    else
      removed ←
        (if (length s <=? levelsNumber)%nat then Ok true
         else n ← next s last; v ← deref past_the_end s n;
              Ok (lt priceLevelRemovalSide v));
      let removals' :=
        if (removed : bool) then set_insert lt priceLevelRemovalSide (removalsSet st)
        else removalsSet st in
      additions' ←
        (if removed && (levelsNumber <? length s)%nat
         then n ← next s last; v ← deref past_the_end s n;
              Ok (set_insert lt v (additionsSet st))
         else Ok (additionsSet st));
      newLastPL ←
        (if removed then
           n ← next s last;
           if negb (iterator_eqb n it_end) then deref past_the_end s n
           else
             l ← deref past_the_end s last;
             if lt priceLevelRemovalSide l then Ok l
             else if negb (iterator_eqb last (begin s))
                  then p ← prev s last; deref past_the_end s p
                  else Ok PriceLevel_default
         else deref past_the_end s last);
      s' ← set_erase s found;
      Ok (mk_SideState s' (relocate newLastPL s') additions' removals' (updatesSet st))
  end.

(** [processSideAddition] *)
Definition processSideAddition (priceLevelAdditionSide : PriceLevel) (st : SideState)
    (levelsNumber : nat) : outcome SideState :=
  let s := storage st in
  let last := lastElementIter st in
  if (levelsNumber =? 0)%nat then
    Ok (mk_SideState (set_insert lt priceLevelAdditionSide s) it_end
          (set_insert lt priceLevelAdditionSide (additionsSet st))
          (removalsSet st) (updatesSet st))
  else
    added ←
      (if (length s <? levelsNumber)%nat then Ok true
       else l ← deref past_the_end s last; Ok (lt priceLevelAdditionSide l));
    let additions1 :=
      if (added : bool) then set_insert lt priceLevelAdditionSide (additionsSet st)
      else additionsSet st in
    '(additions2, removals2) ←
      (if added && (levelsNumber <=? length s)%nat then
         toRemove ← deref past_the_end s last;
         if (0 <? set_count lt toRemove additions1)%nat
         then Ok (set_erase_key lt toRemove additions1, removalsSet st)
         else Ok (additions1, set_insert lt toRemove (removalsSet st))
       else Ok (additions1, removalsSet st));
    newLastPL0 ← deref past_the_end s last;
    newLastPL ←
      (if added then
         inside ←
           (if negb (iterator_eqb last it_end)
            then l ← deref past_the_end s last; Ok (lt priceLevelAdditionSide l)
            else Ok false);
         if (inside : bool) then
           if (length s <? levelsNumber)%nat then deref past_the_end s last
           else
             before ←
               (if negb (iterator_eqb last (begin s))
                then p ← prev s last; l ← deref past_the_end s p;
                     Ok (lt priceLevelAdditionSide l)
                else Ok false);
             if (before : bool) then p ← prev s last; deref past_the_end s p
             else Ok priceLevelAdditionSide
         else Ok priceLevelAdditionSide
       else Ok newLastPL0);
    let s' := set_insert lt priceLevelAdditionSide s in
    Ok (mk_SideState s' (relocate newLastPL s') additions2 removals2 (updatesSet st)).

(** [processSideUpdate] *)
Definition processSideUpdate (priceLevelUpdateSide : PriceLevel) (st : SideState)
    (levelsNumber : nat) : outcome SideState :=
  let s := storage st in
  let last := lastElementIter st in
  let s' := set_insert lt priceLevelUpdateSide (set_erase_key lt priceLevelUpdateSide s) in
  if (levelsNumber =? 0)%nat then
    Ok (mk_SideState s' it_end (additionsSet st) (removalsSet st)
          (set_insert lt priceLevelUpdateSide (updatesSet st)))
  else
    let updates' :=
      if (0 <? set_count lt priceLevelUpdateSide s)%nat
      then set_insert lt priceLevelUpdateSide (updatesSet st)
      else updatesSet st in
    newLastPL ←
      (if negb (iterator_eqb last it_end) then deref past_the_end s last
       else Ok PriceLevel_default);
    Ok (mk_SideState s' (relocate newLastPL s') (additionsSet st) (removalsSet st) updates').

(** The loops of [applyUpdates] over one vector. *)
Fixpoint generateAll (us : list PriceLevel) (priceLevelStorageSide : list PriceLevel)
    (c : ChangeLists) : outcome ChangeLists :=
  match us with
  | [] => Ok c
  | u :: rest =>
      c' ← generatePriceLevelChanges u priceLevelStorageSide c;
      generateAll rest priceLevelStorageSide c'
  end.

Fixpoint forEach (f : PriceLevel -> SideState -> nat -> outcome SideState)
    (ls : list PriceLevel) (st : SideState) (levelsNumber : nat) : outcome SideState :=
  match ls with
  | [] => Ok st
  | l :: rest => st' ← f l st levelsNumber; forEach f rest st' levelsNumber
  end.

(** The part of [applyUpdates] that concerns one side: classify the deltas
    against the store, then removals, additions and updates in that order. *)
Definition applySide (sideUpdates : list PriceLevel) (store : list PriceLevel)
    (last : iterator) (levelsNumber : nat) : outcome SideState :=
  c ← generateAll sideUpdates store (mk_ChangeLists [] [] []);
  st1 ← forEach processSideRemoval (removalsList c)
          (mk_SideState store last [] [] []) levelsNumber;
  st2 ← forEach processSideAddition (additionsList c) st1 levelsNumber;
  forEach processSideUpdate (updatesList c) st2 levelsNumber.

End Side.

(** ** The Book Controller *)

Record PriceLevelBook := mk_PriceLevelBook {
  levelsNumber_ : nat;
  asks_ : list PriceLevel;
  lastAsk_ : iterator;
  bids_ : list PriceLevel;
  lastBid_ : iterator;
  orderDataSnapshot_ : gmap Z OrderData;
  (* whether each [std::function] holds a handler *)
  onNewBook_ : bool;
  onBookUpdate_ : bool;
  onIncrementalChange_ : bool
}.

(** The constructor: empty stores, both iterators at [end()], no handler. *)
Definition create (levelsNumber : nat) : PriceLevelBook :=
  mk_PriceLevelBook levelsNumber [] it_end [] it_end ∅ false false false.

Definition setOnNewBook (b : PriceLevelBook) : PriceLevelBook :=
  mk_PriceLevelBook (levelsNumber_ b) (asks_ b) (lastAsk_ b) (bids_ b) (lastBid_ b)
    (orderDataSnapshot_ b) true (onBookUpdate_ b) (onIncrementalChange_ b).

Definition setOnBookUpdate (b : PriceLevelBook) : PriceLevelBook :=
  mk_PriceLevelBook (levelsNumber_ b) (asks_ b) (lastAsk_ b) (bids_ b) (lastBid_ b)
    (orderDataSnapshot_ b) (onNewBook_ b) true (onIncrementalChange_ b).

Definition setOnIncrementalChange (b : PriceLevelBook) : PriceLevelBook :=
  mk_PriceLevelBook (levelsNumber_ b) (asks_ b) (lastAsk_ b) (bids_ b) (lastBid_ b)
    (orderDataSnapshot_ b) (onNewBook_ b) (onBookUpdate_ b) true.

(** A call of one of the three handlers, with its argument. *)
Inductive Callback :=
| onNewBook (levels : PriceLevelChanges)
| onBookUpdate (levels : PriceLevelChanges)
| onIncrementalChange (changes : PriceLevelChangesSet).

Section Controller.
(** What a read through [asks_.end()] and [bids_.end()] returns. *)
Variable past_the_end : list PriceLevel -> PriceLevel.

(** [applyUpdates]: the book after the cycle and the change-set. *)
Definition applyUpdates (priceLevelUpdates : PriceLevelChanges) (b : PriceLevelBook)
    : outcome (PriceLevelBook * PriceLevelChangesSet) :=
  (* both classification loops run before any store is touched; each reads
     only its own side, so the two sides are computed one after the other *)
  a ← applySide AskPriceLevel_lt past_the_end (asks priceLevelUpdates)
        (asks_ b) (lastAsk_ b) (levelsNumber_ b);
  d ← applySide BidPriceLevel_lt past_the_end (bids priceLevelUpdates)
        (bids_ b) (lastBid_ b) (levelsNumber_ b);
  Ok (mk_PriceLevelBook (levelsNumber_ b) (storage a) (lastElementIter a)
        (storage d) (lastElementIter d) (orderDataSnapshot_ b)
        (onNewBook_ b) (onBookUpdate_ b) (onIncrementalChange_ b),
      mk_PriceLevelChangesSet
        (mk_PriceLevelChanges (additionsSet a) (additionsSet d))
        (mk_PriceLevelChanges (updatesSet a) (updatesSet d))
        (mk_PriceLevelChanges (removalsSet a) (removalsSet d))).

(** [getAsks] and [getBids]: the range from [begin()] to the iterator. *)
Definition getAsks (b : PriceLevelBook) : outcome (list PriceLevel) :=
  range_to (asks_ b) (lastAsk_ b).

Definition getBids (b : PriceLevelBook) : outcome (list PriceLevel) :=
  range_to (bids_ b) (lastBid_ b).

Definition visibleBook (b : PriceLevelBook) : outcome PriceLevelChanges :=
  a ← getAsks b; d ← getBids b; Ok (mk_PriceLevelChanges a d).

Definition with_ledger (b : PriceLevelBook) (m : gmap Z OrderData) : PriceLevelBook :=
  mk_PriceLevelBook (levelsNumber_ b) (asks_ b) (lastAsk_ b) (bids_ b) (lastBid_ b)
    m (onNewBook_ b) (onBookUpdate_ b) (onIncrementalChange_ b).

(** The three [clear()] calls of a new snapshot; the iterators are not
    touched. *)
Definition clearBook (b : PriceLevelBook) : PriceLevelBook :=
  mk_PriceLevelBook (levelsNumber_ b) [] (lastAsk_ b) [] (lastBid_ b)
    ∅ (onNewBook_ b) (onBookUpdate_ b) (onIncrementalChange_ b).

(** [processSnapshotData]: the book after the call and the handler calls it
    made, in order.  [records] are the [records_count] order records. *)
Definition processSnapshotData (records : list dxf_order_t) (newSnapshot : Z)
    (b : PriceLevelBook) : outcome (PriceLevelBook * list Callback) :=
  let newSnap := negb (newSnapshot =? 0) in
  let b := if newSnap then clearBook b else b in
  match records with
  | [] =>
      Ok (b, if newSnap && onNewBook_ b then [onNewBook (mk_PriceLevelChanges [] [])]
             else [])
  | _ :: _ =>
      '(ledger, updates) ← convertToUpdates records (orderDataSnapshot_ b);
      '(b', resultingChangesSet) ← applyUpdates updates (with_ledger b ledger);
      if newSnap then
        if onNewBook_ b' then v ← visibleBook b'; Ok (b', [onNewBook v])
        else Ok (b', [])
      else
        c1 ← (if onIncrementalChange_ b'
              then Ok [onIncrementalChange resultingChangesSet] else Ok []);
        c2 ← (if onBookUpdate_ b'
              then v ← visibleBook b'; Ok [onBookUpdate v] else Ok []);
        Ok (b', c1 ++ c2)
  end.

(** A run of the listener over successive batches. *)
Fixpoint processAll (batches : list (list dxf_order_t * Z)) (b : PriceLevelBook)
    : outcome (PriceLevelBook * list Callback) :=
  match batches with
  | [] => Ok (b, [])
  | (records, newSnapshot) :: rest =>
      '(b', cs) ← processSnapshotData records newSnapshot b;
      '(b'', cs') ← processAll rest b';
      Ok (b'', cs ++ cs')
  end.

End Controller.

(** ** Notions used in the statements *)

(** [a] sorts after [b] under the comparator [lt]: [b < a] and not [a < b]. *)
Definition sorts_after (lt : PriceLevel -> PriceLevel -> bool) (a b : PriceLevel) : Prop :=
  lt b a = true /\ lt a b = false.

(** A level (or an order, or a ledger entry) whose price is a number. *)
Definition real_price (pl : PriceLevel) : Prop := isnan (price pl) = false.


(** The delta an addition of [order] contributes, and the delta a removal of
    the ledger entry [found] contributes, as the two lambdas build them. *)
Definition additionDelta (order : dxf_order_t) : PriceLevel :=
  mk_PriceLevel (o_price order) (o_size order) (o_time order).

Definition removalDelta (order : dxf_order_t) (found : OrderData) : PriceLevel :=
  mk_PriceLevel (od_price found) (- od_size found)%float (o_time order).

(** Two elements are equivalent under a comparator when neither is less
    than the other; this is the identity of a key in a [std::set]. *)
Definition eqvb {T : Type} (lt : T -> T -> bool) (a b : T) : bool :=
  negb (lt a b) && negb (lt b a).

(** A comparator that is a strict weak order on the domain [ok]. *)
Class StrictWeak {T : Type} (lt : T -> T -> bool) (ok : T -> Prop) : Prop := {
  sw_irrefl : forall a, ok a -> lt a a = false;
  sw_trans : forall a b c, ok a -> ok b -> ok c ->
             lt a b = true -> lt b c = true -> lt a c = true;
  sw_negtrans : forall a b c, ok a -> ok b -> ok c ->
                lt a b = false -> lt b c = false -> lt a c = false
}.

(** The element of [s] equivalent to [k], if there is one. *)
Definition set_lookup {T : Type} (lt : T -> T -> bool) (k : T) (s : list T) : option T :=
  List.find (fun e => eqvb lt e k) s.

(** A set in good shape: strictly increasing under [lt], every element in
    the domain [ok] on which [lt] is a strict weak order. *)
Definition set_sorted {T : Type} (lt : T -> T -> bool) (ok : T -> Prop) (s : list T) : Prop :=
  StronglySorted (fun a b => lt a b = true) s /\ Forall ok s.

(** Insertion into a sorted list, the textbook way. *)
Fixpoint ins {T : Type} (lt : T -> T -> bool) (k : T) (s : list T) : list T :=
  match s with
  | [] => [k]
  | e :: s' =>
      if lt k e then k :: e :: s'
      else if lt e k then e :: ins lt k s'
      else e :: s'
  end.

(** An order event whose price is a number unless the event is a removal
    (the price of a removal event is not read), and a ledger all of whose
    entries have a price that is a number. *)
Definition real_order (o : dxf_order_t) : Prop :=
  isOrderRemoval o = false -> isnan (o_price o) = false.

Definition ledger_real (m : gmap Z OrderData) : Prop :=
  forall k v, m !! k = Some v -> isnan (od_price v) = false.

(** The two local sets of the translator in good shape. *)
Definition updates_sorted (u : UpdateSets) : Prop :=
  set_sorted PriceLevel_lt real_price (askUpdates u)
  /\ set_sorted PriceLevel_lt real_price (bidUpdates u).

(** What netting the delta [d] into the set [s] gives, in terms of look-up:
    the size of the level at the price of [d], if any, is added to the size
    of [d], and the sum takes the place of that level; [dropZero] tells
    whether a sum within epsilon of zero is left out (the removal lambda)
    or kept (the addition lambda). *)
Definition netInto (dropZero : bool) (d : PriceLevel) (s : list PriceLevel)
    : list PriceLevel :=
  let d' :=
    match set_lookup PriceLevel_lt d s with
    | Some e => with_size d (size e + size d)%float
    | None => d
    end in
  let s' := set_erase_key PriceLevel_lt d s in
  if dropZero && isZeroPriceLevel d' then s' else ins PriceLevel_lt d' s'.

(** A comparator that looks at the prices only. *)
Class ByPrice (lt : PriceLevel -> PriceLevel -> bool) : Prop :=
  by_price : forall a b a' b',
    price a = price a' -> price b = price b' -> lt a b = lt a' b'.

Fixpoint filter_map {A B : Type} (f : A -> option B) (l : list A) : list B :=
  match l with
  | [] => []
  | x :: l' =>
      match f x with
      | Some y => y :: filter_map f l'
      | None => filter_map f l'
      end
  end.

(** The level [generatePriceLevelChanges] computes from the stored level
    [found] and the delta [u]. *)
Definition netLevel (found u : PriceLevel) : PriceLevel :=
  mk_PriceLevel (price found) (size found + size u)%float (time u).

(** The net level at one price after a cycle, from the level stored before
    (if any) and the delta of the cycle at that price (if any): a level
    whose updated size is within epsilon of zero goes away, a delta at a
    price without a level becomes a level. *)
Definition net_level (old delta : option PriceLevel) : option PriceLevel :=
  match old, delta with
  | None, None => None
  | Some l, None => Some l
  | None, Some d => Some d
  | Some l, Some d =>
      if isZeroPriceLevel (netLevel l d) then None else Some (netLevel l d)
  end.

(** The three vectors of [generatePriceLevelChanges], by look-up. *)
Definition additions_of (lt : PriceLevel -> PriceLevel -> bool)
    (store us : list PriceLevel) : list PriceLevel :=
  filter_map (fun u => match set_lookup lt u store with
                       | None => Some u
                       | Some _ => None
                       end) us.

Definition removals_of (lt : PriceLevel -> PriceLevel -> bool)
    (store us : list PriceLevel) : list PriceLevel :=
  filter_map (fun u => match set_lookup lt u store with
                       | Some found =>
                           if isZeroPriceLevel (netLevel found u) then Some found else None
                       | None => None
                       end) us.

Definition updates_of (lt : PriceLevel -> PriceLevel -> bool)
    (store us : list PriceLevel) : list PriceLevel :=
  filter_map (fun u => match set_lookup lt u store with
                       | Some found =>
                           if isZeroPriceLevel (netLevel found u) then None
                           else Some (netLevel found u)
                       | None => None
                       end) us.

(** Repeated [erase(key)], [insert] and erase-then-insert. *)
Definition erase_all {T : Type} (lt : T -> T -> bool) (rs s : list T) : list T :=
  fold_left (fun s r => set_erase_key lt r s) rs s.

Definition insert_all {T : Type} (lt : T -> T -> bool) (ks s : list T) : list T :=
  fold_left (fun s k => set_insert lt k s) ks s.

Definition update_all {T : Type} (lt : T -> T -> bool) (us s : list T) : list T :=
  fold_left (fun s u => set_insert lt u (set_erase_key lt u s)) us s.

(** The iterator after a loop of [applyUpdates] with depth cap 0: [end()]
    as soon as the loop ran once. *)
Definition last_after (ls : list PriceLevel) (last : iterator) : iterator :=
  match ls with
  | [] => last
  | _ :: _ => it_end
  end.

(** The level store of one side after a cycle with depth cap 0, from the
    store before and the deltas of the side. *)
Definition side_store (lt : PriceLevel -> PriceLevel -> bool)
    (store us : list PriceLevel) : list PriceLevel :=
  update_all lt (updates_of lt store us)
    (insert_all lt (additions_of lt store us)
       (erase_all lt (removals_of lt store us) store)).

(** The change-set of a cycle with depth cap 0. *)
Definition unbounded_changes (asks0 bids0 : list PriceLevel) (deltas : PriceLevelChanges)
    : PriceLevelChangesSet :=
  mk_PriceLevelChangesSet
    (mk_PriceLevelChanges
       (insert_all AskPriceLevel_lt (additions_of AskPriceLevel_lt asks0 (asks deltas)) [])
       (insert_all BidPriceLevel_lt (additions_of BidPriceLevel_lt bids0 (bids deltas)) []))
    (mk_PriceLevelChanges
       (insert_all AskPriceLevel_lt (updates_of AskPriceLevel_lt asks0 (asks deltas)) [])
       (insert_all BidPriceLevel_lt (updates_of BidPriceLevel_lt bids0 (bids deltas)) []))
    (mk_PriceLevelChanges
       (insert_all AskPriceLevel_lt (removals_of AskPriceLevel_lt asks0 (asks deltas)) [])
       (insert_all BidPriceLevel_lt (removals_of BidPriceLevel_lt bids0 (bids deltas)) [])).

(** The book in unbounded mode between two cycles: depth cap 0, both
    iterators at [end()], both stores sorted by their comparator with real
    prices, real prices in the ledger. *)
Definition unbounded_inv (b : PriceLevelBook) : Prop :=
  levelsNumber_ b = 0%nat
  /\ lastAsk_ b = it_end /\ lastBid_ b = it_end
  /\ set_sorted AskPriceLevel_lt real_price (asks_ b)
  /\ set_sorted BidPriceLevel_lt real_price (bids_ b)
  /\ ledger_real (orderDataSnapshot_ b).

(** The book a cycle starts from: cleared when the batch is a new snapshot. *)
Definition start_of_cycle (newSnapshot : Z) (b : PriceLevelBook) : PriceLevelBook :=
  if negb (newSnapshot =? 0) then clearBook b else b.

(** Batches all of whose orders have a real price. *)
Definition real_batches (batches : list (list dxf_order_t * Z)) : Prop :=
  Forall (fun batch => Forall real_order (fst batch)) batches.

(** No two levels, one from each list, have the same price. *)
Definition disjoint_prices (l1 l2 : list PriceLevel) : Prop :=
  forall x y, In x l1 -> In y l2 -> price x <> price y.

(** Whether some level of [l] carries the price [p]. *)
Definition has_price (p : double) (l : list PriceLevel) : Prop :=
  exists pl, In pl l /\ price pl = p.


(** The net size of a price on one side: the sizes of the orders of the
    ledger on that side at that price, added up. *)
Definition net_size (buy : bool) (p : double) (m : gmap Z OrderData) : double :=
  map_fold (fun _ v acc =>
              if Bool.eqb (side_eqb (od_side v) dxf_osd_buy) buy && (od_price v =? p)%float
              then (acc + od_size v)%float else acc) 0%float m.





(** Strictly ascending, and strictly descending, in price. *)
Definition ascending_prices (l : list PriceLevel) : Prop :=
  StronglySorted (fun a b => (price a <? price b)%float = true) l.

Definition descending_prices (l : list PriceLevel) : Prop :=
  StronglySorted (fun a b => (price b <? price a)%float = true) l.

(** The level the two lambdas build from the delta [d] and the level they
    found at its price, if any. *)
Definition netted (d : PriceLevel) (prior : option PriceLevel) : PriceLevel :=
  match prior with
  | Some e => with_size d (size e + size d)%float
  | None => d
  end.

(** A removal event for an order the ledger does not hold. *)
Definition unseen_removal (m : gmap Z OrderData) (o : dxf_order_t) : Prop :=
  isOrderRemoval o = true /\ m !! o_index o = None.

(** The change-set without any change. *)
Definition no_changes : PriceLevelChangesSet :=
  mk_PriceLevelChangesSet (mk_PriceLevelChanges [] []) (mk_PriceLevelChanges [] [])
    (mk_PriceLevelChanges [] []).

(** The handler calls of one call of [processSnapshotData] on a batch with
    records, from the handlers that are set, the change-set [c] and the
    book view [v]: [onNewBook] alone for a new snapshot, otherwise
    [onIncrementalChange] and then [onBookUpdate]. *)
Definition handler_calls (newSnap : bool) (b : PriceLevelBook)
    (c : PriceLevelChangesSet) (v : PriceLevelChanges) : list Callback :=
  if newSnap then (if onNewBook_ b then [onNewBook v] else [])
  else (if onIncrementalChange_ b then [onIncrementalChange c] else [])
       ++ (if onBookUpdate_ b then [onBookUpdate v] else []).

(** The three vectors of [generatePriceLevelChanges] for both sides. *)
Definition classified (b : PriceLevelBook) (deltas : PriceLevelChanges)
    : PriceLevelChangesSet :=
  mk_PriceLevelChangesSet
    (mk_PriceLevelChanges (additions_of AskPriceLevel_lt (asks_ b) (asks deltas))
                          (additions_of BidPriceLevel_lt (bids_ b) (bids deltas)))
    (mk_PriceLevelChanges (updates_of AskPriceLevel_lt (asks_ b) (asks deltas))
                          (updates_of BidPriceLevel_lt (bids_ b) (bids deltas)))
    (mk_PriceLevelChanges (removals_of AskPriceLevel_lt (asks_ b) (asks deltas))
                          (removals_of BidPriceLevel_lt (bids_ b) (bids deltas))).

(** The settings of a book: its depth cap and which handlers are set. *)
Definition same_settings (b b' : PriceLevelBook) : Prop :=
  levelsNumber_ b' = levelsNumber_ b
  /\ onNewBook_ b' = onNewBook_ b
  /\ onBookUpdate_ b' = onBookUpdate_ b
  /\ onIncrementalChange_ b' = onIncrementalChange_ b.

(** Where the bid iterator can be: at [end()], or at the first level, which
    then (if the store has one) has a NaN price. *)
Definition bid_cursor (s : list PriceLevel) (last : iterator) : Prop :=
  last = it_end
  \/ last = it_at 0 /\ (forall e, nth_error s 0 = Some e -> isnan (price e) = true).

(** The book with the same stores, ledger and handlers, without a depth
    cap: cap 0 and both iterators at [end()]. *)
Definition uncapped (b : PriceLevelBook) : PriceLevelBook :=
  mk_PriceLevelBook 0 (asks_ b) it_end (bids_ b) it_end (orderDataSnapshot_ b)
    (onNewBook_ b) (onBookUpdate_ b) (onIncrementalChange_ b).

(** A step of a template that is defined with some cap is defined with cap 0
    and iterator [end()] on the same store, and leaves the same store. *)
Definition store_step (f : PriceLevel -> SideState -> nat -> outcome SideState) : Prop :=
  forall l st st' st0 c,
    f l st c = Ok st' -> storage st0 = storage st -> lastElementIter st0 = it_end ->
    exists st0', f l st0 0%nat = Ok st0' /\ storage st0' = storage st'
                 /\ lastElementIter st0' = it_end.

(** ** Inputs of the examples *)

(** The side-flip scenario: order 1 rests on the bid side at price 10 with
    size 4 and is amended to the ask side, same price, same size. *)
Definition flip_ledger : gmap Z OrderData :=
  {[ 1 := mk_OrderData 1 10 4 0 dxf_osd_buy ]}.

Definition flip_event : dxf_order_t := mk_order 1 10 4 5 dxf_osd_sell 0.

(** The book with depth cap 0 and all three handlers set, after the single
    ask order 1 (price 10, size 5) has been processed. *)
Definition one_ask_book : PriceLevelBook :=
  mk_PriceLevelBook 0 [mk_PriceLevel 10 5 0] it_end [] it_end
    {[ 1 := mk_OrderData 1 10 5 0 dxf_osd_sell ]} true true true.

(** Order 1 is removed and order 2 arrives at the same price with the same
    size: the deltas at (ask, 10) are -5 and +5. *)
Definition net_zero_batch : list dxf_order_t :=
  [ mk_order 1 10 5 7 dxf_osd_sell dxf_ef_remove_event;
    mk_order 2 10 5 7 dxf_osd_sell 0 ].

(** What the examples take a read through [end()] to return. *)
Definition default_past_the_end (_ : list PriceLevel) : PriceLevel := PriceLevel_default.

(** An event that removes order [i]. *)
Definition removal_of (i : Z) : dxf_order_t :=
  mk_order i NaN NaN 0 dxf_osd_undefined dxf_ef_remove_event.

Definition two_ask_batches : list (list dxf_order_t * Z) :=
  [ ([mk_order 1 10 5 0 dxf_osd_sell 0; mk_order 2 12 4 0 dxf_osd_buy 0], 1);
    ([mk_order 3 11 3 1 dxf_osd_sell 0], 0) ].

Definition third_batch : list dxf_order_t :=
  [ removal_of 1; mk_order 3 11 2 2 dxf_osd_sell 0; mk_order 4 9 1 2 dxf_osd_sell 0 ].

(** The book with depth cap 1 after the single bid order 1 with a NaN price:
    the bid iterator points at the stored level. *)
Definition nan_bid_book : PriceLevelBook :=
  mk_PriceLevelBook 1 [] it_end [mk_PriceLevel NaN 5 0] (it_at 0)
    {[ 1 := mk_OrderData 1 NaN 5 0 dxf_osd_buy ]} false false false.

(** Two ask orders at different prices, one batch each. *)
Definition two_asks_one_by_one : list (list dxf_order_t * Z) :=
  [ ([mk_order 1 10 5 0 dxf_osd_sell 0], 0);
    ([mk_order 2 11 3 0 dxf_osd_sell 0], 0) ].

(** Order 1 rests on the ask side at price 10 with size 5 and is amended to
    price 11 with size 7, one batch each. *)
Definition price_amended : list (list dxf_order_t * Z) :=
  [ ([mk_order 1 10 5 0 dxf_osd_sell 0], 0);
    ([mk_order 1 11 7 3 dxf_osd_sell 0], 0) ].

(** ** Tactics *)

(** Case analysis on the integer comparisons inside [SFcompare]. *)
Ltac sf_cases :=
  repeat match goal with
  | |- context [Z.compare ?a ?b] => destruct (Z.compare_spec a b); simpl
  | H : context [Z.compare ?a ?b] |- _ => destruct (Z.compare_spec a b); simpl in H
  | |- context [Pos.compare_cont Eq ?a ?b] =>
      change (Pos.compare_cont Eq a b) with (Pos.compare a b);
      destruct (Pos.compare_spec a b); simpl
  | H : context [Pos.compare_cont Eq ?a ?b] |- _ =>
      change (Pos.compare_cont Eq a b) with (Pos.compare a b) in H;
      destruct (Pos.compare_spec a b); simpl in H
  end.

(** Unfolding the binds of [outcome], and case analysis on the scrutinee of a
    match in a hypothesis. *)
Ltac run_outcome :=
  unfold mbind, outcome_bind, mret, outcome_ret in *; simpl in *.

Ltac break_match_in H :=
  match type of H with
  | context [match ?x with _ => _ end] => destruct x eqn:?; simpl in H
  end.

(** ** The order of doubles

    [<] on doubles that are not NaN is a strict weak order: irreflexive,
    transitive, and with a transitive incomparability (which identifies
    [-0.0] and [+0.0]).  The facts are read off the IEEE specification of
    the primitive comparison. *)

Lemma isnan_spec (x : double) : isnan x = true <-> Prim2SF x = S754_nan.
Proof.
  unfold isnan, is_nan. rewrite FloatAxioms.eqb_spec. unfold SFeqb, SFcompare.
  destruct (Prim2SF x) as [s| [|] | |[|] m e]; simpl;
    rewrite ?Z.compare_refl, ?Pos.compare_cont_refl; simpl;
    split; intros H; try reflexivity; discriminate.
Qed.

Lemma isnan_false_spec (x : double) : isnan x = false <-> Prim2SF x <> S754_nan.
Proof.
  rewrite <- isnan_spec. destruct (isnan x); split; intros; congruence.
Qed.

Lemma ltb_nan_l (x y : double) : isnan x = true -> (x <? y)%float = false.
Proof.
  intros H. apply isnan_spec in H. rewrite FloatAxioms.ltb_spec, H. reflexivity.
Qed.

Lemma ltb_nan_r (x y : double) : isnan y = true -> (x <? y)%float = false.
Proof.
  intros H. apply isnan_spec in H. rewrite FloatAxioms.ltb_spec, H.
  unfold SFltb, SFcompare. destruct (Prim2SF x); reflexivity.
Qed.

Lemma ltb_irrefl (x : double) : (x <? x)%float = false.
Proof.
  rewrite FloatAxioms.ltb_spec. unfold SFltb, SFcompare.
  destruct (Prim2SF x) as [s| [|] | |[|] m e]; simpl;
    rewrite ?Z.compare_refl, ?Pos.compare_cont_refl; reflexivity.
Qed.

Lemma SFltb_trans (a b c : spec_float) :
  SFltb a b = true -> SFltb b c = true -> SFltb a c = true.
Proof.
  unfold SFltb, SFcompare.
  destruct a as [sa|[|]| |[|] ma ea], b as [sb|[|]| |[|] mb eb],
           c as [sc|[|]| |[|] mc ec];
    simpl; try congruence; intros H1 H2; sf_cases;
    try congruence; try lia.
Qed.

Lemma SFltb_negtrans (a b c : spec_float) :
  a <> S754_nan -> b <> S754_nan -> c <> S754_nan ->
  SFltb a b = false -> SFltb b c = false -> SFltb a c = false.
Proof.
  unfold SFltb, SFcompare.
  destruct a as [sa|[|]| |[|] ma ea], b as [sb|[|]| |[|] mb eb],
           c as [sc|[|]| |[|] mc ec];
    simpl; try congruence; intros _ _ _ H1 H2; sf_cases;
    try congruence; try lia.
Qed.

Lemma ltb_trans (x y z : double) :
  (x <? y)%float = true -> (y <? z)%float = true -> (x <? z)%float = true.
Proof. rewrite !FloatAxioms.ltb_spec. apply SFltb_trans. Qed.

Lemma ltb_negtrans (x y z : double) :
  isnan x = false -> isnan y = false -> isnan z = false ->
  (x <? y)%float = false -> (y <? z)%float = false -> (x <? z)%float = false.
Proof.
  rewrite !isnan_false_spec, !FloatAxioms.ltb_spec. apply SFltb_negtrans.
Qed.

(** ** The comparators *)

Lemma AskPriceLevel_lt_real (a b : PriceLevel) :
  real_price a -> real_price b ->
  AskPriceLevel_lt a b = (price a <? price b)%float.
Proof. unfold real_price, AskPriceLevel_lt. intros -> ->. reflexivity. Qed.

Lemma BidPriceLevel_lt_real (a b : PriceLevel) :
  real_price a -> real_price b ->
  BidPriceLevel_lt a b = (price b <? price a)%float.
Proof. unfold real_price, BidPriceLevel_lt. intros -> ->. reflexivity. Qed.

Lemma PriceLevel_lt_real (a b : PriceLevel) :
  real_price a -> real_price b ->
  PriceLevel_lt a b = (price a <? price b)%float.
Proof. unfold real_price, PriceLevel_lt. intros -> ->. reflexivity. Qed.

(** C1 (as amended).  For two levels with real prices the ask comparator is
    [<] on the prices (ascending) and the bid comparator is [>] on the prices
    (descending).  A level whose price is NaN sorts after every level with a
    real price on the ask side, and before every such level on the bid
    side. *)
Theorem C1_comparators (a b : PriceLevel) :
  real_price b ->
  if isnan (price a)
  then sorts_after AskPriceLevel_lt a b /\ sorts_after BidPriceLevel_lt b a
  else AskPriceLevel_lt a b = (price a <? price b)%float
       /\ BidPriceLevel_lt a b = (price b <? price a)%float.
Proof.
  unfold real_price, sorts_after, AskPriceLevel_lt, BidPriceLevel_lt.
  intros Hb. destruct (isnan (price a)) eqn:Ha; rewrite Hb; auto.
Qed.

Lemma C1_comparators_witness :
  real_price (mk_PriceLevel 10 1 0) /\
  (sorts_after AskPriceLevel_lt (mk_PriceLevel NaN 1 0) (mk_PriceLevel 10 1 0)
   /\ sorts_after BidPriceLevel_lt (mk_PriceLevel 10 1 0) (mk_PriceLevel NaN 1 0)).
Proof.
  split; [reflexivity|].
  apply (C1_comparators (mk_PriceLevel NaN 1 0) (mk_PriceLevel 10 1 0)).
  reflexivity.
Defined.

(** C1, the claim as stated fails on the bid side: the level with a NaN price
    does not sort after the level with price 10, it sorts before it. *)
Lemma C1_bid_nan_sorts_first :
  ~ sorts_after BidPriceLevel_lt (mk_PriceLevel NaN 1 0) (mk_PriceLevel 10 1 0)
  /\ BidPriceLevel_lt (mk_PriceLevel NaN 1 0) (mk_PriceLevel 10 1 0) = true
  /\ BidPriceLevel_lt (mk_PriceLevel 10 1 0) (mk_PriceLevel NaN 1 0) = false.
Proof.
  split; [|split; reflexivity].
  intros [H _]. vm_compute in H. discriminate.
Qed.

(** ** First facts about the set operations *)

Section StdSetFacts.
Context {T : Type} (lt : T -> T -> bool).

Lemma lower_bound_le (k : T) (s : list T) : (lower_bound lt k s <= length s)%nat.
Proof. induction s as [|e s IH]; simpl; [lia|]. destruct (lt e k); simpl; lia. Qed.

Lemma lower_bound_not_lt (k : T) (s : list T) (e : T) :
  nth_error s (lower_bound lt k s) = Some e -> lt e k = false.
Proof.
  induction s as [|x s IH]; simpl; [discriminate|].
  destruct (lt x k) eqn:E; simpl; auto. intros [= <-]. exact E.
Qed.

(** A successful [find] points at an element equivalent to the key. *)
Lemma set_find_at (k : T) (s : list T) (i : nat) :
  set_find lt k s = it_at i ->
  exists e, nth_error s i = Some e /\ lt e k = false /\ lt k e = false
            /\ i = lower_bound lt k s.
Proof.
  unfold set_find. destruct (nth_error s (lower_bound lt k s)) as [e|] eqn:E;
    [|discriminate].
  destruct (lt k e) eqn:L; [discriminate|]. intros [= <-].
  exists e. repeat split; auto. eapply lower_bound_not_lt; eauto.
Qed.

Lemma set_find_at_elem (k : T) (s : list T) (i : nat) :
  set_find lt k s = it_at i ->
  exists e, elem s i = Ok e /\ set_erase s (it_at i) = Ok (firstn i s ++ skipn (S i) s).
Proof.
  intros H. destruct (set_find_at _ _ _ H) as (e & Hn & _).
  exists e. unfold elem, set_erase. rewrite Hn. split; [reflexivity|].
  assert (i < length s)%nat as Hl by (apply nth_error_Some; congruence).
  apply Nat.ltb_lt in Hl. rewrite Hl. reflexivity.
Qed.

Lemma In_insert_from (p : option T) (k x : T) (s : list T) :
  In x (insert_from lt p k s) -> x = k \/ In x s.
Proof.
  revert p. induction s as [|e s IH]; intros p; simpl.
  - destruct p as [q|]; [destruct (lt q k)|]; simpl; intuition auto.
  - destruct (lt k e).
    + destruct p as [q|]; [destruct (lt q k)|]; simpl; intuition auto.
    + simpl. intros [->|H]; auto. apply IH in H. tauto.
Qed.

Lemma In_set_insert (k x : T) (s : list T) :
  In x (set_insert lt k s) -> x = k \/ In x s.
Proof. apply In_insert_from. Qed.

End StdSetFacts.

(** ** The Delta Translator *)



Lemma set_updatesSide_other (side : dxf_order_side_t) (s : list PriceLevel) (u : UpdateSets) :
  side_eqb side dxf_osd_buy = false ->
  bidUpdates (set_updatesSide side s u) = bidUpdates u
  /\ askUpdates (set_updatesSide side s u) = s.
Proof. unfold set_updatesSide. intros ->. split; reflexivity. Qed.

(** The scenario evaluated: a bid delta of -4 at 10 and an ask delta of +4
    at 10. *)
Lemma side_flip_deltas :
  convertToUpdates [flip_event] flip_ledger
  = Ok ({[ 1 := mk_OrderData 1 10 4 5 dxf_osd_sell ]},
        mk_PriceLevelChanges [mk_PriceLevel 10 4 5] [mk_PriceLevel 10 (-4) 5]).
Proof. vm_compute. reflexivity. Qed.

(** An event for a known order on the side the ledger holds, whatever its
    price: only the addition lambda runs. *)
Lemma same_side_only_adds (order : dxf_order_t) (found : OrderData)
    (orderDataSnapshot : gmap Z OrderData) (u : UpdateSets) :
  orderDataSnapshot !! o_index order = Some found ->
  isOrderRemoval order = false ->
  o_side order = od_side found ->
  convertOrder order (orderDataSnapshot, u)
  = (u' ← processOrderAddition order u;
     Ok (<[od_index found := OrderData_of order]> orderDataSnapshot, u')).
Proof.
  intros Hf Hr Hs. unfold convertOrder. rewrite Hf, Hr, Hs.
  assert (side_eqb (od_side found) (od_side found) = true) as ->
    by (destruct (od_side found); reflexivity).
  reflexivity.
Qed.

(** C2, the code at the failing input.  Order 1 rests on the ask side at
    price 10 with size 5; the event moves it to price 11 with size 7 on the
    same side.  The translator produces the delta +7 at 11 and nothing at
    price 10: the prior contribution of 5 at 10 is never taken back. *)
Theorem C2_same_side_price_change_keeps_old_level :
  convertToUpdates [mk_order 1 11 7 3 dxf_osd_sell 0]
    {[ 1 := mk_OrderData 1 10 5 0 dxf_osd_sell ]}
  = Ok ({[ 1 := mk_OrderData 1 11 7 3 dxf_osd_sell ]},
        mk_PriceLevelChanges [mk_PriceLevel 11 7 3] []).
Proof. vm_compute. reflexivity. Qed.

(** ** The Book Controller on an empty batch *)

(** C10.  With no record and the new-snapshot flag clear the call makes no
    handler call and returns the book it was given, whichever handlers are
    set. *)
Theorem C10_empty_incremental_batch (past_the_end : list PriceLevel -> PriceLevel)
    (b : PriceLevelBook) :
  processSnapshotData past_the_end [] 0 b = Ok (b, []).
Proof.
  unfold processSnapshotData. simpl. reflexivity.
Qed.

(** ** A batch whose deltas net to zero *)

Lemma one_ask_book_reached (past_the_end : list PriceLevel -> PriceLevel) :
  processSnapshotData past_the_end [mk_order 1 10 5 0 dxf_osd_sell 0] 0
    (setOnIncrementalChange (setOnBookUpdate (setOnNewBook (create 0))))
  = Ok (one_ask_book,
        [ onIncrementalChange
            (mk_PriceLevelChangesSet
               (mk_PriceLevelChanges [mk_PriceLevel 10 5 0] [])
               (mk_PriceLevelChanges [] []) (mk_PriceLevelChanges [] []));
          onBookUpdate (mk_PriceLevelChanges [mk_PriceLevel 10 5 0] []) ]).
Proof. vm_compute. reflexivity. Qed.

(** C6, the code at the failing input.  The translator keeps the delta
    (10, 0) because the addition lambda, unlike the removal lambda, does not
    test for zero; the level at 10 exists, so the delta is classified as an
    update.  The change-set is not empty and the stored level changes (its
    time goes from 0 to 7). *)
Theorem C6_net_zero_batch_emits_update (past_the_end : list PriceLevel -> PriceLevel) :
  convertToUpdates net_zero_batch (orderDataSnapshot_ one_ask_book)
  = Ok ({[ 2 := mk_OrderData 2 10 5 7 dxf_osd_sell ]},
        mk_PriceLevelChanges [mk_PriceLevel 10 0 7] [])
  /\
  processSnapshotData past_the_end net_zero_batch 0 one_ask_book
  = Ok (mk_PriceLevelBook 0 [mk_PriceLevel 10 5 7] it_end [] it_end
          {[ 2 := mk_OrderData 2 10 5 7 dxf_osd_sell ]} true true true,
        [ onIncrementalChange
            (mk_PriceLevelChangesSet
               (mk_PriceLevelChanges [] [])
               (mk_PriceLevelChanges [mk_PriceLevel 10 5 7] [])
               (mk_PriceLevelChanges [] []));
          onBookUpdate (mk_PriceLevelChanges [mk_PriceLevel 10 5 7] []) ]).
Proof. split; vm_compute; reflexivity. Qed.

(** Without deltas [applyUpdates] changes nothing and reports nothing,
    whatever the depth cap. *)
Lemma applyUpdates_no_delta (past_the_end : list PriceLevel -> PriceLevel)
    (b : PriceLevelBook) :
  applyUpdates past_the_end (mk_PriceLevelChanges [] []) b
  = Ok (b, mk_PriceLevelChangesSet (mk_PriceLevelChanges [] [])
             (mk_PriceLevelChanges [] []) (mk_PriceLevelChanges [] [])).
Proof. destruct b. reflexivity. Qed.

(** The same two events in the other order: the removal lambda sees the sum
    0 and drops the delta, the change-set is empty and the stores are as
    before. *)
Lemma net_zero_batch_reversed (past_the_end : list PriceLevel -> PriceLevel) :
  processSnapshotData past_the_end (rev net_zero_batch) 0 one_ask_book
  = Ok (mk_PriceLevelBook 0 [mk_PriceLevel 10 5 0] it_end [] it_end
          {[ 2 := mk_OrderData 2 10 5 7 dxf_osd_sell ]} true true true,
        [ onIncrementalChange
            (mk_PriceLevelChangesSet
               (mk_PriceLevelChanges [] []) (mk_PriceLevelChanges [] [])
               (mk_PriceLevelChanges [] []));
          onBookUpdate (mk_PriceLevelChanges [mk_PriceLevel 10 5 0] []) ]).
Proof. vm_compute. reflexivity. Qed.

(** ** Where the iterator to the last visible level ends up *)

(** The closing lines read: [isValid] is [std::isnan], so a level with a
    real price sends the iterator to [end()] and only a NaN level is looked
    up. *)
Lemma relocate_unfold (lt : PriceLevel -> PriceLevel -> bool) (newLastPL : PriceLevel)
    (s : list PriceLevel) :
  relocate lt newLastPL s
  = if isnan (price newLastPL) then set_find lt newLastPL s else it_end.
Proof. unfold relocate, isValid. destruct (isnan (price newLastPL)); reflexivity. Qed.

Lemma lower_bound_ask_nan (k : PriceLevel) (s : list PriceLevel) :
  isnan (price k) = true -> lower_bound AskPriceLevel_lt k s = length s.
Proof.
  intros Hk. induction s as [|e s IH]; simpl; [reflexivity|].
  unfold AskPriceLevel_lt at 1. rewrite Hk. f_equal. exact IH.
Qed.

(** On the ask side the look-up of a NaN level never succeeds, so the
    iterator is [end()] after every relocation. *)
Lemma relocate_ask (newLastPL : PriceLevel) (s : list PriceLevel) :
  relocate AskPriceLevel_lt newLastPL s = it_end.
Proof.
  rewrite relocate_unfold. destruct (isnan (price newLastPL)) eqn:E; [|reflexivity].
  unfold set_find. rewrite lower_bound_ask_nan by exact E.
  assert (nth_error s (length s) = None) as -> by (apply nth_error_None; lia).
  reflexivity.
Qed.

(** On the bid side the look-up succeeds only when the store begins with a
    NaN level. *)
Lemma relocate_bid (newLastPL : PriceLevel) (s : list PriceLevel) :
  relocate BidPriceLevel_lt newLastPL s
  = match s with
    | e :: _ => if isnan (price newLastPL) && isnan (price e) then it_at 0 else it_end
    | [] => it_end
    end.
Proof.
  rewrite relocate_unfold. destruct (isnan (price newLastPL)) eqn:E.
  - destruct s as [|e s]; [reflexivity|]. unfold set_find. simpl.
    assert (BidPriceLevel_lt e newLastPL = false) as ->
      by (unfold BidPriceLevel_lt; rewrite E; reflexivity).
    simpl. unfold BidPriceLevel_lt. rewrite E.
    destruct (isnan (price e)); reflexivity.
  - destruct s; reflexivity.
Qed.

(** With a depth cap, whenever one of the three templates returns, the
    iterator is [relocate] of some level [newLastPL] and the new store (or
    the store was empty and the removal template left everything as it was):
    [end()] when the price of [newLastPL] is a number, the look-up of
    [newLastPL] when it is NaN. *)
Lemma cursor_after_operation (lt : PriceLevel -> PriceLevel -> bool)
    (past_the_end : list PriceLevel -> PriceLevel) (x : PriceLevel)
    (st st' : SideState) (n : nat) :
  processSideRemoval lt past_the_end x st (S n) = Ok st'
  \/ processSideAddition lt past_the_end x st (S n) = Ok st'
  \/ processSideUpdate lt past_the_end x st (S n) = Ok st' ->
  st' = st
  \/ exists newLastPL,
       lastElementIter st'
       = if isnan (price newLastPL) then set_find lt newLastPL (storage st')
         else it_end.
Proof.
  intros [H|[H|H]].
  - unfold processSideRemoval in H. run_outcome.
    repeat break_match_in H; inversion H; subst; simpl; auto;
      right; eexists; apply relocate_unfold.
  - unfold processSideAddition in H. run_outcome.
    repeat break_match_in H; inversion H; subst; simpl;
      right; eexists; apply relocate_unfold.
  - unfold processSideUpdate in H. run_outcome.
    repeat break_match_in H; inversion H; subst; simpl;
      right; eexists; apply relocate_unfold.
Qed.

(** C3, the code at the failing inputs.
    - Depth cap 1, an empty ask store, the iterator at [end()]; the level
      (10, 5) is added.  The level is stored at position 0 and [newLastPL] is
      that level, but the iterator is left at [end()].
    - Depth cap 1, the ask store holds (10, 5) and the iterator points at
      it; the level is updated to (10, 7).  [newLastPL] is the level the
      iterator pointed at, the store holds the level of that price at
      position 0, and the iterator is set to [end()]. *)
Theorem C3_cursor_goes_to_end (past_the_end : list PriceLevel -> PriceLevel) :
  (processSideAddition AskPriceLevel_lt past_the_end (mk_PriceLevel 10 5 0)
     (mk_SideState [] it_end [] [] []) 1
   = Ok (mk_SideState [mk_PriceLevel 10 5 0] it_end [mk_PriceLevel 10 5 0] [] [])
   /\ set_find AskPriceLevel_lt (mk_PriceLevel 10 5 0) [mk_PriceLevel 10 5 0] = it_at 0
   /\ relocate AskPriceLevel_lt (mk_PriceLevel 10 5 0) [mk_PriceLevel 10 5 0] = it_end)
  /\
  (processSideUpdate AskPriceLevel_lt past_the_end (mk_PriceLevel 10 7 1)
     (mk_SideState [mk_PriceLevel 10 5 0] (it_at 0) [] [] []) 1
   = Ok (mk_SideState [mk_PriceLevel 10 7 1] it_end [] [] [mk_PriceLevel 10 7 1])
   /\ set_find AskPriceLevel_lt (mk_PriceLevel 10 5 0) [mk_PriceLevel 10 7 1] = it_at 0).
Proof. repeat split; vm_compute; reflexivity. Qed.

(** With depth cap 1 a single bid order whose price is NaN is stored, the
    iterator points at it and [getBids], which stops before the iterator,
    returns nothing. *)
Lemma capped_nan_bid_is_hidden (past_the_end : list PriceLevel -> PriceLevel) :
  exists b cs,
    processAll past_the_end [ ([mk_order 1 NaN 5 0 dxf_osd_buy 0], 0) ] (create 1)
    = Ok (b, cs)
    /\ bids_ b = [mk_PriceLevel NaN 5 0] /\ lastBid_ b = it_at 0
    /\ getBids b = Ok [].
Proof. do 2 eexists. split; [vm_compute; reflexivity|]. repeat split. Qed.

(** Whatever the depth cap, every template leaves the ask iterator at
    [end()] (the removal template returns at once on an empty store and then
    leaves the iterator as it was). *)
Lemma processSideAddition_ask_last (past_the_end : list PriceLevel -> PriceLevel)
    (a : PriceLevel) (st st' : SideState) (levelsNumber : nat) :
  processSideAddition AskPriceLevel_lt past_the_end a st levelsNumber = Ok st' ->
  lastElementIter st' = it_end.
Proof.
  unfold processSideAddition. intros H. run_outcome.
  repeat break_match_in H; inversion H; subst; simpl;
    try reflexivity; apply relocate_ask.
Qed.

Lemma processSideUpdate_ask_last (past_the_end : list PriceLevel -> PriceLevel)
    (a : PriceLevel) (st st' : SideState) (levelsNumber : nat) :
  processSideUpdate AskPriceLevel_lt past_the_end a st levelsNumber = Ok st' ->
  lastElementIter st' = it_end.
Proof.
  unfold processSideUpdate. intros H. run_outcome.
  repeat break_match_in H; inversion H; subst; simpl;
    try reflexivity; apply relocate_ask.
Qed.

Lemma processSideRemoval_ask_last (past_the_end : list PriceLevel -> PriceLevel)
    (a : PriceLevel) (st st' : SideState) (levelsNumber : nat) :
  processSideRemoval AskPriceLevel_lt past_the_end a st levelsNumber = Ok st' ->
  lastElementIter st = it_end ->
  lastElementIter st' = it_end.
Proof.
  unfold processSideRemoval. intros H Hl. run_outcome.
  repeat break_match_in H; inversion H; subst; simpl;
    try reflexivity; try assumption; apply relocate_ask.
Qed.

Lemma forEach_last (f : PriceLevel -> SideState -> nat -> outcome SideState)
    (levelsNumber : nat) :
  (forall l st st', f l st levelsNumber = Ok st' ->
     lastElementIter st = it_end -> lastElementIter st' = it_end) ->
  forall ls st st', forEach f ls st levelsNumber = Ok st' ->
    lastElementIter st = it_end -> lastElementIter st' = it_end.
Proof.
  intros Hf ls. induction ls as [|l ls IH]; simpl; intros st st' H Hl.
  - inversion H; subst; assumption.
  - run_outcome. destruct (f l st levelsNumber) as [st1|] eqn:E; [|discriminate].
    eapply IH; eauto.
Qed.

Lemma applySide_ask_last (past_the_end : list PriceLevel -> PriceLevel)
    (us store : list PriceLevel) (levelsNumber : nat) (st : SideState) :
  applySide AskPriceLevel_lt past_the_end us store it_end levelsNumber = Ok st ->
  lastElementIter st = it_end.
Proof.
  unfold applySide. intros H. run_outcome.
  destruct (generateAll _ _ _ _) as [c|]; [|discriminate]. simpl in H.
  destruct (forEach (processSideRemoval _ _) _ _ _) as [st1|] eqn:E1; [|discriminate].
  simpl in H.
  destruct (forEach (processSideAddition _ _) _ _ _) as [st2|] eqn:E2; [|discriminate].
  simpl in H.
  eapply forEach_last in E1; [|intros; eapply processSideRemoval_ask_last; eauto|reflexivity].
  eapply forEach_last in E2; [|intros; eapply processSideAddition_ask_last; eauto|exact E1].
  eapply forEach_last in H; [exact H|intros; eapply processSideUpdate_ask_last; eauto|exact E2].
Qed.

Lemma processSnapshotData_ask_last (past_the_end : list PriceLevel -> PriceLevel)
    (records : list dxf_order_t) (newSnapshot : Z) (b b' : PriceLevelBook)
    (cs : list Callback) :
  processSnapshotData past_the_end records newSnapshot b = Ok (b', cs) ->
  lastAsk_ b = it_end -> lastAsk_ b' = it_end.
Proof.
  unfold processSnapshotData. intros H Hl.
  set (b0 := if negb (newSnapshot =? 0) then clearBook b else b) in *.
  assert (lastAsk_ b0 = it_end) as Hl0
    by (unfold b0; destruct (negb _); simpl; exact Hl).
  clearbody b0. destruct records as [|r rs].
  - inversion H; subst. exact Hl0.
  - run_outcome.
    destruct (convertToUpdates _ _) as [[ledger us]|]; [|discriminate]. simpl in H.
    unfold applyUpdates in H. run_outcome. rewrite Hl0 in H.
    destruct (applySide AskPriceLevel_lt _ _ _ _ _) as [a|] eqn:Ea; [|discriminate].
    simpl in H. apply applySide_ask_last in Ea.
    destruct (applySide BidPriceLevel_lt _ _ _ _ _) as [d|]; [|discriminate].
    simpl in H.
    repeat break_match_in H; inversion H; subst; simpl; exact Ea.
Qed.

(** With any depth cap the ask iterator is [end()] after every run, so
    [getAsks] returns the whole ask store. *)
Lemma getAsks_is_whole_store (past_the_end : list PriceLevel -> PriceLevel)
    (batches : list (list dxf_order_t * Z)) (b b' : PriceLevelBook)
    (cs : list Callback) :
  lastAsk_ b = it_end ->
  processAll past_the_end batches b = Ok (b', cs) ->
  getAsks b' = Ok (asks_ b').
Proof.
  revert b cs. induction batches as [|[records newSnapshot] rest IH]; intros b cs Hl H.
  - inversion H; subst. unfold getAsks. rewrite Hl. reflexivity.
  - simpl in H. run_outcome.
    destruct (processSnapshotData _ _ _ _) as [[b1 cs1]|] eqn:E; [|discriminate].
    simpl in H. apply processSnapshotData_ask_last in E; [|exact Hl].
    destruct (processAll _ rest b1) as [[b2 cs2]|] eqn:E2; [|discriminate].
    simpl in H. inversion H; subst. eapply IH; eauto.
Qed.

(** C4, the code at the failing input.  Depth cap 1; the ask orders 1 (price
    10) and 2 (price 11) arrive in two incremental batches.  Whatever the
    read through [end()] returns, [getAsks] then returns two levels. *)
Theorem C4_two_visible_asks_with_cap_1 (past_the_end : list PriceLevel -> PriceLevel) :
  exists b cs,
    processAll past_the_end
      [ ([mk_order 1 10 5 0 dxf_osd_sell 0], 0);
        ([mk_order 2 11 3 0 dxf_osd_sell 0], 0) ] (create 1) = Ok (b, cs)
    /\ levelsNumber_ b = 1%nat
    /\ getAsks b = Ok [mk_PriceLevel 10 5 0; mk_PriceLevel 11 3 0].
Proof.
  vm_compute.
  destruct (past_the_end _) as [jp js jt].
  repeat (match goal with
          | |- context [PrimFloat.ltb ?a ?b] => destruct (PrimFloat.ltb a b)
          | |- context [PrimFloat.eqb ?a ?b] => destruct (PrimFloat.eqb a b)
          end; vm_compute);
    do 2 eexists; split; try reflexivity; split; reflexivity.
Qed.

(** ** Sets under a strict weak order

    The lemmas of this section hold for any comparator that is irreflexive,
    transitive and negatively transitive on a domain [ok]; the three
    comparators of the header are such on the levels with a real price. *)

Section SortedSets.
Context {T : Type} (lt : T -> T -> bool) (ok : T -> Prop) `{!StrictWeak lt ok}.

Lemma lt_asym (a b : T) : ok a -> ok b -> lt a b = true -> lt b a = false.
Proof.
  intros Ha Hb H. destruct (lt b a) eqn:E; [|reflexivity].
  rewrite <- (sw_irrefl a Ha). symmetry. eapply sw_trans; eauto.
Qed.

Lemma eqvb_true (a b : T) : eqvb lt a b = true <-> lt a b = false /\ lt b a = false.
Proof.
  unfold eqvb. destruct (lt a b), (lt b a); simpl; intuition congruence.
Qed.

Lemma eqvb_refl (a : T) : ok a -> eqvb lt a a = true.
Proof. intros Ha. apply eqvb_true. rewrite sw_irrefl; auto. Qed.

Lemma eqvb_sym (a b : T) : eqvb lt a b = eqvb lt b a.
Proof. unfold eqvb. apply andb_comm. Qed.

Lemma lt_eqv_l (a b c : T) :
  ok a -> ok b -> ok c -> eqvb lt a b = true -> lt a c = lt b c.
Proof.
  intros Ha Hb Hc H. apply eqvb_true in H as [H1 H2].
  destruct (lt b c) eqn:E.
  - destruct (lt a c) eqn:E'; [reflexivity|].
    rewrite <- E. symmetry. apply (sw_negtrans b a c); auto.
  - apply (sw_negtrans a b c); auto.
Qed.

Lemma lt_eqv_r (a b c : T) :
  ok a -> ok b -> ok c -> eqvb lt a b = true -> lt c a = lt c b.
Proof.
  intros Ha Hb Hc H. apply eqvb_true in H as [H1 H2].
  destruct (lt c b) eqn:E.
  - destruct (lt c a) eqn:E'; [reflexivity|].
    rewrite <- E. symmetry. apply (sw_negtrans c a b); auto.
  - apply (sw_negtrans c b a); auto.
Qed.

Lemma eqvb_eqv (a b c : T) :
  ok a -> ok b -> ok c -> eqvb lt a b = true -> eqvb lt a c = eqvb lt b c.
Proof.
  intros Ha Hb Hc H. unfold eqvb.
  rewrite (lt_eqv_l a b c), (lt_eqv_r a b c); auto.
Qed.

Lemma eqvb_trans (a b c : T) :
  ok a -> ok b -> ok c -> eqvb lt a b = true -> eqvb lt b c = true -> eqvb lt a c = true.
Proof. intros Ha Hb Hc H1 H2. rewrite (eqvb_eqv a b c); auto. Qed.

Lemma lt_not_eqv (a b : T) : lt a b = true -> eqvb lt a b = false.
Proof. unfold eqvb. intros ->. reflexivity. Qed.

Lemma lt_not_eqv' (a b : T) : lt a b = true -> eqvb lt b a = false.
Proof. rewrite eqvb_sym. apply lt_not_eqv. Qed.

(** *** Sorted sets *)

Lemma set_sorted_nil : set_sorted lt ok [].
Proof. split; constructor. Qed.

Lemma set_sorted_cons (e : T) (s : list T) :
  set_sorted lt ok (e :: s) <->
  ok e /\ Forall (fun x => lt e x = true) s /\ set_sorted lt ok s.
Proof.
  unfold set_sorted. split.
  - intros [Hs Ho]. inversion Hs; subst. inversion Ho; subst. tauto.
  - intros (He & Hl & Hs & Ho). split; constructor; auto.
Qed.

Lemma set_sorted_ok (s : list T) (x : T) : set_sorted lt ok s -> In x s -> ok x.
Proof. intros [_ Ho] Hi. rewrite List.Forall_forall in Ho. auto. Qed.

(** Equivalent elements of a sorted set are the same element. *)
Lemma set_sorted_unique (s : list T) (a b : T) :
  set_sorted lt ok s -> In a s -> In b s -> eqvb lt a b = true -> a = b.
Proof.
  induction s as [|e s IH]; intros Hs Ha Hb He; [destruct Ha|].
  apply set_sorted_cons in Hs as (Hoe & Hl & Hs). rewrite List.Forall_forall in Hl.
  destruct Ha as [<-|Ha], Hb as [<-|Hb]; auto.
  - rewrite lt_not_eqv in He by auto. discriminate.
  - rewrite lt_not_eqv' in He by auto. discriminate.
Qed.

Lemma set_lookup_Some (k e : T) (s : list T) :
  set_lookup lt k s = Some e -> In e s /\ eqvb lt e k = true.
Proof. unfold set_lookup. intros H. apply find_some in H. exact H. Qed.

Lemma set_lookup_None (k : T) (s : list T) :
  set_lookup lt k s = None <-> forall e, In e s -> eqvb lt e k = false.
Proof.
  unfold set_lookup. split.
  - intros H e He. eapply find_none in H; eauto.
  - intros H. induction s as [|x s IH]; simpl; [reflexivity|].
    rewrite (H x) by (left; reflexivity). apply IH. intros e He. apply H. right. exact He.
Qed.

Lemma set_lookup_In (s : list T) (e : T) :
  set_sorted lt ok s -> In e s -> set_lookup lt e s = Some e.
Proof.
  intros Hs He. destruct (set_lookup lt e s) as [x|] eqn:E.
  - apply set_lookup_Some in E as [Hx Hxe]. f_equal.
    eapply set_sorted_unique; eauto.
  - rewrite set_lookup_None in E. specialize (E e He).
    rewrite eqvb_refl in E by (eapply set_sorted_ok; eauto). discriminate.
Qed.

(** The look-up depends on the key only up to equivalence. *)
Lemma set_lookup_eqv (k k' : T) (s : list T) :
  ok k -> ok k' -> Forall ok s -> eqvb lt k k' = true ->
  set_lookup lt k s = set_lookup lt k' s.
Proof.
  intros Hk Hk' Ho He. unfold set_lookup. induction Ho as [|x s Hx Ho IH]; simpl; [reflexivity|].
  rewrite IH. rewrite (eqvb_sym x k), (eqvb_sym x k'), (eqvb_eqv k k' x); auto.
Qed.

(** *** [find] *)

Lemma set_find_cons_lt (k e : T) (s : list T) :
  lt e k = true ->
  set_find lt k (e :: s)
  = match set_find lt k s with it_at i => it_at (S i) | it_end => it_end end.
Proof.
  intros H. unfold set_find. simpl. rewrite H. simpl.
  destruct (nth_error s (lower_bound lt k s)) as [x|]; [|reflexivity].
  destruct (lt k x); reflexivity.
Qed.

Lemma set_find_cons_nlt (k e : T) (s : list T) :
  lt e k = false ->
  set_find lt k (e :: s) = if lt k e then it_end else it_at 0.
Proof. intros H. unfold set_find. simpl. rewrite H. reflexivity. Qed.

Lemma set_lookup_cons (k e : T) (s : list T) :
  set_lookup lt k (e :: s) = if eqvb lt e k then Some e else set_lookup lt k s.
Proof. reflexivity. Qed.

Lemma sorted_above (k e : T) (s : list T) :
  ok k -> set_sorted lt ok (e :: s) -> lt k e = true ->
  forall x, In x s -> lt k x = true.
Proof.
  intros Hk Hs Hke x Hx. apply set_sorted_cons in Hs as (He & Hl & Hs).
  rewrite List.Forall_forall in Hl.
  eapply (sw_trans k e x); eauto. eapply set_sorted_ok; eauto.
Qed.

(** [find] returns the position of the element equivalent to the key, and
    [end()] exactly when the set has none. *)
Lemma set_find_spec (k : T) (s : list T) :
  set_sorted lt ok s -> ok k ->
  match set_find lt k s with
  | it_at i => exists e, nth_error s i = Some e /\ set_lookup lt k s = Some e
  | it_end => set_lookup lt k s = None
  end.
Proof.
  intros Hs Hk. induction s as [|e s IH]; [reflexivity|].
  pose proof Hs as Hs'. apply set_sorted_cons in Hs' as (He & Hl & Hs').
  specialize (IH Hs'). rewrite set_lookup_cons.
  destruct (lt e k) eqn:E.
  - rewrite set_find_cons_lt by exact E. rewrite lt_not_eqv by exact E.
    destruct (set_find lt k s) as [i|]; exact IH.
  - rewrite set_find_cons_nlt by exact E. destruct (lt k e) eqn:E'.
    + rewrite lt_not_eqv' by exact E'. apply set_lookup_None. intros x Hx.
      apply lt_not_eqv'. eapply sorted_above; eauto.
    + exists e. split; [reflexivity|].
      assert (eqvb lt e k = true) as -> by (apply eqvb_true; auto). reflexivity.
Qed.

(** *** [erase] *)

Lemma filter_all (f : T -> bool) (s : list T) :
  (forall x, In x s -> f x = true) -> List.filter f s = s.
Proof.
  induction s as [|e s IH]; intros H; simpl; [reflexivity|].
  rewrite (H e) by (left; reflexivity). f_equal. apply IH.
  intros x Hx. apply H. right. exact Hx.
Qed.

(** Erasing the element [find] returned is erasing by key. *)
Lemma set_erase_found (k : T) (s : list T) (i : nat) :
  set_sorted lt ok s -> ok k -> set_find lt k s = it_at i ->
  firstn i s ++ skipn (S i) s = set_erase_key lt k s.
Proof.
  intros Hs Hk. revert i. induction s as [|e s IH]; intros i Hf; [discriminate|].
  pose proof Hs as Hs'. apply set_sorted_cons in Hs' as (He & Hl & Hs').
  unfold set_erase_key. simpl. destruct (lt e k) eqn:E.
  - rewrite set_find_cons_lt in Hf by exact E.
    destruct (set_find lt k s) as [j|] eqn:Fj; [|discriminate].
    injection Hf as <-. simpl. f_equal. apply IH; auto.
  - rewrite set_find_cons_nlt in Hf by exact E.
    destruct (lt k e) eqn:E'; [discriminate|]. injection Hf as <-. simpl.
    symmetry. apply filter_all. intros x Hx.
    rewrite List.Forall_forall in Hl.
    assert (ok x) as Hox by (eapply set_sorted_ok; eauto).
    assert (lt k x = true) as ->.
    { rewrite <- (lt_eqv_l e k x); auto. apply eqvb_true. auto. }
    apply orb_true_r.
Qed.

Lemma set_sorted_filter (f : T -> bool) (s : list T) :
  set_sorted lt ok s -> set_sorted lt ok (List.filter f s).
Proof.
  induction s as [|e s IH]; intros Hs; [exact Hs|].
  apply set_sorted_cons in Hs as (He & Hl & Hs). simpl.
  destruct (f e); [|auto]. apply set_sorted_cons. split; [auto|split; [|auto]].
  rewrite List.Forall_forall in *. intros x Hx. apply filter_In in Hx as [Hx _]. auto.
Qed.

Lemma set_erase_key_sorted (k : T) (s : list T) :
  set_sorted lt ok s -> set_sorted lt ok (set_erase_key lt k s).
Proof. apply set_sorted_filter. Qed.

Lemma In_set_erase_key (k x : T) (s : list T) :
  In x (set_erase_key lt k s) <-> In x s /\ eqvb lt x k = false.
Proof.
  unfold set_erase_key. rewrite filter_In. unfold eqvb.
  destruct (lt x k), (lt k x); simpl; intuition congruence.
Qed.

Lemma set_lookup_erase_key (k k' : T) (s : list T) :
  Forall ok s -> ok k -> ok k' ->
  set_lookup lt k' (set_erase_key lt k s)
  = if eqvb lt k k' then None else set_lookup lt k' s.
Proof.
  intros Ho Hk Hk'. induction Ho as [|x s Hx Ho IH]; simpl.
  - destruct (eqvb lt k k'); reflexivity.
  - assert (lt x k || lt k x = negb (eqvb lt x k)) as ->
      by (unfold eqvb; destruct (lt x k), (lt k x); reflexivity).
    destruct (eqvb lt x k) eqn:Exk; simpl.
    + rewrite IH. rewrite (eqvb_eqv x k k') by auto.
      destruct (eqvb lt k k'); reflexivity.
    + rewrite IH. destruct (eqvb lt k k') eqn:Ekk'; [|reflexivity].
      rewrite (eqvb_sym x k'), <- (eqvb_eqv k k' x), (eqvb_sym k x), Exk by auto.
      reflexivity.
Qed.

(** *** [insert] *)

Lemma insert_from_ins (k : T) (s : list T) (p : T) :
  ok k -> set_sorted lt ok (p :: s) -> lt k p = false ->
  insert_from lt (Some p) k s = if lt p k then ins lt k s else s.
Proof.
  intros Hk. revert p. induction s as [|e s IH]; intros p Hs Hkp; simpl.
  - destruct (lt p k); reflexivity.
  - pose proof Hs as Hs'. apply set_sorted_cons in Hs' as (Hp & Hl & Hs').
    destruct (lt k e) eqn:E.
    + destruct (lt p k); reflexivity.
    + rewrite IH by auto. destruct (lt p k) eqn:Epk; [destruct (lt e k); reflexivity|].
      assert (lt p e = true) as Hpe
        by (rewrite List.Forall_forall in Hl; apply Hl; left; reflexivity).
      assert (ok e) as He by (eapply set_sorted_ok; [exact Hs'|left; reflexivity]).
      rewrite (lt_eqv_l p k e) in Hpe by (auto; apply eqvb_true; auto).
      congruence.
Qed.

(** On a sorted set [insert] is the textbook insertion. *)
Lemma set_insert_ins (k : T) (s : list T) :
  ok k -> set_sorted lt ok s -> set_insert lt k s = ins lt k s.
Proof.
  intros Hk Hs. destruct s as [|e s]; [reflexivity|].
  unfold set_insert. simpl. destruct (lt k e) eqn:E; [reflexivity|].
  rewrite insert_from_ins by auto. destruct (lt e k); reflexivity.
Qed.

Lemma In_ins (k x : T) (s : list T) : In x (ins lt k s) -> x = k \/ In x s.
Proof.
  induction s as [|e s IH]; simpl.
  - intuition auto.
  - destruct (lt k e); [simpl; intuition auto|].
    destruct (lt e k); simpl; intuition auto.
Qed.

Lemma ins_sorted (k : T) (s : list T) :
  ok k -> set_sorted lt ok s -> set_sorted lt ok (ins lt k s).
Proof.
  intros Hk. induction s as [|e s IH]; intros Hs; simpl.
  - apply set_sorted_cons. split; [auto|split; [constructor|apply set_sorted_nil]].
  - pose proof Hs as Hs'. apply set_sorted_cons in Hs' as (He & Hl & Hs').
    destruct (lt k e) eqn:E.
    + apply set_sorted_cons. split; [auto|split; [|exact Hs]].
      constructor; [exact E|]. rewrite List.Forall_forall. intros x Hx.
      eapply sorted_above; eauto.
    + destruct (lt e k) eqn:E'; [|exact Hs].
      apply set_sorted_cons. split; [auto|split; [|auto]].
      rewrite List.Forall_forall in *. intros x Hx.
      apply In_ins in Hx as [->|Hx]; auto.
Qed.

Lemma set_insert_sorted (k : T) (s : list T) :
  ok k -> set_sorted lt ok s -> set_sorted lt ok (set_insert lt k s).
Proof. intros Hk Hs. rewrite set_insert_ins by auto. apply ins_sorted; auto. Qed.

(** Inserting a key the set does not hold adds exactly that key. *)
Lemma set_lookup_ins (k k' : T) (s : list T) :
  ok k -> ok k' -> Forall ok s -> set_lookup lt k s = None ->
  set_lookup lt k' (ins lt k s)
  = if eqvb lt k k' then Some k else set_lookup lt k' s.
Proof.
  intros Hk Hk' Ho. induction Ho as [|e s He Ho IH]; intros Hn; simpl.
  - reflexivity.
  - rewrite set_lookup_cons in Hn. destruct (eqvb lt e k) eqn:Eek; [discriminate|].
    destruct (lt k e) eqn:E; [reflexivity|].
    destruct (lt e k) eqn:E'.
    + rewrite set_lookup_cons, IH by exact Hn.
      destruct (eqvb lt k k') eqn:Ekk'; [|reflexivity].
      rewrite (eqvb_sym e k'), <- (eqvb_eqv k k' e), (eqvb_sym k e), Eek by auto.
      reflexivity.
    + assert (eqvb lt e k = true) by (apply eqvb_true; auto). congruence.
Qed.

Lemma set_lookup_insert (k k' : T) (s : list T) :
  ok k -> ok k' -> set_sorted lt ok s -> set_lookup lt k s = None ->
  set_lookup lt k' (set_insert lt k s)
  = if eqvb lt k k' then Some k else set_lookup lt k' s.
Proof.
  intros Hk Hk' Hs Hn. rewrite set_insert_ins by auto.
  apply set_lookup_ins; auto. apply Hs.
Qed.

End SortedSets.

(** ** The three comparators are strict weak orders on real prices *)

#[global] Instance AskPriceLevel_StrictWeak : StrictWeak AskPriceLevel_lt real_price.
Proof.
  split.
  - intros a Ha. rewrite AskPriceLevel_lt_real by auto. apply ltb_irrefl.
  - intros a b c Ha Hb Hc. rewrite !AskPriceLevel_lt_real by auto. apply ltb_trans.
  - intros a b c Ha Hb Hc. rewrite !AskPriceLevel_lt_real by auto.
    apply ltb_negtrans; auto.
Qed.

#[global] Instance PriceLevel_StrictWeak : StrictWeak PriceLevel_lt real_price.
Proof. exact AskPriceLevel_StrictWeak. Qed.

#[global] Instance BidPriceLevel_StrictWeak : StrictWeak BidPriceLevel_lt real_price.
Proof.
  split.
  - intros a Ha. rewrite BidPriceLevel_lt_real by auto. apply ltb_irrefl.
  - intros a b c Ha Hb Hc. rewrite !BidPriceLevel_lt_real by auto.
    intros H1 H2. eapply ltb_trans; eauto.
  - intros a b c Ha Hb Hc. rewrite !BidPriceLevel_lt_real by auto.
    intros H1 H2. apply (ltb_negtrans _ (price b)); auto.
Qed.

Lemma PriceLevel_lt_is_ask : PriceLevel_lt = AskPriceLevel_lt.
Proof. reflexivity. Qed.

(** ** The translator keeps its sets sorted and nets by look-up *)

Lemma with_size_real (d : PriceLevel) (sz : double) :
  real_price d -> real_price (with_size d sz).
Proof. intros H. exact H. Qed.

Lemma with_size_lt_l (d x : PriceLevel) (sz : double) :
  PriceLevel_lt (with_size d sz) x = PriceLevel_lt d x.
Proof. reflexivity. Qed.

Lemma with_size_lt_r (d x : PriceLevel) (sz : double) :
  PriceLevel_lt x (with_size d sz) = PriceLevel_lt x d.
Proof. reflexivity. Qed.

(** The common part of the two lambdas: look the delta up, add the sizes,
    erase the old entry. *)
Lemma accumulate_spec (d : PriceLevel) (s : list PriceLevel) :
  set_sorted PriceLevel_lt real_price s -> real_price d ->
  match set_find PriceLevel_lt d s with
  | it_at i =>
      foundPriceLevel ← elem s i;
      side' ← set_erase s (it_at i);
      Ok (with_size d (size foundPriceLevel + size d)%float, side')
  | it_end => Ok (d, s)
  end
  = Ok (match set_lookup PriceLevel_lt d s with
        | Some e => with_size d (size e + size d)%float
        | None => d
        end, set_erase_key PriceLevel_lt d s).
Proof.
  intros Hs Hd.
  pose proof (set_find_spec PriceLevel_lt real_price d s Hs Hd) as Hf.
  destruct (set_find PriceLevel_lt d s) as [i|] eqn:F.
  - destruct Hf as (e & Hn & Hl). rewrite Hl.
    destruct (set_find_at_elem _ _ _ _ F) as (e' & He' & Her).
    rewrite He', Her. run_outcome.
    unfold elem in He'. rewrite Hn in He'. injection He' as <-.
    rewrite (set_erase_found PriceLevel_lt real_price d s i Hs Hd F).
    reflexivity.
  - rewrite Hf. do 2 f_equal. symmetry. apply filter_all.
    rewrite set_lookup_None in Hf. intros x Hx. specialize (Hf x Hx).
    unfold eqvb in Hf. destruct (PriceLevel_lt x d), (PriceLevel_lt d x);
      simpl in *; congruence.
Qed.

Lemma netInto_sorted (dropZero : bool) (d : PriceLevel) (s : list PriceLevel) :
  set_sorted PriceLevel_lt real_price s -> real_price d ->
  set_sorted PriceLevel_lt real_price (netInto dropZero d s).
Proof.
  intros Hs Hd. unfold netInto.
  assert (set_sorted PriceLevel_lt real_price (set_erase_key PriceLevel_lt d s)) as Hs'
    by (apply set_erase_key_sorted; exact Hs).
  destruct (dropZero && _); [exact Hs'|].
  apply (ins_sorted PriceLevel_lt real_price); auto.
  destruct (set_lookup PriceLevel_lt d s); auto.
Qed.

(** The addition lambda nets the event's delta into the set of its side,
    keeping a zero sum. *)
Lemma processOrderAddition_net (order : dxf_order_t) (u : UpdateSets) :
  updates_sorted u -> isnan (o_price order) = false ->
  processOrderAddition order u
  = Ok (set_updatesSide (o_side order)
          (netInto false (additionDelta order) (updatesSide (o_side order) u)) u).
Proof.
  intros [Ha Hb] Ho. unfold processOrderAddition.
  assert (set_sorted PriceLevel_lt real_price (updatesSide (o_side order) u)) as Hs
    by (unfold updatesSide; destruct (side_eqb _ _); assumption).
  fold (additionDelta order).
  rewrite (accumulate_spec (additionDelta order) _ Hs Ho). run_outcome.
  unfold netInto. simpl. do 2 f_equal.
  apply (set_insert_ins PriceLevel_lt real_price).
  - destruct (set_lookup _ _ _); exact Ho.
  - apply set_erase_key_sorted. exact Hs.
Qed.

(** The removal lambda nets minus the prior size into the set of the prior
    side, at the prior price, and drops a zero sum. *)
Lemma processOrderRemoval_net (order : dxf_order_t) (found : OrderData) (u : UpdateSets) :
  updates_sorted u -> isnan (od_price found) = false ->
  processOrderRemoval order found u
  = Ok (set_updatesSide (od_side found)
          (netInto true (removalDelta order found) (updatesSide (od_side found) u)) u).
Proof.
  intros [Ha Hb] Ho. unfold processOrderRemoval.
  assert (set_sorted PriceLevel_lt real_price (updatesSide (od_side found) u)) as Hs
    by (unfold updatesSide; destruct (side_eqb _ _); assumption).
  fold (removalDelta order found).
  rewrite (accumulate_spec (removalDelta order found) _ Hs Ho). run_outcome.
  unfold netInto. simpl. destruct (isZeroPriceLevel _); [reflexivity|].
  do 2 f_equal.
  apply (set_insert_ins PriceLevel_lt real_price).
  - destruct (set_lookup _ _ _); exact Ho.
  - apply set_erase_key_sorted. exact Hs.
Qed.

Lemma set_updatesSide_sorted (side : dxf_order_side_t) (s : list PriceLevel)
    (u : UpdateSets) :
  updates_sorted u -> set_sorted PriceLevel_lt real_price s ->
  updates_sorted (set_updatesSide side s u).
Proof.
  intros [Ha Hb] Hs. unfold set_updatesSide, updates_sorted.
  destruct (side_eqb side dxf_osd_buy); simpl; auto.
Qed.

Lemma updatesSide_sorted (side : dxf_order_side_t) (u : UpdateSets) :
  updates_sorted u -> set_sorted PriceLevel_lt real_price (updatesSide side u).
Proof. intros [Ha Hb]. unfold updatesSide. destruct (side_eqb _ _); assumption. Qed.

(** One record: the translator is defined, keeps the ledger's prices real
    and its sets sorted. *)
Lemma convertOrder_inv (order : dxf_order_t) (m : gmap Z OrderData) (u : UpdateSets) :
  real_order order -> ledger_real m -> updates_sorted u ->
  exists m' u', convertOrder order (m, u) = Ok (m', u')
                /\ ledger_real m' /\ updates_sorted u'.
Proof.
  intros Ho Hm Hu. unfold convertOrder. unfold real_order in Ho.
  assert (forall k m0, isnan (o_price order) = false -> ledger_real m0 ->
            ledger_real (<[k := OrderData_of order]> m0)) as Hins.
  { intros k m0 Hp H0 k' v Hl. destruct (decide (k = k')) as [->|Hne].
    - rewrite lookup_insert_eq in Hl. injection Hl as <-. exact Hp.
    - rewrite lookup_insert_ne in Hl by exact Hne. eapply H0; eauto. }
  assert (forall k m0, ledger_real m0 -> ledger_real (delete k m0)) as Hdel.
  { intros k m0 H0 k' v Hl. apply lookup_delete_Some in Hl as [_ Hl]. eapply H0; eauto. }
  destruct (m !! o_index order) as [found|] eqn:Hf.
  - assert (isnan (od_price found) = false) as Hfr by (eapply Hm; eauto).
    destruct (isOrderRemoval order).
    + rewrite processOrderRemoval_net by auto. run_outcome.
      do 2 eexists. split; [reflexivity|]. split; [auto|].
      apply set_updatesSide_sorted; auto. apply netInto_sorted; auto.
      apply updatesSide_sorted; auto.
    + specialize (Ho eq_refl).
      assert (exists u1, (if negb (side_eqb (o_side order) (od_side found))
                          then processOrderRemoval order found u else Ok u) = Ok u1
                         /\ updates_sorted u1) as (u1 & -> & Hu1).
      { destruct (negb _); [|eauto]. rewrite processOrderRemoval_net by auto.
        eexists. split; [reflexivity|].
        apply set_updatesSide_sorted; auto. apply netInto_sorted; auto.
        apply updatesSide_sorted; auto. }
      run_outcome. rewrite processOrderAddition_net by auto. simpl.
      do 2 eexists. split; [reflexivity|]. split; [auto|].
      apply set_updatesSide_sorted; auto. apply netInto_sorted; auto.
      apply updatesSide_sorted; auto.
  - destruct (isOrderRemoval order).
    + do 2 eexists. split; [reflexivity|]. auto.
    + specialize (Ho eq_refl).
      rewrite processOrderAddition_net by auto. run_outcome.
      do 2 eexists. split; [reflexivity|]. split; [auto|].
      apply set_updatesSide_sorted; auto. apply netInto_sorted; auto.
      apply updatesSide_sorted; auto.
Qed.

Lemma convertOrders_inv (orders : list dxf_order_t) (m : gmap Z OrderData) (u : UpdateSets) :
  Forall real_order orders -> ledger_real m -> updates_sorted u ->
  exists m' u', convertOrders orders (m, u) = Ok (m', u')
                /\ ledger_real m' /\ updates_sorted u'.
Proof.
  intros Ho. revert m u. induction Ho as [|o orders Hr Ho IH]; intros m u Hm Hu.
  - simpl. eauto.
  - change (convertOrders (o :: orders) (m, u))
      with (st' ← convertOrder o (m, u); convertOrders orders st').
    destruct (convertOrder_inv o m u Hr Hm Hu) as (m1 & u1 & -> & Hm1 & Hu1).
    run_outcome. apply IH; auto.
Qed.












(** ** Folds over sorted sets *)

Section SortedFolds.
Context {T : Type} (lt : T -> T -> bool) (ok : T -> Prop) `{!StrictWeak lt ok}.

Lemma In_filter_map {A B : Type} (f : A -> option B) (l : list A) (y : B) :
  In y (filter_map f l) <-> exists x, In x l /\ f x = Some y.
Proof.
  induction l as [|a l IH]; simpl.
  - split; [tauto|]. intros (x & [] & _).
  - destruct (f a) as [b|] eqn:E; simpl; rewrite IH; split.
    + intros [<-|(x & Hx & Hf)]; eauto.
    + intros (x & [<-|Hx] & Hf); [left; congruence|eauto].
    + intros (x & Hx & Hf); eauto.
    + intros (x & [<-|Hx] & Hf); [congruence|eauto].
Qed.

(** A partial map that sends every key to an equivalent one keeps a sorted
    list sorted, and commutes with look-up. *)
Lemma filter_map_sorted (f : T -> option T) (us : list T) :
  (forall u v, ok u -> f u = Some v -> ok v /\ eqvb lt v u = true) ->
  set_sorted lt ok us -> set_sorted lt ok (filter_map f us).
Proof.
  intros Hf. induction us as [|u us IH]; intros Hs; [exact Hs|].
  apply set_sorted_cons in Hs as (Hu & Hl & Hs). simpl.
  destruct (f u) as [v|] eqn:E; [|auto].
  destruct (Hf u v Hu E) as [Hv Hvu].
  apply set_sorted_cons. split; [exact Hv|split; [|auto]].
  rewrite List.Forall_forall in *. intros x Hx.
  apply In_filter_map in Hx as (u' & Hu' & E').
  assert (ok u') as Hou' by (eapply set_sorted_ok; eauto).
  destruct (Hf u' x Hou' E') as [Hox Hxu'].
  rewrite (lt_eqv_l lt ok v u x), (lt_eqv_r lt ok x u' u) by auto. auto.
Qed.

Lemma set_lookup_filter_map (f : T -> option T) (us : list T) (k : T) :
  (forall u v, ok u -> f u = Some v -> ok v /\ eqvb lt v u = true) ->
  set_sorted lt ok us -> ok k ->
  set_lookup lt k (filter_map f us)
  = match set_lookup lt k us with Some u => f u | None => None end.
Proof.
  intros Hf Hs Hk. induction us as [|u us IH]; [reflexivity|].
  pose proof Hs as Hs'. apply set_sorted_cons in Hs' as (Hu & Hl & Hs').
  specialize (IH Hs'). rewrite set_lookup_cons. simpl.
  destruct (eqvb lt u k) eqn:Euk.
  - assert (set_lookup lt k us = None) as Hn.
    { apply set_lookup_None. intros x Hx. rewrite List.Forall_forall in Hl.
      assert (ok x) by (eapply set_sorted_ok; eauto).
      apply lt_not_eqv'. rewrite <- (lt_eqv_l lt ok u k x); auto. }
    rewrite Hn in IH. destruct (f u) as [v|] eqn:E; [|exact IH].
    destruct (Hf u v Hu E) as [Hv Hvu]. rewrite set_lookup_cons.
    rewrite (eqvb_eqv lt ok v u k), Euk by auto. reflexivity.
  - destruct (f u) as [v|] eqn:E; [|exact IH].
    destruct (Hf u v Hu E) as [Hv Hvu]. rewrite set_lookup_cons.
    rewrite (eqvb_eqv lt ok v u k), Euk by auto. exact IH.
Qed.

Lemma erase_all_sorted (rs s : list T) :
  set_sorted lt ok s -> set_sorted lt ok (erase_all lt rs s).
Proof.
  revert s. induction rs as [|r rs IH]; intros s Hs; [exact Hs|].
  apply IH. apply set_erase_key_sorted; auto.
Qed.

Lemma set_lookup_erase_all (rs s : list T) (k : T) :
  Forall ok rs -> set_sorted lt ok s -> ok k ->
  set_lookup lt k (erase_all lt rs s)
  = match set_lookup lt k rs with Some _ => None | None => set_lookup lt k s end.
Proof.
  intros Hr. revert s. induction Hr as [|r rs Hor Hr IH]; intros s Hs Hk; [reflexivity|].
  unfold erase_all in *. simpl. rewrite IH by (auto; apply set_erase_key_sorted; auto).
  rewrite (set_lookup_erase_key lt ok) by (auto; apply Hs).
  destruct (eqvb lt r k); [|reflexivity].
  destruct (set_lookup lt k rs); reflexivity.
Qed.

Lemma sorted_tail_fresh (a : T) (ks : list T) (k : T) :
  set_sorted lt ok (a :: ks) -> ok k -> eqvb lt a k = true ->
  set_lookup lt k ks = None.
Proof.
  intros Hs Hk He. apply set_sorted_cons in Hs as (Ha & Hl & Hs).
  apply set_lookup_None. intros x Hx. rewrite List.Forall_forall in Hl.
  assert (ok x) by (eapply set_sorted_ok; eauto).
  apply lt_not_eqv'. rewrite <- (lt_eqv_l lt ok a k x); auto.
Qed.

Lemma insert_all_sorted (ks s : list T) :
  Forall ok ks -> set_sorted lt ok s -> set_sorted lt ok (insert_all lt ks s).
Proof.
  intros Hk. revert s. induction Hk as [|k ks Hok Hk IH]; intros s Hs; [exact Hs|].
  apply IH. apply set_insert_sorted; auto.
Qed.

(** Inserting sorted keys none of which the set holds adds exactly them. *)
Lemma set_lookup_insert_all (ks s : list T) (k : T) :
  set_sorted lt ok ks -> set_sorted lt ok s -> ok k ->
  (forall a, In a ks -> set_lookup lt a s = None) ->
  set_lookup lt k (insert_all lt ks s)
  = match set_lookup lt k ks with Some a => Some a | None => set_lookup lt k s end.
Proof.
  revert s. induction ks as [|a ks IH]; intros s Hks Hs Hk Hfresh; [reflexivity|].
  pose proof Hks as Hks'. apply set_sorted_cons in Hks' as (Ha & Hl & Hks').
  assert (set_lookup lt a s = None) as Hna by (apply Hfresh; left; reflexivity).
  unfold insert_all in *. simpl. rewrite IH; auto.
  - rewrite (set_lookup_insert lt ok) by auto.
    destruct (eqvb lt a k) eqn:E; [|reflexivity].
    rewrite (sorted_tail_fresh a ks k) by auto. reflexivity.
  - apply set_insert_sorted; auto.
  - intros a' Ha'. rewrite (set_lookup_insert lt ok); auto.
    + rewrite List.Forall_forall in Hl. rewrite lt_not_eqv by auto.
      apply Hfresh. right. exact Ha'.
    + eapply set_sorted_ok; eauto.
Qed.

Lemma update_step_sorted (u : T) (s : list T) :
  ok u -> set_sorted lt ok s ->
  set_sorted lt ok (set_insert lt u (set_erase_key lt u s)).
Proof. intros Hu Hs. apply set_insert_sorted; auto. apply set_erase_key_sorted; auto. Qed.

Lemma set_lookup_update_step (u k : T) (s : list T) :
  ok u -> ok k -> set_sorted lt ok s ->
  set_lookup lt k (set_insert lt u (set_erase_key lt u s))
  = if eqvb lt u k then Some u else set_lookup lt k s.
Proof.
  intros Hu Hk Hs. rewrite (set_lookup_insert lt ok); auto.
  - rewrite (set_lookup_erase_key lt ok) by (auto; apply Hs).
    destruct (eqvb lt u k); reflexivity.
  - apply set_erase_key_sorted; auto.
  - rewrite (set_lookup_erase_key lt ok) by (auto; apply Hs).
    rewrite (eqvb_refl lt ok) by auto. reflexivity.
Qed.

Lemma update_all_sorted (us s : list T) :
  Forall ok us -> set_sorted lt ok s -> set_sorted lt ok (update_all lt us s).
Proof.
  intros Hu. revert s. induction Hu as [|u us Hou Hu IH]; intros s Hs; [exact Hs|].
  apply IH. apply update_step_sorted; auto.
Qed.

Lemma set_lookup_update_all (us s : list T) (k : T) :
  set_sorted lt ok us -> set_sorted lt ok s -> ok k ->
  set_lookup lt k (update_all lt us s)
  = match set_lookup lt k us with Some u => Some u | None => set_lookup lt k s end.
Proof.
  revert s. induction us as [|u us IH]; intros s Hus Hs Hk; [reflexivity|].
  pose proof Hus as Hus'. apply set_sorted_cons in Hus' as (Hu & Hl & Hus').
  unfold update_all in *. simpl. rewrite IH; auto.
  - rewrite set_lookup_update_step by auto.
    destruct (eqvb lt u k) eqn:E; [|reflexivity].
    rewrite (sorted_tail_fresh u us k) by auto. reflexivity.
  - apply update_step_sorted; auto.
Qed.

Lemma In_insert_all (ks s : list T) (x : T) :
  In x (insert_all lt ks s) -> In x ks \/ In x s.
Proof.
  revert s. induction ks as [|k ks IH]; intros s H; [auto|].
  unfold insert_all in *. simpl in H. apply IH in H as [H|H]; [left; right; exact H|].
  apply In_set_insert in H as [->|H]; [left; left; reflexivity|right; exact H].
Qed.

End SortedFolds.

(** ** One side of the book with depth cap 0 *)

#[global] Instance AskPriceLevel_ByPrice : ByPrice AskPriceLevel_lt.
Proof. intros a b a' b' Ha Hb. unfold AskPriceLevel_lt. rewrite Ha, Hb. reflexivity. Qed.

#[global] Instance BidPriceLevel_ByPrice : ByPrice BidPriceLevel_lt.
Proof. intros a b a' b' Ha Hb. unfold BidPriceLevel_lt. rewrite Ha, Hb. reflexivity. Qed.

Section UnboundedSide.
Context (lt : PriceLevel -> PriceLevel -> bool)
        `{!StrictWeak lt real_price} `{!ByPrice lt}.
Variable past_the_end : list PriceLevel -> PriceLevel.

Lemma same_price_eqv (a b : PriceLevel) :
  real_price a -> price a = price b -> eqvb lt a b = true.
Proof.
  intros Ha Hp. apply eqvb_true.
  rewrite (@by_price lt _ a b a a), (@by_price lt _ b a a a) by auto.
  split; apply sw_irrefl; auto.
Qed.

Lemma eqv_prices_differ (a b : PriceLevel) :
  real_price a -> eqvb lt a b = false -> price a <> price b.
Proof.
  intros Ha He Hp. rewrite same_price_eqv in He by auto. discriminate.
Qed.

Lemma netLevel_eqv (found u : PriceLevel) :
  real_price found ->
  real_price (netLevel found u) /\ eqvb lt (netLevel found u) found = true.
Proof. intros Hf. split; [exact Hf|]. apply same_price_eqv; [exact Hf|reflexivity]. Qed.

(** The classification loop, by look-up. *)
Lemma generateAll_spec (us store : list PriceLevel) (c : ChangeLists) :
  set_sorted lt real_price store -> Forall real_price us ->
  generateAll lt us store c
  = Ok (mk_ChangeLists (additionsList c ++ additions_of lt store us)
                       (removalsList c ++ removals_of lt store us)
                       (updatesList c ++ updates_of lt store us)).
Proof.
  intros Hs Hu. revert c. induction Hu as [|u us Hou Hu IH]; intros c.
  - simpl. rewrite !app_nil_r. destruct c; reflexivity.
  - change (generateAll lt (u :: us) store c)
      with (c' ← generatePriceLevelChanges lt u store c; generateAll lt us store c').
    unfold generatePriceLevelChanges, additions_of, removals_of, updates_of. simpl.
    pose proof (set_find_spec lt real_price u store Hs Hou) as Hf.
    destruct (set_find lt u store) as [i|].
    + destruct Hf as (e & Hn & Hl). rewrite Hl. unfold elem. rewrite Hn. run_outcome.
      fold (netLevel e u). destruct (isZeroPriceLevel (netLevel e u));
        rewrite IH; simpl; rewrite <- ?app_assoc; reflexivity.
    + rewrite Hf. run_outcome. rewrite IH. simpl. rewrite <- ?app_assoc. reflexivity.
Qed.

Lemma additions_of_spec (store us : list PriceLevel) (a : PriceLevel) :
  In a (additions_of lt store us) <-> In a us /\ set_lookup lt a store = None.
Proof.
  unfold additions_of. rewrite In_filter_map. split.
  - intros (u & Hu & Hf). destruct (set_lookup lt u store) eqn:E; [discriminate|].
    injection Hf as <-. auto.
  - intros [Hu Hn]. exists a. rewrite Hn. auto.
Qed.

Lemma removals_of_spec (store us : list PriceLevel) (r : PriceLevel) :
  In r (removals_of lt store us) <->
  exists u, In u us /\ set_lookup lt u store = Some r
            /\ isZeroPriceLevel (netLevel r u) = true.
Proof.
  unfold removals_of. rewrite In_filter_map. split.
  - intros (u & Hu & Hf). exists u. destruct (set_lookup lt u store) as [f|]; [|discriminate].
    destruct (isZeroPriceLevel (netLevel f u)) eqn:Z; [|discriminate].
    injection Hf as <-. auto.
  - intros (u & Hu & Hl & Hz). exists u. rewrite Hl, Hz. auto.
Qed.

Lemma additions_of_sorted (store us : list PriceLevel) :
  set_sorted lt real_price us -> set_sorted lt real_price (additions_of lt store us).
Proof.
  apply (filter_map_sorted lt real_price). intros u v Hu Hf.
  destruct (set_lookup lt u store); [discriminate|]. injection Hf as <-.
  split; [exact Hu|]. apply (eqvb_refl lt real_price). exact Hu.
Qed.

Lemma found_eqv (store : list PriceLevel) (u f : PriceLevel) :
  set_sorted lt real_price store -> set_lookup lt u store = Some f ->
  real_price f /\ eqvb lt f u = true.
Proof.
  intros Hs Hl. apply set_lookup_Some in Hl as [Hi He].
  split; [eapply set_sorted_ok; eauto|exact He].
Qed.

Lemma removals_of_map (store : list PriceLevel) (u v : PriceLevel) :
  set_sorted lt real_price store -> real_price u ->
  match set_lookup lt u store with
  | Some found => if isZeroPriceLevel (netLevel found u) then Some found else None
  | None => None
  end = Some v ->
  real_price v /\ eqvb lt v u = true.
Proof.
  intros Hs Hu Hf. destruct (set_lookup lt u store) as [f|] eqn:E; [|discriminate].
  destruct (isZeroPriceLevel _); [|discriminate]. injection Hf as <-.
  eapply found_eqv; eauto.
Qed.

Lemma updates_of_map (store : list PriceLevel) (u v : PriceLevel) :
  set_sorted lt real_price store -> real_price u ->
  match set_lookup lt u store with
  | Some found => if isZeroPriceLevel (netLevel found u) then None
                  else Some (netLevel found u)
  | None => None
  end = Some v ->
  real_price v /\ eqvb lt v u = true.
Proof.
  intros Hs Hu Hf. destruct (set_lookup lt u store) as [f|] eqn:E; [|discriminate].
  destruct (isZeroPriceLevel _); [discriminate|]. injection Hf as <-.
  destruct (found_eqv store u f Hs E) as [Hfr Hfe].
  destruct (netLevel_eqv f u Hfr) as [Hn Hne]. split; [exact Hn|].
  apply (eqvb_trans lt real_price _ f u); auto.
Qed.

Lemma removals_of_sorted (store us : list PriceLevel) :
  set_sorted lt real_price store -> set_sorted lt real_price us ->
  set_sorted lt real_price (removals_of lt store us).
Proof.
  intros Hs. apply (filter_map_sorted lt real_price).
  intros u v Hu. apply removals_of_map; auto.
Qed.

Lemma updates_of_sorted (store us : list PriceLevel) :
  set_sorted lt real_price store -> set_sorted lt real_price us ->
  set_sorted lt real_price (updates_of lt store us).
Proof.
  intros Hs. apply (filter_map_sorted lt real_price).
  intros u v Hu. apply updates_of_map; auto.
Qed.

(** The three loops with depth cap 0. *)
Lemma last_after_end (ls : list PriceLevel) : last_after ls it_end = it_end.
Proof. destruct ls; reflexivity. Qed.

Lemma forEach_addition_0 (ks : list PriceLevel) (st : SideState) :
  forEach (processSideAddition lt past_the_end) ks st 0
  = Ok (mk_SideState (insert_all lt ks (storage st))
          (last_after ks (lastElementIter st))
          (insert_all lt ks (additionsSet st)) (removalsSet st) (updatesSet st)).
Proof.
  revert st. induction ks as [|k ks IH]; intros st; [destruct st; reflexivity|].
  simpl. run_outcome. rewrite IH. simpl. rewrite last_after_end. reflexivity.
Qed.

Lemma forEach_update_0 (ks : list PriceLevel) (st : SideState) :
  forEach (processSideUpdate lt past_the_end) ks st 0
  = Ok (mk_SideState (update_all lt ks (storage st))
          (last_after ks (lastElementIter st))
          (additionsSet st) (removalsSet st) (insert_all lt ks (updatesSet st))).
Proof.
  revert st. induction ks as [|k ks IH]; intros st; [destruct st; reflexivity|].
  simpl. run_outcome. rewrite IH. simpl. rewrite last_after_end. reflexivity.
Qed.

(** The removal loop is defined when every level to remove is stored. *)
Lemma forEach_removal_0 (rs : list PriceLevel) (st : SideState) :
  set_sorted lt real_price (storage st) -> set_sorted lt real_price rs ->
  (forall r, In r rs -> In r (storage st)) ->
  forEach (processSideRemoval lt past_the_end) rs st 0
  = Ok (mk_SideState (erase_all lt rs (storage st))
          (last_after rs (lastElementIter st))
          (additionsSet st) (insert_all lt rs (removalsSet st)) (updatesSet st)).
Proof.
  revert st. induction rs as [|r rs IH]; intros st Hs Hrs Hin; [destruct st; reflexivity|].
  pose proof Hrs as Hrs'. apply set_sorted_cons in Hrs' as (Hr & Hl & Hrs').
  assert (In r (storage st)) as Hri by (apply Hin; left; reflexivity).
  change (forEach (processSideRemoval lt past_the_end) (r :: rs) st 0)
    with (st' ← processSideRemoval lt past_the_end r st 0;
          forEach (processSideRemoval lt past_the_end) rs st' 0).
  unfold processSideRemoval.
  destruct (storage st) as [|e s] eqn:Est; [destruct Hri|]. rewrite <- Est in *.
  simpl Nat.eqb. cbv iota.
  pose proof (set_find_spec lt real_price r (storage st) Hs Hr) as Hf.
  rewrite (set_lookup_In lt real_price) in Hf by auto.
  destruct (set_find lt r (storage st)) as [i|] eqn:F; [|discriminate].
  destruct (set_find_at_elem _ _ _ _ F) as (e' & _ & Her). rewrite Her.
  rewrite (set_erase_found lt real_price r (storage st) i Hs Hr F).
  run_outcome. rewrite IH; simpl.
  - rewrite last_after_end. reflexivity.
  - apply set_erase_key_sorted; auto.
  - exact Hrs'.
  - intros r' Hr'. apply In_set_erase_key. split; [apply Hin; right; exact Hr'|].
    rewrite List.Forall_forall in Hl. apply lt_not_eqv'. auto.
Qed.

Lemma removals_of_stored (store us : list PriceLevel) (r : PriceLevel) :
  In r (removals_of lt store us) -> In r store.
Proof.
  intros H. apply removals_of_spec in H as (u & _ & Hl & _).
  apply set_lookup_Some in Hl. apply Hl.
Qed.

(** With depth cap 0 the part of [applyUpdates] for one side is defined on
    sorted inputs; the store, the iterator and the three change sets are the
    following. *)
Lemma applySide_unbounded (us store : list PriceLevel) (last : iterator) :
  set_sorted lt real_price store -> set_sorted lt real_price us ->
  applySide lt past_the_end us store last 0
  = Ok (mk_SideState
          (update_all lt (updates_of lt store us)
             (insert_all lt (additions_of lt store us)
                (erase_all lt (removals_of lt store us) store)))
          (last_after (updates_of lt store us)
             (last_after (additions_of lt store us)
                (last_after (removals_of lt store us) last)))
          (insert_all lt (additions_of lt store us) [])
          (insert_all lt (removals_of lt store us) [])
          (insert_all lt (updates_of lt store us) [])).
Proof.
  intros Hs Hu. unfold applySide.
  rewrite generateAll_spec by (auto; apply Hu). run_outcome.
  rewrite forEach_removal_0; simpl; auto.
  - rewrite forEach_addition_0. simpl. rewrite forEach_update_0. reflexivity.
  - apply removals_of_sorted; auto.
  - apply removals_of_stored.
Qed.

Lemma applySide_store_sorted (us store : list PriceLevel) :
  set_sorted lt real_price store -> set_sorted lt real_price us ->
  set_sorted lt real_price
    (update_all lt (updates_of lt store us)
       (insert_all lt (additions_of lt store us)
          (erase_all lt (removals_of lt store us) store))).
Proof.
  intros Hs Hu.
  apply (update_all_sorted lt real_price); [apply updates_of_sorted; auto|].
  apply (insert_all_sorted lt real_price); [apply additions_of_sorted; auto|].
  apply (erase_all_sorted lt real_price). exact Hs.
Qed.

Lemma additions_of_lookup (store us : list PriceLevel) (x : PriceLevel) :
  set_sorted lt real_price us -> real_price x ->
  set_lookup lt x (additions_of lt store us)
  = match set_lookup lt x us with
    | Some u => match set_lookup lt u store with None => Some u | Some _ => None end
    | None => None
    end.
Proof.
  intros Hu Hx. unfold additions_of.
  rewrite (set_lookup_filter_map lt real_price); auto.
  intros u v Hur Hf. destruct (set_lookup lt u store); [discriminate|].
  injection Hf as <-. split; [exact Hur|]. apply (eqvb_refl lt real_price). exact Hur.
Qed.

Lemma removals_of_lookup (store us : list PriceLevel) (x : PriceLevel) :
  set_sorted lt real_price store -> set_sorted lt real_price us -> real_price x ->
  set_lookup lt x (removals_of lt store us)
  = match set_lookup lt x us with
    | Some u => match set_lookup lt u store with
                | Some f => if isZeroPriceLevel (netLevel f u) then Some f else None
                | None => None
                end
    | None => None
    end.
Proof.
  intros Hs Hu Hx. unfold removals_of.
  rewrite (set_lookup_filter_map lt real_price); auto.
  intros u v Hur. apply removals_of_map; auto.
Qed.

Lemma updates_of_lookup (store us : list PriceLevel) (x : PriceLevel) :
  set_sorted lt real_price store -> set_sorted lt real_price us -> real_price x ->
  set_lookup lt x (updates_of lt store us)
  = match set_lookup lt x us with
    | Some u => match set_lookup lt u store with
                | Some f => if isZeroPriceLevel (netLevel f u) then None
                            else Some (netLevel f u)
                | None => None
                end
    | None => None
    end.
Proof.
  intros Hs Hu Hx. unfold updates_of.
  rewrite (set_lookup_filter_map lt real_price); auto.
  intros u v Hur. apply updates_of_map; auto.
Qed.

(** The store after the cycle, price by price: the net level of the level
    stored before and the delta of the cycle. *)
Lemma applySide_lookup (us store : list PriceLevel) (k : PriceLevel) :
  set_sorted lt real_price store -> set_sorted lt real_price us -> real_price k ->
  set_lookup lt k
    (update_all lt (updates_of lt store us)
       (insert_all lt (additions_of lt store us)
          (erase_all lt (removals_of lt store us) store)))
  = net_level (set_lookup lt k store) (set_lookup lt k us).
Proof.
  intros Hs Hu Hk.
  pose proof (removals_of_sorted store us Hs Hu) as Hrs.
  pose proof (additions_of_sorted store us Hu) as Has.
  pose proof (updates_of_sorted store us Hs Hu) as Hus.
  assert (set_sorted lt real_price (erase_all lt (removals_of lt store us) store)) as Hs1
    by (apply (erase_all_sorted lt real_price); exact Hs).
  rewrite (set_lookup_update_all lt real_price); auto;
    [|apply (insert_all_sorted lt real_price); [apply Has|exact Hs1]].
  rewrite (set_lookup_insert_all lt real_price); auto.
  2:{ intros a Ha.
      assert (real_price a) as Har
        by (apply (set_sorted_ok lt real_price (additions_of lt store us)); auto).
      rewrite (set_lookup_erase_all lt real_price);
        [|apply Hrs|exact Hs|exact Har].
      apply additions_of_spec in Ha as [_ ->].
      destruct (set_lookup lt a (removals_of lt store us)); reflexivity. }
  rewrite (set_lookup_erase_all lt real_price) by (auto; apply Hrs).
  rewrite updates_of_lookup, additions_of_lookup, removals_of_lookup by auto.
  destruct (set_lookup lt k us) as [u|] eqn:Eu.
  - apply set_lookup_Some in Eu as [Hui Huk].
    assert (real_price u) as Hur
      by (apply (set_sorted_ok lt real_price us); auto).
    rewrite (set_lookup_eqv lt real_price u k store) by (auto; apply Hs).
    destruct (set_lookup lt k store) as [f|]; simpl; [|reflexivity].
    destruct (isZeroPriceLevel (netLevel f u)); reflexivity.
  - destruct (set_lookup lt k store); reflexivity.
Qed.

(** No price is classified twice. *)
Lemma change_lists_disjoint (us store : list PriceLevel) :
  set_sorted lt real_price store -> set_sorted lt real_price us ->
  disjoint_prices (additions_of lt store us) (updates_of lt store us)
  /\ disjoint_prices (additions_of lt store us) (removals_of lt store us)
  /\ disjoint_prices (updates_of lt store us) (removals_of lt store us).
Proof.
  intros Hs Hu.
  pose proof (removals_of_sorted store us Hs Hu) as Hrs.
  pose proof (additions_of_sorted store us Hu) as Has.
  pose proof (updates_of_sorted store us Hs Hu) as Hus.
  assert (forall l1 l2 x y,
            set_sorted lt real_price l1 -> set_sorted lt real_price l2 ->
            In x l1 -> In y l2 -> price x = price y ->
            set_lookup lt x l1 = Some x /\ set_lookup lt x l2 = Some y) as Hboth.
  { intros l1 l2 x y H1 H2 Hx Hy Hp.
    assert (real_price x) as Hxr by (apply (set_sorted_ok lt real_price l1); auto).
    assert (real_price y) as Hyr by (apply (set_sorted_ok lt real_price l2); auto).
    split; [apply (set_lookup_In lt real_price); auto|].
    rewrite (set_lookup_eqv lt real_price x y l2);
      [apply (set_lookup_In lt real_price); auto|auto|auto|apply H2|].
    apply same_price_eqv; auto. }
  repeat split; intros x y Hx Hy Hp.
  - destruct (Hboth _ _ x y Has Hus Hx Hy Hp) as [H1 H2].
    assert (real_price x) as Hxr
      by (apply (set_sorted_ok lt real_price (additions_of lt store us)); auto).
    rewrite additions_of_lookup in H1 by auto. rewrite updates_of_lookup in H2 by auto.
    destruct (set_lookup lt x us) as [u|]; [|discriminate].
    destruct (set_lookup lt u store); discriminate.
  - destruct (Hboth _ _ x y Has Hrs Hx Hy Hp) as [H1 H2].
    assert (real_price x) as Hxr
      by (apply (set_sorted_ok lt real_price (additions_of lt store us)); auto).
    rewrite additions_of_lookup in H1 by auto. rewrite removals_of_lookup in H2 by auto.
    destruct (set_lookup lt x us) as [u|]; [|discriminate].
    destruct (set_lookup lt u store); discriminate.
  - destruct (Hboth _ _ x y Hus Hrs Hx Hy Hp) as [H1 H2].
    assert (real_price x) as Hxr
      by (apply (set_sorted_ok lt real_price (updates_of lt store us)); auto).
    rewrite updates_of_lookup in H1 by auto. rewrite removals_of_lookup in H2 by auto.
    destruct (set_lookup lt x us) as [u|]; [|discriminate].
    destruct (set_lookup lt u store) as [f|]; [|discriminate].
    destruct (isZeroPriceLevel (netLevel f u)); discriminate.
Qed.

End UnboundedSide.

(** ** The book with depth cap 0 *)

Lemma sorted_snoc {T : Type} (lt : T -> T -> bool) (ok : T -> Prop) (l : list T) (e : T) :
  set_sorted lt ok l -> ok e -> (forall x, In x l -> lt x e = true) ->
  set_sorted lt ok (l ++ [e]).
Proof.
  induction l as [|a l IH]; intros Hl He Hlt; simpl.
  - apply set_sorted_cons. split; [exact He|split; [constructor|apply set_sorted_nil]].
  - apply set_sorted_cons in Hl as (Ha & Hal & Hl).
    apply set_sorted_cons. split; [exact Ha|split].
    + apply Forall_app. split; [exact Hal|]. constructor; [|constructor].
      apply Hlt. left. reflexivity.
    + apply IH; auto. intros x Hx. apply Hlt. right. exact Hx.
Qed.

(** The bid deltas, the ascending set read backwards, are sorted by the bid
    comparator. *)
Lemma rev_sorted_bid (s : list PriceLevel) :
  set_sorted PriceLevel_lt real_price s ->
  set_sorted BidPriceLevel_lt real_price (rev s).
Proof.
  induction s as [|e s IH]; intros Hs; [apply set_sorted_nil|].
  pose proof Hs as Hs'. apply set_sorted_cons in Hs' as (He & Hl & Hs').
  simpl. apply sorted_snoc; auto.
  intros x Hx. apply in_rev in Hx. rewrite List.Forall_forall in Hl.
  assert (real_price x) as Hxr by (apply (set_sorted_ok PriceLevel_lt real_price s); auto).
  rewrite BidPriceLevel_lt_real by auto.
  rewrite <- (PriceLevel_lt_real e x) by auto. auto.
Qed.

Lemma convertToUpdates_inv (records : list dxf_order_t) (m : gmap Z OrderData) :
  Forall real_order records -> ledger_real m ->
  exists m' deltas,
    convertToUpdates records m = Ok (m', deltas)
    /\ ledger_real m'
    /\ set_sorted AskPriceLevel_lt real_price (asks deltas)
    /\ set_sorted BidPriceLevel_lt real_price (bids deltas).
Proof.
  intros Hr Hm. unfold convertToUpdates.
  destruct (convertOrders_inv records m (mk_UpdateSets [] []) Hr Hm)
    as (m' & u & -> & Hm' & Ha & Hb).
  { split; apply set_sorted_nil. }
  run_outcome. do 2 eexists. split; [reflexivity|]. split; [exact Hm'|].
  split; [exact Ha|]. apply rev_sorted_bid. exact Hb.
Qed.

Lemma side_store_sorted (lt : PriceLevel -> PriceLevel -> bool)
    `{!StrictWeak lt real_price} `{!ByPrice lt} (store us : list PriceLevel) :
  set_sorted lt real_price store -> set_sorted lt real_price us ->
  set_sorted lt real_price (side_store lt store us).
Proof. apply applySide_store_sorted; auto. Qed.

(** [applyUpdates] with depth cap 0 on sorted deltas. *)
Lemma applyUpdates_unbounded (past_the_end : list PriceLevel -> PriceLevel)
    (deltas : PriceLevelChanges) (b : PriceLevelBook) :
  unbounded_inv b ->
  set_sorted AskPriceLevel_lt real_price (asks deltas) ->
  set_sorted BidPriceLevel_lt real_price (bids deltas) ->
  applyUpdates past_the_end deltas b
  = Ok (mk_PriceLevelBook 0
          (side_store AskPriceLevel_lt (asks_ b) (asks deltas)) it_end
          (side_store BidPriceLevel_lt (bids_ b) (bids deltas)) it_end
          (orderDataSnapshot_ b) (onNewBook_ b) (onBookUpdate_ b)
          (onIncrementalChange_ b),
        unbounded_changes (asks_ b) (bids_ b) deltas).
Proof.
  intros (Hc & Hla & Hlb & Hsa & Hsb & _) Hda Hdb. unfold applyUpdates.
  rewrite Hc, Hla, Hlb.
  rewrite (applySide_unbounded AskPriceLevel_lt) by auto.
  rewrite (applySide_unbounded BidPriceLevel_lt) by auto.
  run_outcome. rewrite !last_after_end. reflexivity.
Qed.

Lemma start_of_cycle_inv (newSnapshot : Z) (b : PriceLevelBook) :
  unbounded_inv b -> unbounded_inv (start_of_cycle newSnapshot b).
Proof.
  intros H. unfold start_of_cycle. destruct (negb _); [|exact H].
  destruct H as (Hc & Hla & Hlb & _). unfold unbounded_inv. simpl.
  repeat split; auto; try constructor.
  intros k v Hl. rewrite lookup_empty in Hl. discriminate.
Qed.

(** One call of [processSnapshotData] with depth cap 0 on orders with real
    prices: it is defined; the translator's deltas are sorted; the book
    after the call is the one [applyUpdates] returns for them; the handlers
    that are set are called with the change-set of [applyUpdates] or with the
    whole of both stores. *)
Lemma cycle_unbounded (past_the_end : list PriceLevel -> PriceLevel)
    (records : list dxf_order_t) (newSnapshot : Z) (b : PriceLevelBook) :
  unbounded_inv b -> Forall real_order records ->
  let b0 := start_of_cycle newSnapshot b in
  exists ledger deltas b' cs,
    convertToUpdates records (orderDataSnapshot_ b0) = Ok (ledger, deltas)
    /\ set_sorted AskPriceLevel_lt real_price (asks deltas)
    /\ set_sorted BidPriceLevel_lt real_price (bids deltas)
    /\ applyUpdates past_the_end deltas (with_ledger b0 ledger)
       = Ok (b', unbounded_changes (asks_ b0) (bids_ b0) deltas)
    /\ asks_ b' = side_store AskPriceLevel_lt (asks_ b0) (asks deltas)
    /\ bids_ b' = side_store BidPriceLevel_lt (bids_ b0) (bids deltas)
    /\ processSnapshotData past_the_end records newSnapshot b = Ok (b', cs)
    /\ unbounded_inv b'
    /\ (forall c, In c cs ->
          c = onNewBook (mk_PriceLevelChanges (asks_ b') (bids_ b'))
          \/ c = onBookUpdate (mk_PriceLevelChanges (asks_ b') (bids_ b'))
          \/ c = onIncrementalChange (unbounded_changes (asks_ b0) (bids_ b0) deltas)).
Proof.
  intros Hb Hr b0.
  assert (unbounded_inv b0) as Hb0 by (apply start_of_cycle_inv; exact Hb).
  destruct (convertToUpdates_inv records (orderDataSnapshot_ b0) Hr)
    as (ledger & deltas & Hconv & Hlr & Hda & Hdb); [apply Hb0|].
  assert (unbounded_inv (with_ledger b0 ledger)) as Hb1.
  { destruct Hb0 as (Hc & Hla & Hlb & Hsa & Hsb & _).
    split; [exact Hc|split; [exact Hla|split; [exact Hlb|
      split; [exact Hsa|split; [exact Hsb|exact Hlr]]]]]. }
  pose proof (applyUpdates_unbounded past_the_end deltas _ Hb1 Hda Hdb) as Happ.
  simpl in Happ.
  set (b' := mk_PriceLevelBook 0
          (side_store AskPriceLevel_lt (asks_ b0) (asks deltas)) it_end
          (side_store BidPriceLevel_lt (bids_ b0) (bids deltas)) it_end
          ledger (onNewBook_ b0) (onBookUpdate_ b0) (onIncrementalChange_ b0)) in *.
  assert (unbounded_inv b') as Hinv'.
  { destruct Hb0 as (Hc & Hla & Hlb & Hsa & Hsb & _).
    split; [reflexivity|split; [reflexivity|split; [reflexivity|
      split; [|split; [|exact Hlr]]]]]; simpl.
    - apply (side_store_sorted AskPriceLevel_lt); auto.
    - apply (side_store_sorted BidPriceLevel_lt); auto. }
  exists ledger, deltas, b'.
  assert (exists cs,
            processSnapshotData past_the_end records newSnapshot b = Ok (b', cs)
            /\ (forall c, In c cs ->
                  c = onNewBook (mk_PriceLevelChanges (asks_ b') (bids_ b'))
                  \/ c = onBookUpdate (mk_PriceLevelChanges (asks_ b') (bids_ b'))
                  \/ c = onIncrementalChange
                           (unbounded_changes (asks_ b0) (bids_ b0) deltas)))
    as (cs & Hp & Hcs).
  { unfold processSnapshotData. fold (start_of_cycle newSnapshot b). fold b0.
    destruct records as [|r rs].
    - (* no record: nothing is translated and the book is the start book *)
      assert (ledger = orderDataSnapshot_ b0 /\ deltas = mk_PriceLevelChanges [] [])
        as [El Ed] by (injection Hconv as <- <-; auto).
      assert (b' = b0) as Eb.
      { unfold b'. rewrite El, Ed. destruct Hb0 as (Hc & Hla & Hlb & _).
        destruct b0; simpl in *; subst. reflexivity. }
      rewrite Eb. eexists. split; [reflexivity|]. intros c Hc.
      destruct (negb (newSnapshot =? 0)) eqn:En; simpl in Hc; [|destruct Hc].
      assert (asks_ b0 = [] /\ bids_ b0 = []) as [Ea Ebi].
      { unfold b0, start_of_cycle. rewrite En. split; reflexivity. }
      rewrite Ea, Ebi. destruct (onNewBook_ b0); simpl in Hc; [|destruct Hc].
      destruct Hc as [<-|[]]. left. reflexivity.
    - rewrite Hconv. run_outcome. rewrite Happ. simpl.
      destruct (negb (newSnapshot =? 0)).
      + destruct (onNewBook_ b0).
        * eexists. split; [reflexivity|].
          intros c [<-|[]]. left. reflexivity.
        * eexists. split; [reflexivity|]. intros c [].
      + destruct (onIncrementalChange_ b0), (onBookUpdate_ b0); simpl;
          (eexists; split; [reflexivity|]); intros c Hc; simpl in Hc;
          intuition (subst; auto). }
  exists cs.
  split; [exact Hconv|]. split; [exact Hda|]. split; [exact Hdb|].
  split; [exact Happ|]. split; [reflexivity|]. split; [reflexivity|].
  split; [exact Hp|]. split; [exact Hinv'|exact Hcs].
Qed.

Lemma processSnapshotData_unbounded (past_the_end : list PriceLevel -> PriceLevel)
    (records : list dxf_order_t) (newSnapshot : Z) (b : PriceLevelBook) :
  unbounded_inv b -> Forall real_order records ->
  exists b' cs, processSnapshotData past_the_end records newSnapshot b = Ok (b', cs)
                /\ unbounded_inv b'.
Proof.
  intros Hb Hr.
  destruct (cycle_unbounded past_the_end records newSnapshot b Hb Hr)
    as (ledger & deltas & b' & cs & _ & _ & _ & _ & _ & _ & Hp & Hinv & _).
  eauto.
Qed.

Lemma create_unbounded_inv : unbounded_inv (create 0).
Proof.
  unfold unbounded_inv, create. simpl. repeat split; try constructor.
  intros k v Hl. rewrite lookup_empty in Hl. discriminate.
Qed.

(** Every run with depth cap 0 over orders with real prices is defined and
    ends in a book in unbounded mode. *)
Lemma processAll_unbounded (past_the_end : list PriceLevel -> PriceLevel)
    (batches : list (list dxf_order_t * Z)) (b : PriceLevelBook) :
  unbounded_inv b -> real_batches batches ->
  exists b' cs, processAll past_the_end batches b = Ok (b', cs) /\ unbounded_inv b'.
Proof.
  intros Hb Hr. revert b Hb. induction Hr as [|[records newSnapshot] rest Hr Hrest IH];
    intros b Hb.
  - simpl. eauto.
  - simpl in Hr.
    destruct (processSnapshotData_unbounded past_the_end records newSnapshot b Hb Hr)
      as (b1 & cs1 & E1 & Hb1).
    destruct (IH b1 Hb1) as (b2 & cs2 & E2 & Hb2).
    exists b2, (cs1 ++ cs2). split; [|exact Hb2].
    simpl. rewrite E1. run_outcome. rewrite E2. reflexivity.
Qed.

Lemma unbounded_visible (b : PriceLevelBook) :
  unbounded_inv b -> getAsks b = Ok (asks_ b) /\ getBids b = Ok (bids_ b).
Proof.
  intros (_ & Hla & Hlb & _). unfold getAsks, getBids. rewrite Hla, Hlb.
  split; reflexivity.
Qed.

(** A removal reported with depth cap 0 is a stored level whose updated size
    is within epsilon of zero. *)
Lemma reported_removal_is_zero (lt : PriceLevel -> PriceLevel -> bool)
    `{!StrictWeak lt real_price} `{!ByPrice lt} (store us : list PriceLevel)
    (r : PriceLevel) :
  set_sorted lt real_price store -> set_sorted lt real_price us ->
  In r (insert_all lt (removals_of lt store us) []) ->
  exists d, set_lookup lt r us = Some d
            /\ set_lookup lt r store = Some r
            /\ isZeroPriceLevel (netLevel r d) = true.
Proof.
  intros Hs Hu Hr. apply In_insert_all in Hr as [Hr|[]].
  apply removals_of_spec in Hr as (u & Hui & Hl & Hz).
  pose proof (set_lookup_Some lt u r store Hl) as [Hri Hru].
  assert (real_price u) as Hur by (apply (set_sorted_ok lt real_price us); auto).
  assert (real_price r) as Hrr by (apply (set_sorted_ok lt real_price store); auto).
  exists u. split; [|split; [|exact Hz]].
  - rewrite (set_lookup_eqv lt real_price r u us) by (auto; apply Hu).
    apply (set_lookup_In lt real_price); auto.
  - apply (set_lookup_In lt real_price); auto.
Qed.

(** Depth cap 0 and orders whose prices are numbers: what holds of the
    stores.  After any run of batches from a fresh book the next call of
    [processSnapshotData] is defined, and for the book it leaves:
    - [getAsks] and [getBids] return the whole ask and bid store;
    - each store is sorted by its comparator;
    - price by price the store holds the net level of the level stored
      before the cycle and the delta of the cycle ([net_level]): a level
      goes away only when its updated size is within epsilon of zero.
    The deltas are those of the translator, so a level that the translator
    fails to take back stays in the store. *)
Lemma unbounded_cycle_by_lookup (past_the_end : list PriceLevel -> PriceLevel)
    (batches : list (list dxf_order_t * Z)) (records : list dxf_order_t)
    (newSnapshot : Z) :
  real_batches batches -> Forall real_order records ->
  exists b cs ledger deltas b' cs',
    processAll past_the_end batches (create 0) = Ok (b, cs)
    /\ convertToUpdates records (orderDataSnapshot_ (start_of_cycle newSnapshot b))
       = Ok (ledger, deltas)
    /\ processSnapshotData past_the_end records newSnapshot b = Ok (b', cs')
    /\ getAsks b' = Ok (asks_ b') /\ getBids b' = Ok (bids_ b')
    /\ set_sorted AskPriceLevel_lt real_price (asks_ b')
    /\ set_sorted BidPriceLevel_lt real_price (bids_ b')
    /\ (forall k, real_price k ->
          set_lookup AskPriceLevel_lt k (asks_ b')
          = net_level (set_lookup AskPriceLevel_lt k (asks_ (start_of_cycle newSnapshot b)))
                      (set_lookup AskPriceLevel_lt k (asks deltas)))
    /\ (forall k, real_price k ->
          set_lookup BidPriceLevel_lt k (bids_ b')
          = net_level (set_lookup BidPriceLevel_lt k (bids_ (start_of_cycle newSnapshot b)))
                      (set_lookup BidPriceLevel_lt k (bids deltas))).
Proof.
  intros Hbs Hr.
  destruct (processAll_unbounded past_the_end batches (create 0)
              create_unbounded_inv Hbs) as (b & cs & Hrun & Hb).
  destruct (cycle_unbounded past_the_end records newSnapshot b Hb Hr)
    as (ledger & deltas & b' & cs' & Hconv & Hda & Hdb & _ & Ea & Eb & Hp & Hinv & Hcs).
  pose proof (start_of_cycle_inv newSnapshot b Hb) as (_ & _ & _ & Hsa & Hsb & _).
  destruct (unbounded_visible b' Hinv) as [Hga Hgb].
  exists b, cs, ledger, deltas, b', cs'.
  split; [exact Hrun|]. split; [exact Hconv|]. split; [exact Hp|].
  split; [exact Hga|]. split; [exact Hgb|].
  split; [apply Hinv|]. split; [apply Hinv|].
  split.
  - intros k Hk. rewrite Ea. apply (applySide_lookup AskPriceLevel_lt); auto.
  - intros k Hk. rewrite Eb. apply (applySide_lookup BidPriceLevel_lt); auto.
Qed.

(** C7 (as amended).  Depth cap 0 and orders whose prices are numbers.
    After any run of batches the next batch is translated and applied, and
    in the change-set [applyUpdates] returns no price occurs in two of the
    lists of additions, updates and removals of a side. *)
Theorem C7_unbounded_changes_disjoint (past_the_end : list PriceLevel -> PriceLevel)
    (batches : list (list dxf_order_t * Z)) (records : list dxf_order_t)
    (newSnapshot : Z) :
  real_batches batches -> Forall real_order records ->
  exists b cs ledger deltas b' changes,
    processAll past_the_end batches (create 0) = Ok (b, cs)
    /\ convertToUpdates records (orderDataSnapshot_ (start_of_cycle newSnapshot b))
       = Ok (ledger, deltas)
    /\ applyUpdates past_the_end deltas
         (with_ledger (start_of_cycle newSnapshot b) ledger) = Ok (b', changes)
    /\ disjoint_prices (asks (additions changes)) (asks (updates changes))
    /\ disjoint_prices (asks (additions changes)) (asks (removals changes))
    /\ disjoint_prices (asks (updates changes)) (asks (removals changes))
    /\ disjoint_prices (bids (additions changes)) (bids (updates changes))
    /\ disjoint_prices (bids (additions changes)) (bids (removals changes))
    /\ disjoint_prices (bids (updates changes)) (bids (removals changes)).
Proof.
  intros Hbs Hr.
  destruct (processAll_unbounded past_the_end batches (create 0)
              create_unbounded_inv Hbs) as (b & cs & Hrun & Hb).
  destruct (cycle_unbounded past_the_end records newSnapshot b Hb Hr)
    as (ledger & deltas & b' & cs' & Hconv & Hda & Hdb & Happ & _).
  pose proof (start_of_cycle_inv newSnapshot b Hb) as (_ & _ & _ & Hsa & Hsb & _).
  destruct (change_lists_disjoint AskPriceLevel_lt (asks deltas) _ Hsa Hda)
    as (A1 & A2 & A3).
  destruct (change_lists_disjoint BidPriceLevel_lt (bids deltas) _ Hsb Hdb)
    as (B1 & B2 & B3).
  assert (forall lt l1 l2, disjoint_prices l1 l2 ->
            disjoint_prices (insert_all lt l1 []) (insert_all lt l2 [])) as Hins.
  { intros lt l1 l2 H x y Hx Hy.
    apply In_insert_all in Hx as [Hx|[]]. apply In_insert_all in Hy as [Hy|[]].
    apply H; auto. }
  exists b, cs, ledger, deltas, b'. eexists.
  split; [exact Hrun|]. split; [exact Hconv|]. split; [exact Happ|].
  simpl. repeat split; apply Hins; assumption.
Qed.

(** *** Instances and the inputs that fall outside *)

Lemma two_ask_batches_real : real_batches two_ask_batches.
Proof. repeat (constructor; try (intros H; reflexivity)). Qed.

Lemma third_batch_real : Forall real_order third_batch.
Proof.
  repeat (constructor; try (intros H; first [reflexivity|vm_compute in H; discriminate])).
Qed.

Lemma unbounded_cycle_by_lookup_example :
  exists b cs b' cs',
    processAll default_past_the_end two_ask_batches (create 0) = Ok (b, cs)
    /\ processSnapshotData default_past_the_end third_batch 0 b = Ok (b', cs')
    /\ getAsks b' = Ok (asks_ b') /\ getBids b' = Ok (bids_ b')
    /\ set_sorted AskPriceLevel_lt real_price (asks_ b')
    /\ set_sorted BidPriceLevel_lt real_price (bids_ b').
Proof.
  destruct (unbounded_cycle_by_lookup default_past_the_end two_ask_batches third_batch 0
              two_ask_batches_real third_batch_real)
    as (b & cs & ledger & deltas & b' & cs' & H1 & _ & H3 & H4 & H5 & H7 & H8 & _).
  exists b, cs, b', cs'.
  split; [exact H1|split; [exact H3|split; [exact H4|split; [exact H5|
    split; [exact H7|exact H8]]]]].
Qed.

Lemma C7_unbounded_changes_disjoint_witness :
  exists b cs ledger deltas b' changes,
    processAll default_past_the_end two_ask_batches (create 0) = Ok (b, cs)
    /\ convertToUpdates third_batch (orderDataSnapshot_ (start_of_cycle 0 b))
       = Ok (ledger, deltas)
    /\ applyUpdates default_past_the_end deltas
         (with_ledger (start_of_cycle 0 b) ledger) = Ok (b', changes)
    /\ disjoint_prices (asks (additions changes)) (asks (updates changes))
    /\ disjoint_prices (asks (additions changes)) (asks (removals changes))
    /\ disjoint_prices (asks (updates changes)) (asks (removals changes))
    /\ disjoint_prices (bids (additions changes)) (bids (updates changes))
    /\ disjoint_prices (bids (additions changes)) (bids (removals changes))
    /\ disjoint_prices (bids (updates changes)) (bids (removals changes)).
Proof.
  exact (C7_unbounded_changes_disjoint default_past_the_end two_ask_batches third_batch 0
           two_ask_batches_real third_batch_real).
Defined.

(** The instance evaluated: order 1 leaves (its level at 10 is removed),
    the level at 11 is updated and a level at 9 is added. *)
Lemma third_batch_changes :
  exists b cs,
    processAll default_past_the_end two_ask_batches (create 0) = Ok (b, cs)
    /\ applyUpdates default_past_the_end
         (mk_PriceLevelChanges
            [mk_PriceLevel 9 1 2; mk_PriceLevel 10 (-5) 0; mk_PriceLevel 11 2 2] [])
         b
       = Ok (mk_PriceLevelBook 0 [mk_PriceLevel 9 1 2; mk_PriceLevel 11 5 2] it_end
               [mk_PriceLevel 12 4 0] it_end (orderDataSnapshot_ b) false false false,
             mk_PriceLevelChangesSet
               (mk_PriceLevelChanges [mk_PriceLevel 9 1 2] [])
               (mk_PriceLevelChanges [mk_PriceLevel 11 5 2] [])
               (mk_PriceLevelChanges [mk_PriceLevel 10 5 0] [])).
Proof. do 2 eexists. split; vm_compute; reflexivity. Qed.

(** Depth cap 0, inputs outside the lemma above: a NaN price, a tiny size.
    - Two bid orders with a NaN price and one at 10 arrive, then the two
      NaN orders are removed: the second removal erases [end()], the run is
      undefined and no book is returned.
    - Two bid orders with a NaN price (sizes 5 and 3) arrive and the first is
      removed: order 2 is still in the ledger with size 3, but the visible
      bid book is empty.
    - An ask order of size 2^-60 arrives: the visible book shows a level that
      [isZeroPriceLevel] takes for zero. *)
Lemma nan_price_or_tiny_size :
  processAll default_past_the_end
    [ ([mk_order 1 NaN 5 0 dxf_osd_buy 0; mk_order 2 NaN 5 0 dxf_osd_buy 0;
        mk_order 3 10 1 0 dxf_osd_buy 0], 0);
      ([removal_of 1; removal_of 2], 0) ] (create 0) = Undefined
  /\ (exists b cs,
        processAll default_past_the_end
          [ ([mk_order 1 NaN 5 0 dxf_osd_buy 0; mk_order 2 NaN 3 0 dxf_osd_buy 0], 0);
            ([removal_of 1], 0) ] (create 0) = Ok (b, cs)
        /\ orderDataSnapshot_ b !! 2 = Some (mk_OrderData 2 NaN 3 0 dxf_osd_buy)
        /\ getBids b = Ok [])
  /\ (exists b cs,
        processAll default_past_the_end
          [ ([mk_order 1 10 0x1p-60 0 dxf_osd_sell 0], 0) ] (create 0) = Ok (b, cs)
        /\ getAsks b = Ok [mk_PriceLevel 10 0x1p-60 0]
        /\ isZeroPriceLevel (mk_PriceLevel 10 0x1p-60 0) = true).
Proof.
  split; [vm_compute; reflexivity|]. split.
  - do 2 eexists. split; [vm_compute; reflexivity|]. split; vm_compute; reflexivity.
  - do 2 eexists. split; [vm_compute; reflexivity|]. split; vm_compute; reflexivity.
Qed.

(** C5, the code at the failing input.  Depth cap 0, real prices, sizes far
    from zero.  Order 1 arrives on the ask side at price 10 with size 5 and
    is then amended to price 11 with size 7 (the same side).  Afterwards the
    ledger holds order 1 at price 11 alone, so the net size of the ask side
    is 7 at price 11 and 0 at price 10; but [getAsks] returns two levels,
    (10, 5) and (11, 7), and [onBookUpdate] is called with them: the level
    at 10 is shown although no order contributes to it.  The translator took
    nothing back at the old price (the same-side path of [convertToUpdates]
    calls the addition lambda only), and the store did as the deltas said. *)
Theorem C5_stale_level_after_price_change
    (past_the_end : list PriceLevel -> PriceLevel) :
  exists b cs,
    processAll past_the_end price_amended (setOnBookUpdate (create 0)) = Ok (b, cs)
    /\ levelsNumber_ b = 0%nat
    /\ orderDataSnapshot_ b = {[ 1 := mk_OrderData 1 11 7 3 dxf_osd_sell ]}
    /\ net_size false 10%float (orderDataSnapshot_ b) = 0%float
    /\ net_size false 11%float (orderDataSnapshot_ b) = 7%float
    /\ getAsks b = Ok [mk_PriceLevel 10 5 0; mk_PriceLevel 11 7 3]
    /\ cs = [ onBookUpdate (mk_PriceLevelChanges [mk_PriceLevel 10 5 0] []);
               onBookUpdate
                 (mk_PriceLevelChanges [mk_PriceLevel 10 5 0; mk_PriceLevel 11 7 3] []) ].
Proof.
  do 2 eexists. split; [vm_compute; reflexivity|].
  repeat split; vm_compute; reflexivity.
Qed.

(** C7, the claim as stated fails with a depth cap, and with a NaN price.
    - Depth cap 1.  A bid order with a NaN price arrives, then one at price
      10 (stored behind the iterator, not reported); then the first is
      removed and another order arrives at 10.  The level at 10 is promoted
      into the window, hence an addition, and it is updated: price 10 is in
      the additions and in the updates of the bid side.
    - Depth cap 0.  A bid order with a NaN price is removed and another one
      with a NaN price arrives in the same batch: the stored NaN level is in
      the removals and in the updates of the bid side. *)
Lemma C7_price_in_two_lists :
  (exists b cs c,
     processAll default_past_the_end
       [ ([mk_order 1 NaN 5 0 dxf_osd_buy 0], 0);
         ([mk_order 2 10 3 0 dxf_osd_buy 0], 0);
         ([removal_of 1; mk_order 3 10 2 0 dxf_osd_buy 0], 0) ]
       (setOnIncrementalChange (create 1)) = Ok (b, cs)
     /\ nth_error cs 2 = Some (onIncrementalChange c)
     /\ has_price 10%float (bids (additions c))
     /\ has_price 10%float (bids (updates c)))
  /\
  (exists b cs c l1 l2,
     processAll default_past_the_end
       [ ([mk_order 1 NaN 5 0 dxf_osd_buy 0], 0);
         ([removal_of 1; mk_order 2 NaN 3 0 dxf_osd_buy 0], 0) ]
       (setOnIncrementalChange (create 0)) = Ok (b, cs)
     /\ nth_error cs 1 = Some (onIncrementalChange c)
     /\ In l1 (bids (updates c)) /\ In l2 (bids (removals c))
     /\ price l1 = price l2).
Proof.
  split.
  - do 3 eexists. split; [vm_compute; reflexivity|].
    split; [reflexivity|].
    split; eexists; (split; [left; reflexivity|reflexivity]).
  - do 5 eexists. split; [vm_compute; reflexivity|].
    split; [reflexivity|].
    split; [left; reflexivity|]. split; [left; reflexivity|reflexivity].
Qed.

(** * Further properties of the header

    The remaining parts of the header: the loop of [convertToUpdates] and its
    ledger, the comparators and the two epsilon tests, the capped branches of
    the templates, [applyUpdates] and the handler calls of
    [processSnapshotData]. *)

(** ** The lambdas never touch [end()] *)



(** ** The ledger *)






(** ** The deltas of a batch *)

Lemma set_sorted_prices (lt : PriceLevel -> PriceLevel -> bool)
    (R : PriceLevel -> PriceLevel -> Prop) (l : list PriceLevel) :
  (forall a b, real_price a -> real_price b -> lt a b = true -> R a b) ->
  set_sorted lt real_price l -> StronglySorted R l.
Proof.
  intros HR. induction l as [|e l IH]; intros H; [constructor|].
  pose proof H as H'. apply set_sorted_cons in H' as (He & Hl & Hs).
  constructor; [apply IH; exact Hs|].
  rewrite List.Forall_forall in *. intros x Hx. apply HR; auto.
  apply (set_sorted_ok lt real_price l); auto.
Qed.

Lemma ledger_real_empty : ledger_real ∅.
Proof. intros k v Hl. rewrite lookup_empty in Hl. discriminate. Qed.

(** X3.  When every record that is no removal has a real price and the
    ledger holds real prices, [convertToUpdates] returns at most one delta
    per side and price: the ask deltas come strictly ascending in price, the
    bid deltas strictly descending, all with real prices; the new ledger
    holds real prices again. *)
Theorem X3_deltas_sorted_by_price (records : list dxf_order_t)
    (orderDataSnapshot : gmap Z OrderData) :
  Forall real_order records -> ledger_real orderDataSnapshot ->
  exists ledger deltas,
    convertToUpdates records orderDataSnapshot = Ok (ledger, deltas)
    /\ ascending_prices (asks deltas) /\ descending_prices (bids deltas)
    /\ Forall real_price (asks deltas) /\ Forall real_price (bids deltas)
    /\ ledger_real ledger.
Proof.
  intros Hr Hm.
  destruct (convertToUpdates_inv records orderDataSnapshot Hr Hm)
    as (ledger & deltas & E & Hl & Ha & Hb).
  exists ledger, deltas. split; [exact E|].
  split; [|split; [|split; [apply Ha|split; [apply Hb|exact Hl]]]].
  - apply (set_sorted_prices AskPriceLevel_lt); [|exact Ha].
    intros a b Ha' Hb' H. rewrite AskPriceLevel_lt_real in H by auto. exact H.
  - apply (set_sorted_prices BidPriceLevel_lt); [|exact Hb].
    intros a b Ha' Hb' H. rewrite BidPriceLevel_lt_real in H by auto. exact H.
Qed.

Lemma X3_deltas_sorted_by_price_witness :
  Forall real_order third_batch /\ ledger_real ∅
  /\ exists ledger deltas,
       convertToUpdates third_batch ∅ = Ok (ledger, deltas)
       /\ ascending_prices (asks deltas) /\ descending_prices (bids deltas)
       /\ Forall real_price (asks deltas) /\ Forall real_price (bids deltas)
       /\ ledger_real ledger.
Proof.
  split; [exact third_batch_real|]. split; [exact ledger_real_empty|].
  exact (X3_deltas_sorted_by_price third_batch ∅ third_batch_real ledger_real_empty).
Defined.

(** ** The two lambdas, by look-up *)

Lemma netInto_lookup (dropZero : bool) (d k : PriceLevel) (s : list PriceLevel) :
  set_sorted PriceLevel_lt real_price s -> real_price d -> real_price k ->
  set_lookup PriceLevel_lt k (netInto dropZero d s)
  = if eqvb PriceLevel_lt d k then
      if dropZero && isZeroPriceLevel (netted d (set_lookup PriceLevel_lt k s))
      then None else Some (netted d (set_lookup PriceLevel_lt k s))
    else set_lookup PriceLevel_lt k s.
Proof.
  intros Hs Hd Hk. unfold netInto.
  assert (Forall real_price s) as Ho by apply Hs.
  set (d' := match set_lookup PriceLevel_lt d s with
             | Some e => with_size d (size e + size d)%float
             | None => d
             end).
  assert (real_price d') as Hd' by (unfold d'; destruct (set_lookup _ d s); exact Hd).
  assert (forall x, eqvb PriceLevel_lt d' x = eqvb PriceLevel_lt d x) as Heq
    by (intros x; unfold d'; destruct (set_lookup _ d s); reflexivity).
  assert (eqvb PriceLevel_lt d k = true -> d' = netted d (set_lookup PriceLevel_lt k s))
    as Hn.
  { intros E. unfold d', netted.
    rewrite (set_lookup_eqv PriceLevel_lt real_price d k s) by auto. reflexivity. }
  pose proof (set_lookup_erase_key PriceLevel_lt real_price d k s Ho Hd Hk) as Her.
  destruct (dropZero && isZeroPriceLevel d') eqn:Ez.
  - rewrite Her. destruct (eqvb PriceLevel_lt d k) eqn:E; [|reflexivity].
    rewrite <- (Hn eq_refl), Ez. reflexivity.
  - rewrite (set_lookup_ins PriceLevel_lt real_price); auto.
    + rewrite Heq, Her. destruct (eqvb PriceLevel_lt d k) eqn:E; [|reflexivity].
      rewrite <- (Hn eq_refl), Ez. reflexivity.
    + apply (set_erase_key_sorted PriceLevel_lt real_price). exact Hs.
    + rewrite (set_lookup_erase_key PriceLevel_lt real_price) by auto.
      rewrite eqvb_sym, Heq, (eqvb_refl PriceLevel_lt real_price) by auto. reflexivity.
Qed.

Lemma updatesSide_set (side : dxf_order_side_t) (s : list PriceLevel) (u : UpdateSets) :
  updatesSide side (set_updatesSide side s u) = s
  /\ (if side_eqb side dxf_osd_buy
      then askUpdates (set_updatesSide side s u) = askUpdates u
      else bidUpdates (set_updatesSide side s u) = bidUpdates u).
Proof. unfold updatesSide, set_updatesSide. destruct (side_eqb _ _); split; reflexivity. Qed.

Lemma one_ask_delta_sorted (pl : PriceLevel) :
  real_price pl -> updates_sorted (mk_UpdateSets [pl] []).
Proof.
  intros H. split; [|apply set_sorted_nil].
  apply set_sorted_cons. split; [exact H|split; [constructor|apply set_sorted_nil]].
Qed.

(** X4.  The addition lambda on sorted sets and an order with a real price:
    afterwards the set of the order's side holds, at the order's price, one
    level with the order's price and time whose size is the order's size
    plus the size the set held at that price (the order's size alone when it
    held none); the levels at other prices and the set of the other side are
    as before, and both sets are still sorted. *)
Theorem X4_addition_nets_by_price (order : dxf_order_t) (u : UpdateSets)
    (k : PriceLevel) :
  updates_sorted u -> isnan (o_price order) = false -> real_price k ->
  exists u',
    processOrderAddition order u = Ok u'
    /\ updates_sorted u'
    /\ set_lookup PriceLevel_lt k (updatesSide (o_side order) u')
       = (if eqvb PriceLevel_lt (additionDelta order) k
          then Some (netted (additionDelta order)
                       (set_lookup PriceLevel_lt k (updatesSide (o_side order) u)))
          else set_lookup PriceLevel_lt k (updatesSide (o_side order) u))
    /\ (if side_eqb (o_side order) dxf_osd_buy
        then askUpdates u' = askUpdates u else bidUpdates u' = bidUpdates u).
Proof.
  intros Hu Hp Hk. rewrite processOrderAddition_net by auto.
  eexists. split; [reflexivity|].
  pose proof (updatesSide_sorted (o_side order) u Hu) as Hs.
  destruct (updatesSide_set (o_side order)
              (netInto false (additionDelta order) (updatesSide (o_side order) u)) u)
    as [E1 E2].
  split; [|split; [|exact E2]].
  - apply set_updatesSide_sorted; auto. apply netInto_sorted; auto.
  - rewrite E1, netInto_lookup by auto. reflexivity.
Qed.

Lemma X4_addition_nets_by_price_witness :
  exists u',
    processOrderAddition (mk_order 7 10 4 3 dxf_osd_sell 0)
      (mk_UpdateSets [mk_PriceLevel 10 1 0] []) = Ok u'
    /\ set_lookup PriceLevel_lt (mk_PriceLevel 10 0 0) (askUpdates u')
       = Some (mk_PriceLevel 10 5 3)
    /\ bidUpdates u' = [].
Proof.
  destruct (X4_addition_nets_by_price (mk_order 7 10 4 3 dxf_osd_sell 0)
              (mk_UpdateSets [mk_PriceLevel 10 1 0] []) (mk_PriceLevel 10 0 0))
    as (u' & H1 & _ & H3 & H4).
  - apply one_ask_delta_sorted. reflexivity.
  - reflexivity.
  - reflexivity.
  - exists u'. split; [exact H1|]. split; [|exact H4].
    change (updatesSide (o_side (mk_order 7 10 4 3 dxf_osd_sell 0)) u')
      with (askUpdates u') in H3.
    rewrite H3. vm_compute. reflexivity.
Defined.

(** X5.  The removal lambda on sorted sets and a ledger entry with a real
    price: the sum of minus the entry's size and the size the set of the
    entry's side held at the entry's price is what that set holds there
    afterwards, with the event's time, unless the sum is within epsilon of
    zero, in which case the set holds nothing at that price; the levels at
    other prices and the set of the other side are as before. *)
Theorem X5_removal_nets_by_price (order : dxf_order_t) (found : OrderData)
    (u : UpdateSets) (k : PriceLevel) :
  updates_sorted u -> isnan (od_price found) = false -> real_price k ->
  exists u',
    processOrderRemoval order found u = Ok u'
    /\ updates_sorted u'
    /\ set_lookup PriceLevel_lt k (updatesSide (od_side found) u')
       = (if eqvb PriceLevel_lt (removalDelta order found) k
          then
            let sum := netted (removalDelta order found)
                         (set_lookup PriceLevel_lt k (updatesSide (od_side found) u)) in
            if isZeroPriceLevel sum then None else Some sum
          else set_lookup PriceLevel_lt k (updatesSide (od_side found) u))
    /\ (if side_eqb (od_side found) dxf_osd_buy
        then askUpdates u' = askUpdates u else bidUpdates u' = bidUpdates u).
Proof.
  intros Hu Hp Hk. rewrite processOrderRemoval_net by auto.
  eexists. split; [reflexivity|].
  pose proof (updatesSide_sorted (od_side found) u Hu) as Hs.
  destruct (updatesSide_set (od_side found)
              (netInto true (removalDelta order found) (updatesSide (od_side found) u)) u)
    as [E1 E2].
  split; [|split; [|exact E2]].
  - apply set_updatesSide_sorted; auto. apply netInto_sorted; auto.
  - rewrite E1, netInto_lookup by auto. reflexivity.
Qed.

Lemma X5_removal_nets_by_price_witness :
  exists u',
    processOrderRemoval (removal_of 1) (mk_OrderData 1 10 4 0 dxf_osd_sell)
      (mk_UpdateSets [mk_PriceLevel 10 4 0] []) = Ok u'
    /\ set_lookup PriceLevel_lt (mk_PriceLevel 10 0 0) (askUpdates u') = None
    /\ bidUpdates u' = [].
Proof.
  destruct (X5_removal_nets_by_price (removal_of 1) (mk_OrderData 1 10 4 0 dxf_osd_sell)
              (mk_UpdateSets [mk_PriceLevel 10 4 0] []) (mk_PriceLevel 10 0 0))
    as (u' & H1 & _ & H3 & H4).
  - apply one_ask_delta_sorted. reflexivity.
  - reflexivity.
  - reflexivity.
  - exists u'. split; [exact H1|]. split; [|exact H4].
    change (updatesSide (od_side (mk_OrderData 1 10 4 0 dxf_osd_sell)) u')
      with (askUpdates u') in H3.
    rewrite H3. vm_compute. reflexivity.
Defined.

(** X6.  Of a removal event the loop of [convertToUpdates] reads the order
    index and the time only: two removal events with the same index and time
    have the same effect on the ledger and on the two sets, whatever their
    prices, sizes, sides and flags.  The delta is built from the ledger
    entry. *)
Theorem X6_removal_reads_only_index_and_time (o o' : dxf_order_t)
    (st : gmap Z OrderData * UpdateSets) :
  isOrderRemoval o = true -> isOrderRemoval o' = true ->
  o_index o = o_index o' -> o_time o = o_time o' ->
  convertOrder o st = convertOrder o' st.
Proof.
  intros Hr Hr' Hi Ht. destruct st as [m u]. unfold convertOrder.
  rewrite Hr, Hr', Hi. destruct (m !! o_index o') as [found|]; [|reflexivity].
  unfold processOrderRemoval. rewrite Ht. reflexivity.
Qed.

Lemma X6_removal_reads_only_index_and_time_witness :
  convertOrder (removal_of 1) (flip_ledger, mk_UpdateSets [] [])
  = convertOrder (mk_order 1 99 0 0 dxf_osd_sell 0) (flip_ledger, mk_UpdateSets [] []).
Proof.
  apply (X6_removal_reads_only_index_and_time (removal_of 1)
           (mk_order 1 99 0 0 dxf_osd_sell 0)); reflexivity.
Defined.

(** ** Removals of orders the ledger does not hold *)

Lemma convertOrders_unseen_removals (records : list dxf_order_t)
    (m : gmap Z OrderData) (u : UpdateSets) :
  Forall (unseen_removal m) records -> convertOrders records (m, u) = Ok (m, u).
Proof.
  induction 1 as [|o records [Hr Hn] _ IH]; [reflexivity|].
  change (convertOrders (o :: records) (m, u))
    with (st' ← convertOrder o (m, u); convertOrders records st').
  unfold convertOrder. rewrite Hn, Hr. run_outcome. exact IH.
Qed.

Lemma with_ledger_same (b : PriceLevelBook) : with_ledger b (orderDataSnapshot_ b) = b.
Proof. destruct b; reflexivity. Qed.

(** X7.  An incremental batch that holds only removal events (removal flag,
    size zero or size NaN) for orders the ledger does not hold yields no
    delta and leaves the ledger, the stores and the iterators as they are,
    whatever the depth cap.  Unlike the batch without records, it still
    calls the handlers that are set: [onIncrementalChange] with a change-set
    without changes, then [onBookUpdate] with the visible book. *)
Theorem X7_unseen_removals_change_nothing (past_the_end : list PriceLevel -> PriceLevel)
    (records : list dxf_order_t) (b : PriceLevelBook) (v : PriceLevelChanges) :
  records <> [] ->
  Forall (unseen_removal (orderDataSnapshot_ b)) records ->
  visibleBook b = Ok v ->
  convertToUpdates records (orderDataSnapshot_ b)
  = Ok (orderDataSnapshot_ b, mk_PriceLevelChanges [] [])
  /\ processSnapshotData past_the_end records 0 b
     = Ok (b, handler_calls false b no_changes v).
Proof.
  intros Hne Hr Hv.
  assert (convertToUpdates records (orderDataSnapshot_ b)
          = Ok (orderDataSnapshot_ b, mk_PriceLevelChanges [] [])) as Hc.
  { unfold convertToUpdates. rewrite convertOrders_unseen_removals by exact Hr.
    reflexivity. }
  split; [exact Hc|].
  unfold processSnapshotData. destruct records as [|r rs]; [congruence|].
  change (negb (0 =? 0)) with false. cbv iota. rewrite Hc.
  unfold mbind at 1, outcome_bind at 1. cbv iota beta.
  rewrite with_ledger_same, applyUpdates_no_delta.
  unfold mbind at 1, outcome_bind at 1. cbv iota beta.
  rewrite Hv. unfold handler_calls.
  destruct (onIncrementalChange_ b), (onBookUpdate_ b); reflexivity.
Qed.

Lemma X7_unseen_removals_change_nothing_witness :
  processSnapshotData default_past_the_end
    [removal_of 7; mk_order 8 10 0 0 dxf_osd_buy 0] 0 one_ask_book
  = Ok (one_ask_book,
        [ onIncrementalChange no_changes;
          onBookUpdate (mk_PriceLevelChanges [mk_PriceLevel 10 5 0] []) ]).
Proof.
  apply (X7_unseen_removals_change_nothing default_past_the_end
           [removal_of 7; mk_order 8 10 0 0 dxf_osd_buy 0] one_ask_book
           (mk_PriceLevelChanges [mk_PriceLevel 10 5 0] [])).
  - discriminate.
  - repeat constructor.
  - reflexivity.
Defined.

(** ** The comparators and the epsilon tests *)

(** X8.  [operator<] of [PriceLevel] is that of [AskPriceLevel].  The bid
    comparator is the ask comparator with its arguments exchanged, except on
    two NaN prices: there the ask comparator holds in both directions and
    the bid comparator in neither.  So a level with a NaN price is less than
    itself under the ask comparator (which is irreflexive on real prices
    only), while the bid comparator is irreflexive throughout. *)
Theorem X8_comparators_mirror (a b : PriceLevel) :
  PriceLevel_lt a b = AskPriceLevel_lt a b
  /\ BidPriceLevel_lt a b
     = (if isnan (price a) && isnan (price b) then false else AskPriceLevel_lt b a)
  /\ AskPriceLevel_lt a a = isnan (price a)
  /\ BidPriceLevel_lt a a = false.
Proof.
  unfold PriceLevel_lt, AskPriceLevel_lt, BidPriceLevel_lt.
  split; [reflexivity|].
  destruct (isnan (price a)) eqn:Ea, (isnan (price b)) eqn:Eb; simpl;
    rewrite ?ltb_irrefl; auto.
Qed.

Lemma SFltb_abs (x e : spec_float) :
  match e with S754_finite false _ _ => True | _ => False end ->
  SFltb (SFabs x) e = SFltb (SFopp e) x && SFltb x e.
Proof.
  destruct e as [| | |[|] me ee]; try contradiction. intros _.
  destruct x as [[|]|[|]| |[|] m ex]; try reflexivity; unfold SFltb; simpl.
  rewrite (Z.compare_antisym ex ee).
  destruct (ex ?= ee) eqn:E; simpl; try reflexivity.
  rewrite (Pos.compare_cont_antisym me m Eq). simpl. rewrite andb_true_r. reflexivity.
Qed.

Lemma abs_ltb_epsilon (x : double) :
  (abs x <? epsilon)%float = ((- epsilon <? x) && (x <? epsilon))%float.
Proof.
  rewrite !FloatAxioms.ltb_spec, FloatAxioms.abs_spec, FloatAxioms.opp_spec.
  apply SFltb_abs. vm_compute. exact I.
Qed.

Lemma sub_nan (x y : double) :
  isnan x = true \/ isnan y = true -> isnan (x - y)%float = true.
Proof.
  rewrite !isnan_spec, FloatAxioms.sub_spec. unfold SF64sub, SFsub.
  intros [->| ->]; [reflexivity|]. destruct (Prim2SF x) as [| | |]; reflexivity.
Qed.

(** X9.  [isZeroPriceLevel] holds exactly for the sizes strictly between
    minus epsilon and epsilon, and [areEqualPrices] exactly when the
    difference of the prices is; in particular a NaN size is never zero and a
    NaN price equals no price, itself included. *)
Theorem X9_epsilon_tests (pl : PriceLevel) (p q : double) :
  isZeroPriceLevel pl = ((- epsilon <? size pl) && (size pl <? epsilon))%float
  /\ areEqualPrices p q = ((- epsilon <? p - q) && (p - q <? epsilon))%float
  /\ isZeroPriceLevel (with_size pl NaN) = false
  /\ areEqualPrices NaN q = false
  /\ areEqualPrices p NaN = false.
Proof.
  unfold isZeroPriceLevel, areEqualPrices.
  split; [apply abs_ltb_epsilon|]. split; [apply abs_ltb_epsilon|].
  split; [reflexivity|].
  split; rewrite abs_ltb_epsilon; rewrite (ltb_nan_l (_ - _)%float);
    try apply andb_false_r; apply sub_nan; auto.
Qed.

(** ** A NaN price on the ask side *)

Lemma ask_lt_nan (x k : PriceLevel) :
  isnan (price k) = true -> AskPriceLevel_lt x k = true.
Proof. unfold AskPriceLevel_lt. intros ->. reflexivity. Qed.

Lemma insert_from_ask_nan (p : option PriceLevel) (k : PriceLevel) (s : list PriceLevel) :
  isnan (price k) = true ->
  exists l1 l2, s = l1 ++ l2 /\ insert_from AskPriceLevel_lt p k s = l1 ++ k :: l2.
Proof.
  intros Hk. revert p. induction s as [|e s IH]; intros p; simpl.
  - exists [], []. split; [reflexivity|]. destruct p; [rewrite ask_lt_nan by exact Hk|];
      reflexivity.
  - destruct (AskPriceLevel_lt k e).
    + exists [], (e :: s). split; [reflexivity|].
      destruct p; [rewrite ask_lt_nan by exact Hk|]; reflexivity.
    + destruct (IH (Some e)) as (l1 & l2 & E1 & E2).
      exists (e :: l1), l2. simpl. rewrite E2, <- E1. split; reflexivity.
Qed.

(** X10.  On the ask side a level with a NaN price is never found, whatever
    the store holds: [generatePriceLevelChanges] files a delta with a NaN
    price under the additions, [erase] by such a key erases nothing, and
    [insert] always adds the level, so that the store can hold any number of
    levels with a NaN price. *)
Theorem X10_nan_ask_is_always_new (k : PriceLevel) (store : list PriceLevel)
    (c : ChangeLists) :
  isnan (price k) = true ->
  set_find AskPriceLevel_lt k store = it_end
  /\ generatePriceLevelChanges AskPriceLevel_lt k store c
     = Ok (mk_ChangeLists (additionsList c ++ [k]) (removalsList c) (updatesList c))
  /\ set_erase_key AskPriceLevel_lt k store = store
  /\ exists l1 l2,
       store = l1 ++ l2 /\ set_insert AskPriceLevel_lt k store = l1 ++ k :: l2.
Proof.
  intros Hk.
  assert (set_find AskPriceLevel_lt k store = it_end) as Hf.
  { unfold set_find. rewrite lower_bound_ask_nan by exact Hk.
    assert (nth_error store (length store) = None) as -> by (apply nth_error_None; lia).
    reflexivity. }
  split; [exact Hf|]. split; [|split].
  - unfold generatePriceLevelChanges. rewrite Hf. reflexivity.
  - unfold set_erase_key. apply filter_all. intros e _.
    rewrite ask_lt_nan by exact Hk. reflexivity.
  - apply insert_from_ask_nan. exact Hk.
Qed.

Lemma X10_nan_ask_is_always_new_witness :
  set_find AskPriceLevel_lt (mk_PriceLevel NaN 1 0)
    [mk_PriceLevel 10 5 0; mk_PriceLevel NaN 2 0] = it_end
  /\ set_erase_key AskPriceLevel_lt (mk_PriceLevel NaN 1 0)
       [mk_PriceLevel 10 5 0; mk_PriceLevel NaN 2 0]
     = [mk_PriceLevel 10 5 0; mk_PriceLevel NaN 2 0].
Proof.
  destruct (X10_nan_ask_is_always_new (mk_PriceLevel NaN 1 0)
              [mk_PriceLevel 10 5 0; mk_PriceLevel NaN 2 0] (mk_ChangeLists [] [] []))
    as (H1 & _ & H3 & _); [reflexivity|].
  split; [exact H1|exact H3].
Defined.

(** ** The change-set and a new snapshot with depth cap 0 *)

Section SortedAppend.
Context {T : Type} (lt : T -> T -> bool) (ok : T -> Prop) `{!StrictWeak lt ok}.

Lemma set_sorted_app (s l : list T) :
  set_sorted lt ok (s ++ l) ->
  set_sorted lt ok s /\ set_sorted lt ok l
  /\ (forall x y, In x s -> In y l -> lt x y = true).
Proof.
  induction s as [|e s IH]; simpl; intros H.
  - split; [apply set_sorted_nil|]. split; [exact H|]. intros x y [].
  - apply set_sorted_cons in H as (He & Hl & H). destruct (IH H) as (Hs & Hll & Hlt).
    rewrite Forall_app in Hl. destruct Hl as [Hl1 Hl2]. split; [|split; [exact Hll|]].
    + apply set_sorted_cons. auto.
    + intros x y [<-|Hx] Hy; [|auto]. rewrite List.Forall_forall in Hl2. auto.
Qed.

Lemma ins_snoc (k : T) (s : list T) :
  set_sorted lt ok (s ++ [k]) -> ins lt k s = s ++ [k].
Proof.
  induction s as [|e s IH]; simpl; intros H; [reflexivity|].
  apply set_sorted_cons in H as (He & Hl & H).
  rewrite Forall_app in Hl. destruct Hl as [_ Hl]. inversion Hl as [|? ? Hek _]; subst.
  assert (ok k) as Hk.
  { apply (set_sorted_ok lt ok (s ++ [k])); auto. apply in_app_iff. right. left.
    reflexivity. }
  rewrite (lt_asym lt ok e k), Hek by auto. f_equal. apply IH. exact H.
Qed.

(** Inserting, one by one, keys that continue a sorted set appends them. *)
Lemma insert_all_app (ks s : list T) :
  set_sorted lt ok (s ++ ks) -> insert_all lt ks s = s ++ ks.
Proof.
  revert s. induction ks as [|k ks IH]; intros s H; [symmetry; apply app_nil_r|].
  unfold insert_all in *. simpl.
  assert (set_sorted lt ok ((s ++ [k]) ++ ks)) as H'
    by (rewrite <- app_assoc; exact H).
  destruct (set_sorted_app _ _ H') as (Hsk & _ & _).
  destruct (set_sorted_app _ _ Hsk) as (Hs & Hk1 & _).
  assert (ok k) as Hk by (apply (set_sorted_ok lt ok [k]); auto; left; reflexivity).
  rewrite (set_insert_ins lt ok) by auto. rewrite ins_snoc by exact Hsk.
  rewrite IH by exact H'. rewrite <- app_assoc. reflexivity.
Qed.

Lemma insert_all_nil (ks : list T) :
  set_sorted lt ok ks -> insert_all lt ks [] = ks.
Proof. intros H. apply (insert_all_app ks []). exact H. Qed.

End SortedAppend.




Lemma change_lists_length (lt : PriceLevel -> PriceLevel -> bool)
    (store us : list PriceLevel) :
  (length (additions_of lt store us) + length (updates_of lt store us)
   + length (removals_of lt store us))%nat = length us.
Proof.
  unfold additions_of, updates_of, removals_of.
  induction us as [|u us IH]; [reflexivity|]. simpl.
  destruct (set_lookup lt u store) as [f|]; [|simpl; lia].
  destruct (isZeroPriceLevel (netLevel f u)); simpl; lia.
Qed.

Lemma unbounded_changes_classified (b : PriceLevelBook) (deltas : PriceLevelChanges) :
  set_sorted AskPriceLevel_lt real_price (asks_ b) ->
  set_sorted BidPriceLevel_lt real_price (bids_ b) ->
  set_sorted AskPriceLevel_lt real_price (asks deltas) ->
  set_sorted BidPriceLevel_lt real_price (bids deltas) ->
  unbounded_changes (asks_ b) (bids_ b) deltas = classified b deltas.
Proof.
  intros Hsa Hsb Hda Hdb. unfold unbounded_changes, classified.
  rewrite !(insert_all_nil AskPriceLevel_lt real_price),
          !(insert_all_nil BidPriceLevel_lt real_price); auto.
  - apply (removals_of_sorted BidPriceLevel_lt); auto.
  - apply (updates_of_sorted BidPriceLevel_lt); auto.
  - apply (additions_of_sorted BidPriceLevel_lt); auto.
  - apply (removals_of_sorted AskPriceLevel_lt); auto.
  - apply (updates_of_sorted AskPriceLevel_lt); auto.
  - apply (additions_of_sorted AskPriceLevel_lt); auto.
Qed.

Lemma one_ask_book_inv : unbounded_inv one_ask_book.
Proof.
  unfold unbounded_inv, one_ask_book. simpl.
  split; [reflexivity|]. split; [reflexivity|]. split; [reflexivity|].
  split; [|split; [apply set_sorted_nil|]].
  - apply set_sorted_cons. split; [reflexivity|split; [constructor|apply set_sorted_nil]].
  - intros k v H. apply lookup_singleton_Some in H as [_ <-]. reflexivity.
Qed.

Lemma two_ask_deltas_sorted :
  set_sorted AskPriceLevel_lt real_price [mk_PriceLevel 10 1 1; mk_PriceLevel 11 2 1].
Proof.
  apply set_sorted_cons. split; [reflexivity|]. split; [repeat constructor|].
  apply set_sorted_cons. split; [reflexivity|split; [constructor|apply set_sorted_nil]].
Qed.

(** X11.  With depth cap 0, sorted stores and sorted deltas, the change-set
    [applyUpdates] returns is the classification of
    [generatePriceLevelChanges], in the order of the deltas: the additions
    are the deltas at prices without a stored level, the updates the net
    levels of the others, the removals the stored levels whose net size is
    within epsilon of zero.  Every delta gives exactly one entry: per side
    the three lists together are as long as the list of deltas. *)
Theorem X11_unbounded_change_set (past_the_end : list PriceLevel -> PriceLevel)
    (deltas : PriceLevelChanges) (b : PriceLevelBook) :
  unbounded_inv b ->
  set_sorted AskPriceLevel_lt real_price (asks deltas) ->
  set_sorted BidPriceLevel_lt real_price (bids deltas) ->
  exists b' c,
    applyUpdates past_the_end deltas b = Ok (b', c)
    /\ c = classified b deltas
    /\ (length (asks (additions c)) + length (asks (updates c))
        + length (asks (removals c)))%nat = length (asks deltas)
    /\ (length (bids (additions c)) + length (bids (updates c))
        + length (bids (removals c)))%nat = length (bids deltas).
Proof.
  intros Hb Hda Hdb. rewrite applyUpdates_unbounded by auto.
  destruct Hb as (_ & _ & _ & Hsa & Hsb & _).
  rewrite unbounded_changes_classified by auto.
  do 2 eexists. split; [reflexivity|]. split; [reflexivity|].
  split; apply change_lists_length.
Qed.

Lemma X11_unbounded_change_set_witness :
  exists b' c,
    applyUpdates default_past_the_end
      (mk_PriceLevelChanges [mk_PriceLevel 10 1 1; mk_PriceLevel 11 2 1] [])
      one_ask_book = Ok (b', c)
    /\ additions c = mk_PriceLevelChanges [mk_PriceLevel 11 2 1] []
    /\ updates c = mk_PriceLevelChanges [mk_PriceLevel 10 6 1] []
    /\ removals c = mk_PriceLevelChanges [] [].
Proof.
  destruct (X11_unbounded_change_set default_past_the_end
              (mk_PriceLevelChanges [mk_PriceLevel 10 1 1; mk_PriceLevel 11 2 1] [])
              one_ask_book one_ask_book_inv two_ask_deltas_sorted)
    as (b' & c & H1 & H2 & _).
  - apply set_sorted_nil.
  - exists b', c. split; [exact H1|]. rewrite H2.
    split; [|split]; vm_compute; reflexivity.
Defined.



(** ** The handler calls *)

Lemma applyUpdates_settings (past_the_end : list PriceLevel -> PriceLevel)
    (deltas : PriceLevelChanges) (b b' : PriceLevelBook) (c : PriceLevelChangesSet) :
  applyUpdates past_the_end deltas b = Ok (b', c) ->
  same_settings b b' /\ orderDataSnapshot_ b' = orderDataSnapshot_ b.
Proof.
  unfold applyUpdates. intros H. run_outcome.
  destruct (applySide AskPriceLevel_lt _ _ _ _ _) as [a|]; [|discriminate]. simpl in H.
  destruct (applySide BidPriceLevel_lt _ _ _ _ _) as [d|]; [|discriminate]. simpl in H.
  inversion H; subst. unfold same_settings. simpl. auto.
Qed.

(** X13.  Whenever [processSnapshotData] returns on a batch with records,
    whatever the depth cap: the cap and the three handlers are as before;
    for a new snapshot the only call is [onNewBook], made when that handler
    is set; for an incremental batch [onIncrementalChange] is called first
    and [onBookUpdate] second, each when set, and [onNewBook] never; every
    book passed to [onNewBook] or [onBookUpdate] is what [getAsks] and
    [getBids] return on the book after the cycle. *)
Theorem X13_handler_protocol (past_the_end : list PriceLevel -> PriceLevel)
    (r : dxf_order_t) (rs : list dxf_order_t) (newSnapshot : Z)
    (b b' : PriceLevelBook) (cs : list Callback) :
  processSnapshotData past_the_end (r :: rs) newSnapshot b = Ok (b', cs) ->
  same_settings b b'
  /\ exists c v,
       cs = handler_calls (negb (newSnapshot =? 0)) b c v
       /\ (forall w, In (onNewBook w) cs \/ In (onBookUpdate w) cs -> visibleBook b' = Ok w).
Proof.
  unfold processSnapshotData. intros H.
  set (b0 := if negb (newSnapshot =? 0) then clearBook b else b) in *.
  assert (same_settings b b0) as H0.
  { unfold b0, same_settings. destruct (negb _); simpl; auto. }
  clearbody b0. run_outcome.
  destruct (convertToUpdates _ _) as [[ledger us]|]; [|discriminate]. simpl in H.
  destruct (applyUpdates _ _ _) as [[b1 c]|] eqn:Ea; [|discriminate]. simpl in H.
  apply applyUpdates_settings in Ea as [(E1 & E2 & E3 & E4) _]. simpl in *.
  destruct H0 as (F1 & F2 & F3 & F4).
  assert (same_settings b b1) as Hs.
  { unfold same_settings. rewrite E1, E2, E3, E4. auto. }
  unfold handler_calls. rewrite <- F2, <- F3, <- F4, <- E2, <- E3, <- E4.
  destruct (negb (newSnapshot =? 0)).
  - destruct (onNewBook_ b1).
    + destruct (visibleBook b1) as [v|] eqn:Ev; [|discriminate]. simpl in H.
      inversion H; subst. split; [exact Hs|]. exists c, v. split; [reflexivity|].
      intros w [[Hw|[]]|[Hw|[]]]; inversion Hw; subst. exact Ev.
    + inversion H; subst. split; [exact Hs|]. exists c, (mk_PriceLevelChanges [] []).
      split; [reflexivity|]. intros w [[]|[]].
  - destruct (onIncrementalChange_ b1), (onBookUpdate_ b1); simpl in H.
    + destruct (visibleBook b1) as [v|] eqn:Ev; [|discriminate]. simpl in H.
      inversion H; subst. split; [exact Hs|]. exists c, v. split; [reflexivity|].
      intros w [[Hw|[Hw|[]]]|[Hw|[Hw|[]]]]; inversion Hw; subst. exact Ev.
    + inversion H; subst. split; [exact Hs|]. exists c, (mk_PriceLevelChanges [] []).
      split; [reflexivity|]. intros w [[Hw|[]]|[Hw|[]]]; inversion Hw.
    + destruct (visibleBook b1) as [v|] eqn:Ev; [|discriminate]. simpl in H.
      inversion H; subst. split; [exact Hs|]. exists c, v. split; [reflexivity|].
      intros w [[Hw|[]]|[Hw|[]]]; inversion Hw; subst. exact Ev.
    + inversion H; subst. split; [exact Hs|]. exists c, (mk_PriceLevelChanges [] []).
      split; [reflexivity|]. intros w [[]|[]].
Qed.

Lemma X13_handler_protocol_witness :
  exists b' cs c v,
    processSnapshotData default_past_the_end (rev net_zero_batch) 0 one_ask_book
    = Ok (b', cs)
    /\ same_settings one_ask_book b'
    /\ cs = [onIncrementalChange c; onBookUpdate v]
    /\ visibleBook b' = Ok v.
Proof.
  pose proof (net_zero_batch_reversed default_past_the_end) as H.
  destruct (X13_handler_protocol default_past_the_end _ _ 0 one_ask_book _ _ H)
    as (Hs & c & v & Hc & Hv).
  do 2 eexists. exists c, v. split; [exact H|]. split; [exact Hs|].
  split; [exact Hc|]. apply Hv. right. rewrite Hc. right. left. reflexivity.
Defined.

(** ** The templates with a depth cap *)

(** X14.  With a depth cap, while the store of a side holds fewer levels
    than the cap and the iterator of the side is [end()], the addition of a
    level with a real price does exactly what it does without a cap: the
    level is stored and reported as an addition, nothing is reported as
    removed, and the iterator stays at [end()]. *)
Theorem X14_addition_below_cap (lt : PriceLevel -> PriceLevel -> bool)
    (past_the_end : list PriceLevel -> PriceLevel) (a : PriceLevel) (st : SideState)
    (n : nat) :
  lastElementIter st = it_end -> (length (storage st) < S n)%nat ->
  isnan (price a) = false ->
  processSideAddition lt past_the_end a st (S n)
  = processSideAddition lt past_the_end a st 0.
Proof.
  intros Hl Hn Ha. unfold processSideAddition. rewrite Hl.
  change (S n =? 0)%nat with false. change (0 =? 0)%nat with true. cbv iota.
  assert ((length (storage st) <? S n)%nat = true) as -> by (apply Nat.ltb_lt; exact Hn).
  assert ((S n <=? length (storage st))%nat = false) as -> by (apply Nat.leb_gt; exact Hn).
  run_outcome. unfold relocate, isValid. rewrite Ha. reflexivity.
Qed.

Lemma X14_addition_below_cap_witness :
  processSideAddition BidPriceLevel_lt default_past_the_end (mk_PriceLevel 10 5 0)
    (mk_SideState [mk_PriceLevel 11 1 0] it_end [] [] []) 2
  = Ok (mk_SideState [mk_PriceLevel 11 1 0; mk_PriceLevel 10 5 0] it_end
          [mk_PriceLevel 10 5 0] [] []).
Proof.
  rewrite (X14_addition_below_cap BidPriceLevel_lt default_past_the_end
             (mk_PriceLevel 10 5 0) (mk_SideState [mk_PriceLevel 11 1 0] it_end [] [] []) 1).
  - vm_compute. reflexivity.
  - reflexivity.
  - simpl. lia.
  - reflexivity.
Defined.

(** X15.  With a depth cap, the removal of a level from a store that is not
    empty while the iterator of the side is [end()] is undefined, whichever
    level is removed: when the store has at most as many levels as the cap
    the template evaluates [std::next(lastElementIter)] on its way to
    [newLastPL], and when it has more it does so in its first test. *)
Theorem X15_capped_removal_at_end_is_undefined (lt : PriceLevel -> PriceLevel -> bool)
    (past_the_end : list PriceLevel -> PriceLevel) (r : PriceLevel) (st : SideState)
    (n : nat) :
  storage st <> [] -> lastElementIter st = it_end ->
  processSideRemoval lt past_the_end r st (S n) = Undefined.
Proof.
  intros Hs Hl. unfold processSideRemoval. rewrite Hl.
  destruct (storage st) as [|e s]; [congruence|].
  change (S n =? 0)%nat with false. cbv iota.
  destruct (length (e :: s) <=? S n)%nat eqn:E.
  - assert ((S n <? length (e :: s))%nat = false) as ->
      by (apply Nat.ltb_ge; apply Nat.leb_le; exact E).
    reflexivity.
  - reflexivity.
Qed.

Lemma X15_capped_removal_at_end_is_undefined_witness :
  processSideRemoval AskPriceLevel_lt default_past_the_end (mk_PriceLevel 10 5 0)
    (mk_SideState [mk_PriceLevel 10 5 0] it_end [] [] []) 3 = Undefined.
Proof.
  apply (X15_capped_removal_at_end_is_undefined AskPriceLevel_lt default_past_the_end
           (mk_PriceLevel 10 5 0) (mk_SideState [mk_PriceLevel 10 5 0] it_end [] [] []) 2).
  - discriminate.
  - reflexivity.
Defined.

(** X16.  A new snapshot clears the stores but leaves the iterators as they
    are.  So with a depth cap, when the bid iterator points at a level, a
    new snapshot that brings one bid order is undefined: the addition
    template reads [*lastElementIter], an iterator into the store that was
    cleared. *)
Theorem X16_clear_keeps_stale_iterator (past_the_end : list PriceLevel -> PriceLevel)
    (order : dxf_order_t) (newSnapshot : Z) (b : PriceLevelBook) (n i : nat) :
  levelsNumber_ b = S n -> lastBid_ b = it_at i -> newSnapshot <> 0 ->
  o_side order = dxf_osd_buy -> isOrderRemoval order = false ->
  processSnapshotData past_the_end [order] newSnapshot b = Undefined.
Proof.
  intros Hc Hl Hn Hs Hr.
  assert (negb (newSnapshot =? 0) = true) as En
    by (destruct (Z.eqb_spec newSnapshot 0); [contradiction|reflexivity]).
  unfold processSnapshotData. rewrite En. cbv iota.
  unfold convertToUpdates, convertOrders, convertOrder. simpl orderDataSnapshot_.
  rewrite lookup_empty, Hr. unfold processOrderAddition, updatesSide, set_updatesSide.
  rewrite Hs. simpl. unfold applyUpdates. simpl. rewrite Hc, Hl.
  assert (applySide BidPriceLevel_lt past_the_end
            [mk_PriceLevel (o_price order) (o_size order) (o_time order)]
            [] (it_at i) (S n) = Undefined) as ->
    by (destruct i; reflexivity).
  reflexivity.
Qed.

Lemma X16_clear_keeps_stale_iterator_witness :
  processAll default_past_the_end [ ([mk_order 1 NaN 5 0 dxf_osd_buy 0], 0) ] (create 1)
  = Ok (nan_bid_book, [])
  /\ processSnapshotData default_past_the_end [mk_order 2 10 5 0 dxf_osd_buy 0] 1
       nan_bid_book = Undefined.
Proof.
  split; [vm_compute; reflexivity|].
  apply (X16_clear_keeps_stale_iterator default_past_the_end
           (mk_order 2 10 5 0 dxf_osd_buy 0) 1 nan_bid_book 0 0);
    first [reflexivity|discriminate].
Defined.

(** ** What the depth cap shows *)

Lemma relocate_bid_cursor (newLastPL : PriceLevel) (s : list PriceLevel) :
  bid_cursor s (relocate BidPriceLevel_lt newLastPL s).
Proof.
  rewrite relocate_bid. destruct s as [|e s]; [left; reflexivity|].
  destruct (isnan (price newLastPL)); simpl; [|left; reflexivity].
  destruct (isnan (price e)) eqn:E; [|left; reflexivity].
  right. split; [reflexivity|]. intros e' He'. simpl in He'. injection He' as <-. exact E.
Qed.

Lemma processSideAddition_bid_cursor (past_the_end : list PriceLevel -> PriceLevel)
    (a : PriceLevel) (st st' : SideState) (levelsNumber : nat) :
  processSideAddition BidPriceLevel_lt past_the_end a st levelsNumber = Ok st' ->
  bid_cursor (storage st') (lastElementIter st').
Proof.
  unfold processSideAddition. intros H. run_outcome.
  repeat break_match_in H; inversion H; subst; simpl;
    try (left; reflexivity); apply relocate_bid_cursor.
Qed.

Lemma processSideUpdate_bid_cursor (past_the_end : list PriceLevel -> PriceLevel)
    (a : PriceLevel) (st st' : SideState) (levelsNumber : nat) :
  processSideUpdate BidPriceLevel_lt past_the_end a st levelsNumber = Ok st' ->
  bid_cursor (storage st') (lastElementIter st').
Proof.
  unfold processSideUpdate. intros H. run_outcome.
  repeat break_match_in H; inversion H; subst; simpl;
    try (left; reflexivity); apply relocate_bid_cursor.
Qed.

Lemma processSideRemoval_bid_cursor (past_the_end : list PriceLevel -> PriceLevel)
    (a : PriceLevel) (st st' : SideState) (levelsNumber : nat) :
  processSideRemoval BidPriceLevel_lt past_the_end a st levelsNumber = Ok st' ->
  bid_cursor (storage st) (lastElementIter st) ->
  bid_cursor (storage st') (lastElementIter st').
Proof.
  unfold processSideRemoval. intros H Hl.
  destruct (storage st) as [|e s] eqn:Es.
  - inversion H; subst. rewrite Es. exact Hl.
  - run_outcome.
    repeat break_match_in H; inversion H; subst; simpl;
      try (left; reflexivity); apply relocate_bid_cursor.
Qed.

Lemma forEach_bid_cursor (f : PriceLevel -> SideState -> nat -> outcome SideState)
    (levelsNumber : nat) :
  (forall l st st', f l st levelsNumber = Ok st' ->
     bid_cursor (storage st) (lastElementIter st) ->
     bid_cursor (storage st') (lastElementIter st')) ->
  forall ls st st', forEach f ls st levelsNumber = Ok st' ->
    bid_cursor (storage st) (lastElementIter st) ->
    bid_cursor (storage st') (lastElementIter st').
Proof.
  intros Hf ls. induction ls as [|l ls IH]; simpl; intros st st' H Hl.
  - inversion H; subst; assumption.
  - run_outcome. destruct (f l st levelsNumber) as [st1|] eqn:E; [|discriminate].
    eapply IH; eauto.
Qed.

Lemma applySide_bid_cursor (past_the_end : list PriceLevel -> PriceLevel)
    (us store : list PriceLevel) (last : iterator) (levelsNumber : nat) (st : SideState) :
  applySide BidPriceLevel_lt past_the_end us store last levelsNumber = Ok st ->
  bid_cursor store last ->
  bid_cursor (storage st) (lastElementIter st).
Proof.
  unfold applySide. intros H Hl. run_outcome.
  destruct (generateAll _ _ _ _) as [c|]; [|discriminate]. simpl in H.
  destruct (forEach (processSideRemoval _ _) _ _ _) as [st1|] eqn:E1; [|discriminate].
  simpl in H.
  destruct (forEach (processSideAddition _ _) _ _ _) as [st2|] eqn:E2; [|discriminate].
  simpl in H.
  eapply forEach_bid_cursor in E1;
    [|intros; eapply processSideRemoval_bid_cursor; eauto|exact Hl].
  eapply forEach_bid_cursor in E2;
    [|intros; eapply processSideAddition_bid_cursor; eauto|exact E1].
  eapply forEach_bid_cursor in H;
    [exact H|intros; eapply processSideUpdate_bid_cursor; eauto|exact E2].
Qed.

Lemma processSnapshotData_bid_cursor (past_the_end : list PriceLevel -> PriceLevel)
    (records : list dxf_order_t) (newSnapshot : Z) (b b' : PriceLevelBook)
    (cs : list Callback) :
  processSnapshotData past_the_end records newSnapshot b = Ok (b', cs) ->
  bid_cursor (bids_ b) (lastBid_ b) -> bid_cursor (bids_ b') (lastBid_ b').
Proof.
  unfold processSnapshotData. intros H Hl.
  set (b0 := if negb (newSnapshot =? 0) then clearBook b else b) in *.
  assert (bid_cursor (bids_ b0) (lastBid_ b0)) as Hl0.
  { unfold b0. destruct (negb _); [|exact Hl]. simpl.
    destruct Hl as [Hl|[Hl _]]; [left; exact Hl|right].
    split; [exact Hl|]. intros e He. discriminate. }
  clearbody b0. destruct records as [|r rs].
  - inversion H; subst. exact Hl0.
  - run_outcome.
    destruct (convertToUpdates _ _) as [[ledger us]|]; [|discriminate]. simpl in H.
    unfold applyUpdates in H. run_outcome.
    destruct (applySide AskPriceLevel_lt _ _ _ _ _) as [a|] eqn:Ea; [|discriminate].
    simpl in H.
    destruct (applySide BidPriceLevel_lt _ _ _ _ _) as [d|] eqn:Ed; [|discriminate].
    simpl in H. apply applySide_bid_cursor in Ed; [|exact Hl0].
    repeat break_match_in H; inversion H; subst; simpl; exact Ed.
Qed.

Lemma processAll_bid_cursor (past_the_end : list PriceLevel -> PriceLevel)
    (batches : list (list dxf_order_t * Z)) (b b' : PriceLevelBook)
    (cs : list Callback) :
  bid_cursor (bids_ b) (lastBid_ b) ->
  processAll past_the_end batches b = Ok (b', cs) ->
  bid_cursor (bids_ b') (lastBid_ b').
Proof.
  revert b cs. induction batches as [|[records newSnapshot] rest IH]; intros b cs Hl H.
  - inversion H; subst. exact Hl.
  - simpl in H. run_outcome.
    destruct (processSnapshotData _ _ _ _) as [[b1 cs1]|] eqn:E; [|discriminate].
    simpl in H. apply processSnapshotData_bid_cursor in E; [|exact Hl].
    destruct (processAll _ rest b1) as [[b2 cs2]|] eqn:E2; [|discriminate].
    simpl in H. inversion H; subst. eapply IH; eauto.
Qed.

(** X17.  Whatever the depth cap, after every run of the listener from a
    fresh book that is defined, [getAsks] returns the whole ask store, and
    [getBids] returns the whole bid store unless the bid iterator points at
    the first bid level, which then has a NaN price (or is gone): the
    templates never leave an iterator between two levels with real prices,
    so the cap never selects the best levels of a side. *)
Theorem X17_cap_never_shortens_the_view (past_the_end : list PriceLevel -> PriceLevel)
    (levelsNumber : nat) (batches : list (list dxf_order_t * Z))
    (b : PriceLevelBook) (cs : list Callback) :
  processAll past_the_end batches (create levelsNumber) = Ok (b, cs) ->
  getAsks b = Ok (asks_ b)
  /\ (getBids b = Ok (bids_ b)
      \/ lastBid_ b = it_at 0
         /\ forall e, nth_error (bids_ b) 0 = Some e -> isnan (price e) = true).
Proof.
  intros H. split.
  - apply (getAsks_is_whole_store past_the_end batches (create levelsNumber) b cs);
      [reflexivity|exact H].
  - apply processAll_bid_cursor in H; [|left; reflexivity].
    destruct H as [H|H]; [left|right; exact H].
    unfold getBids. rewrite H. reflexivity.
Qed.

Lemma two_asks_one_by_one_run :
  processAll default_past_the_end two_asks_one_by_one (create 1)
  = Ok (mk_PriceLevelBook 1 [mk_PriceLevel 10 5 0; mk_PriceLevel 11 3 0] it_end [] it_end
          {[ 1 := mk_OrderData 1 10 5 0 dxf_osd_sell;
             2 := mk_OrderData 2 11 3 0 dxf_osd_sell ]} false false false, []).
Proof. vm_compute. reflexivity. Qed.

Lemma X17_cap_never_shortens_the_view_witness :
  exists b cs,
    processAll default_past_the_end two_asks_one_by_one (create 1) = Ok (b, cs)
    /\ getAsks b = Ok [mk_PriceLevel 10 5 0; mk_PriceLevel 11 3 0].
Proof.
  pose proof two_asks_one_by_one_run as H.
  destruct (X17_cap_never_shortens_the_view default_past_the_end 1 two_asks_one_by_one
              _ _ H) as [Ha _].
  do 2 eexists. split; [exact H|exact Ha].
Defined.

(** ** What the depth cap leaves alone *)

Lemma processSideRemoval_store (lt : PriceLevel -> PriceLevel -> bool)
    (past_the_end : list PriceLevel -> PriceLevel) :
  store_step (processSideRemoval lt past_the_end).
Proof.
  intros r st st' st0 c H Hs Hl. unfold processSideRemoval in *. rewrite Hs.
  destruct (storage st) as [|e s] eqn:Es.
  - inversion H; subst. exists st0. rewrite Es. auto.
  - change (0 =? 0)%nat with true. cbv iota.
    destruct (set_erase (e :: s) (set_find lt r (e :: s))) as [s'|] eqn:Ee.
    + run_outcome. eexists. split; [reflexivity|]. split; [|reflexivity]. simpl.
      repeat break_match_in H; inversion H; subst; reflexivity.
    + run_outcome. repeat break_match_in H; discriminate.
Qed.

Lemma processSideAddition_store (lt : PriceLevel -> PriceLevel -> bool)
    (past_the_end : list PriceLevel -> PriceLevel) :
  store_step (processSideAddition lt past_the_end).
Proof.
  intros a st st' st0 c H Hs Hl. unfold processSideAddition in *. rewrite Hs.
  change (0 =? 0)%nat with true. cbv iota.
  eexists. split; [reflexivity|]. split; [|reflexivity]. simpl.
  run_outcome. repeat break_match_in H; inversion H; subst; reflexivity.
Qed.

Lemma processSideUpdate_store (lt : PriceLevel -> PriceLevel -> bool)
    (past_the_end : list PriceLevel -> PriceLevel) :
  store_step (processSideUpdate lt past_the_end).
Proof.
  intros a st st' st0 c H Hs Hl. unfold processSideUpdate in *. rewrite Hs.
  change (0 =? 0)%nat with true. cbv iota.
  eexists. split; [reflexivity|]. split; [|reflexivity]. simpl.
  run_outcome. repeat break_match_in H; inversion H; subst; reflexivity.
Qed.

Lemma forEach_store (f : PriceLevel -> SideState -> nat -> outcome SideState) :
  store_step f ->
  forall ls st st' st0 c,
    forEach f ls st c = Ok st' -> storage st0 = storage st ->
    lastElementIter st0 = it_end ->
    exists st0', forEach f ls st0 0%nat = Ok st0' /\ storage st0' = storage st'
                 /\ lastElementIter st0' = it_end.
Proof.
  intros Hf ls. induction ls as [|l ls IH]; simpl; intros st st' st0 c H Hs Hl.
  - inversion H; subst. eauto.
  - run_outcome. destruct (f l st c) as [st1|] eqn:E; [|discriminate].
    destruct (Hf _ _ _ _ _ E Hs Hl) as (st1' & -> & Hs1 & Hl1).
    eapply IH; eauto.
Qed.

Lemma applySide_store (lt : PriceLevel -> PriceLevel -> bool)
    (past_the_end : list PriceLevel -> PriceLevel)
    (us store : list PriceLevel) (last : iterator) (c : nat) (st : SideState) :
  applySide lt past_the_end us store last c = Ok st ->
  exists st0, applySide lt past_the_end us store it_end 0 = Ok st0
              /\ storage st0 = storage st /\ lastElementIter st0 = it_end.
Proof.
  unfold applySide. intros H. run_outcome.
  destruct (generateAll _ _ _ _) as [cl|]; [|discriminate]. simpl in *.
  destruct (forEach (processSideRemoval _ _) _ _ c) as [st1|] eqn:E1; [|discriminate].
  simpl in H.
  destruct (forEach (processSideAddition _ _) _ _ c) as [st2|] eqn:E2; [|discriminate].
  simpl in H.
  destruct (forEach_store _ (processSideRemoval_store lt past_the_end) _ _ _
              (mk_SideState store it_end [] [] []) _ E1 eq_refl eq_refl)
    as (st1' & -> & Hs1 & Hl1).
  destruct (forEach_store _ (processSideAddition_store lt past_the_end) _ _ _
              st1' _ E2 Hs1 Hl1) as (st2' & -> & Hs2 & Hl2).
  apply (forEach_store _ (processSideUpdate_store lt past_the_end) _ _ _ st2' _ H Hs2 Hl2).
Qed.

Lemma applyUpdates_store (past_the_end : list PriceLevel -> PriceLevel)
    (deltas : PriceLevelChanges) (b b' : PriceLevelBook) (c : PriceLevelChangesSet) :
  applyUpdates past_the_end deltas b = Ok (b', c) ->
  exists c0, applyUpdates past_the_end deltas (uncapped b) = Ok (uncapped b', c0).
Proof.
  unfold applyUpdates. intros H. run_outcome.
  destruct (applySide AskPriceLevel_lt _ _ _ _ _) as [a|] eqn:Ea; [|discriminate].
  simpl in H.
  destruct (applySide BidPriceLevel_lt _ _ _ _ _) as [d|] eqn:Ed; [|discriminate].
  simpl in H. inversion H; subst. clear H.
  destruct (applySide_store _ _ _ _ _ _ _ Ea) as (a0 & -> & Hsa & Hla).
  destruct (applySide_store _ _ _ _ _ _ _ Ed) as (d0 & -> & Hsd & Hld).
  unfold uncapped. simpl. rewrite Hsa, Hla, Hsd, Hld. eauto.
Qed.

Lemma processSnapshotData_store (past_the_end : list PriceLevel -> PriceLevel)
    (records : list dxf_order_t) (newSnapshot : Z) (b b' : PriceLevelBook)
    (cs : list Callback) :
  processSnapshotData past_the_end records newSnapshot b = Ok (b', cs) ->
  exists cs0,
    processSnapshotData past_the_end records newSnapshot (uncapped b)
    = Ok (uncapped b', cs0).
Proof.
  unfold processSnapshotData. intros H.
  assert ((if negb (newSnapshot =? 0) then clearBook (uncapped b) else uncapped b)
          = uncapped (if negb (newSnapshot =? 0) then clearBook b else b)) as ->
    by (destruct (negb _); reflexivity).
  set (b0 := if negb (newSnapshot =? 0) then clearBook b else b) in *.
  clearbody b0. destruct records as [|r rs].
  - inversion H; subst. eauto.
  - change (orderDataSnapshot_ (uncapped b0)) with (orderDataSnapshot_ b0).
    run_outcome.
    destruct (convertToUpdates _ _) as [[ledger us]|]; [|discriminate]. simpl in *.
    destruct (applyUpdates _ _ (with_ledger b0 ledger)) as [[b1 c]|] eqn:Ea;
      [|discriminate].
    simpl in H.
    destruct (applyUpdates_store _ _ _ _ _ Ea) as (c0 & Ea0).
    change (with_ledger (uncapped b0) ledger) with (uncapped (with_ledger b0 ledger)).
    rewrite Ea0. simpl.
    assert (b' = b1) as ->.
    { repeat break_match_in H; inversion H; subst; reflexivity. }
    repeat match goal with
           | |- context [if ?x then _ else _] => destruct x
           end; simpl; eauto.
Qed.

(** X18.  The depth cap never changes what is stored.  Whenever a run of the
    listener is defined, the same run on the book without a cap (the same
    stores, ledger and handlers, cap 0, both iterators at [end()]) is
    defined too and ends with the same ask store, the same bid store, the
    same ledger and the same handlers: the cap acts on the iterators and on
    the change-sets only. *)
Theorem X18_cap_leaves_stores_alone (past_the_end : list PriceLevel -> PriceLevel)
    (batches : list (list dxf_order_t * Z)) (b b' : PriceLevelBook)
    (cs : list Callback) :
  processAll past_the_end batches b = Ok (b', cs) ->
  exists cs0, processAll past_the_end batches (uncapped b) = Ok (uncapped b', cs0).
Proof.
  revert b cs. induction batches as [|[records newSnapshot] rest IH]; intros b cs H.
  - inversion H; subst. simpl. eauto.
  - simpl in H. run_outcome.
    destruct (processSnapshotData _ _ _ b) as [[b1 cs1]|] eqn:E; [|discriminate].
    simpl in H.
    destruct (processAll _ rest b1) as [[b2 cs2]|] eqn:E2; [|discriminate].
    simpl in H. inversion H; subst.
    destruct (processSnapshotData_store _ _ _ _ _ _ E) as (cs0 & E0).
    destruct (IH _ _ E2) as (cs0' & E0').
    simpl. rewrite E0. simpl. rewrite E0'. simpl. eauto.
Qed.

Lemma nan_bid_book_run :
  processAll default_past_the_end [ ([mk_order 1 NaN 5 0 dxf_osd_buy 0], 0) ] (create 1)
  = Ok (nan_bid_book, []).
Proof. vm_compute. reflexivity. Qed.

Lemma X18_cap_leaves_stores_alone_witness :
  exists cs0,
    processAll default_past_the_end [ ([mk_order 1 NaN 5 0 dxf_osd_buy 0], 0) ] (create 0)
    = Ok (mk_PriceLevelBook 0 [] it_end [mk_PriceLevel NaN 5 0] it_end
            {[ 1 := mk_OrderData 1 NaN 5 0 dxf_osd_buy ]} false false false, cs0).
Proof.
  exact (X18_cap_leaves_stores_alone default_past_the_end _ _ _ _ nan_bid_book_run).
Defined.
